(** * bob.devtools: channels, stability, deployment and the nightly pipeline

  A shallow embedding of the decision logic of [bob.devtools]
  ([ci/bootstrap.py], [bob/devtools/ci.py], [bob/devtools/pipelines.py],
  [bob/devtools/scripts/ci.py], [bob/devtools/scripts/build.py],
  [bob/devtools/scripts/dav.py]), the properties its specification states
  about it and further properties the code has.

  Python values are modelled as the code uses them: [os.environ] is a finite
  map from names to strings, exceptions are an explicit result type,
  commands that log, mutate the environment or talk to external tools run
  in a state-and-exception monad whose state carries the environment, the
  local file system, the remote WebDAV store and the trace of everything
  the command printed or asked an external collaborator to do. *)

From Stdlib Require Import ZArith String Ascii List Lia DecimalString.
From Stdlib Require DecimalN.
From stdpp Require Import base strings gmap list.

Local Open Scope string_scope.
Local Open Scope list_scope.
Local Open Scope stdpp_scope.

(** ** Python runtime *)

Module Py.

(** The exceptions the modelled code can raise.  [ExternalError] is what an
    external tool (git, conda-build, twine, the HTTP client, the WebDAV
    client) raises. *)
Inductive exn : Type :=
| KeyError (key : string)
| ValueError (msg : string)
| IndexError (msg : string)
| AttributeError (msg : string)
| TypeError (msg : string)
| RuntimeError (msg : string)
| ExternalError (tool msg : string).

Inductive result (A : Type) : Type :=
| Ok (a : A)
| Raise (e : exn).
Arguments Ok {A} a.
Arguments Raise {A} e.

Definition is_ok {A} (r : result A) : bool :=
  match r with Ok _ => true | Raise _ => false end.

(** Sequencing of computations that may raise: the first exception ends the
    computation. *)
#[global] Instance result_ret : MRet result := fun A a => Ok a.
#[global] Instance result_bind : MBind result :=
  fun A B f m => match m with Ok a => f a | Raise e => Raise e end.

(** Log records of the [logging] module. *)
Inductive level : Type := DEBUG | INFO | WARNING | ERROR.

Definition log_record : Type := level * string.

(** The double-quote character, for messages that contain it. *)
Definition dq : string := String (ascii_of_nat 34) EmptyString.

(** [os.environ] *)
Abbreviation environ := (gmap string string).

(** [os.environ[key]]: a missing key raises [KeyError]. *)
Definition env_getitem (env : environ) (key : string) : result string :=
  match env !! key with
  | Some v => Ok v
  | None => Raise (KeyError key)
  end.

(** [key in os.environ] *)
Definition env_contains (env : environ) (key : string) : bool :=
  bool_decide (is_Some (env !! key)).

(** [s.startswith(p)] *)
Definition startswith (s p : string) : bool := String.prefix p s.

(** [s[1:]] *)
Definition slice_from_1 (s : string) : string :=
  match s with
  | EmptyString => EmptyString
  | String _ rest => rest
  end.

(** [sep.join(l)] *)
Fixpoint join (sep : string) (l : list string) : string :=
  match l with
  | [] => ""
  | [x] => x
  | x :: rest => x +:+ sep +:+ join sep rest
  end.

(** [str(n)] and ["%d" % n] for a natural number. *)
Definition str_of_nat (n : nat) : string :=
  NilZero.string_of_uint (Nat.to_uint n).

End Py.
Export Py.

(** ** [ci/bootstrap.py] *)

Module Bootstrap.

Definition server : string := "http://www.idiap.ch".

(** [get_local_channels()]: the conda channels to consider, most specific
    first.  The two inputs are read from the process environment:
    [public = os.environ['CI_PROJECT_VISIBILITY'] == 'public'] and
    [stable = os.environ.get('CI_COMMIT_TAG') is not None]. *)
Definition get_local_channels (env : environ) : result (list string) :=
  match env_getitem env "CI_PROJECT_VISIBILITY" with
  | Raise e => Raise e
  | Ok visibility =>
    let public := bool_decide (visibility = "public") in
    let stable := bool_decide (is_Some (env !! "CI_COMMIT_TAG")) in
    let channels := [] in
    let channels :=
      if negb public then
        let channels :=
          if negb stable
          then channels ++ [server +:+ "/private/conda/label/beta"]
          else channels in
        channels ++ [server +:+ "/private/conda"]
      else channels in
    let channels :=
      if negb stable
      then channels ++ [server +:+ "/public/conda/label/beta"]
      else channels in
    let channels := channels ++ [server +:+ "/public/conda"] in
    Ok channels
  end.

End Bootstrap.

(** ** [bob/devtools/ci.py] *)

Module CI.

(** *** [distutils.version.LooseVersion]

    [LooseVersion.parse] splits the version string with the regular
    expression [(\d+ | [a-z]+ | \.)], drops the empty pieces and the dots and
    turns every piece that [int()] accepts into an integer. *)

Inductive component : Type :=
| CInt (n : N)
| CStr (s : string).

(** [isinstance(k, str)] *)
Definition is_str (k : component) : bool :=
  match k with CStr _ => true | CInt _ => false end.

Inductive char_class : Type := Digit | Lower | Dot | Other.

Definition classify (c : ascii) : char_class :=
  let n := N_of_ascii c in
  if ((48 <=? n) && (n <=? 57))%N then Digit
  else if ((97 <=? n) && (n <=? 122))%N then Lower
  else if (n =? 46)%N then Dot
  else Other.

(** Scanner state of [re.split]: inside the text that separates two matches,
    or inside a match of [\d+] (resp. [[a-z]+]) that is still growing. *)
Inductive scan : Type :=
| InGap (gap : string)
| InMatch (digits : bool) (text : string).

Definition snoc (s : string) (c : ascii) : string := s +:+ String c "".

(** [component_re.split(vstring)]: the pieces between the matches (possibly
    empty) interleaved with the matches themselves, since the pattern is a
    capturing group. *)
Fixpoint re_split_go (st : scan) (s : string) : list string :=
  match s with
  | EmptyString =>
    match st with
    | InGap gap => [gap]
    | InMatch _ text => [text; ""]
    end
  | String c rest =>
    match st, classify c with
    | InGap gap, Other => re_split_go (InGap (snoc gap c)) rest
    | InGap gap, Digit => gap :: re_split_go (InMatch true (String c "")) rest
    | InGap gap, Lower => gap :: re_split_go (InMatch false (String c "")) rest
    | InGap gap, Dot => gap :: "." :: re_split_go (InGap "") rest
    | InMatch true text, Digit => re_split_go (InMatch true (snoc text c)) rest
    | InMatch false text, Lower => re_split_go (InMatch false (snoc text c)) rest
    | InMatch _ text, Other => text :: re_split_go (InGap (String c "")) rest
    | InMatch _ text, Digit => text :: "" :: re_split_go (InMatch true (String c "")) rest
    | InMatch _ text, Lower => text :: "" :: re_split_go (InMatch false (String c "")) rest
    | InMatch _ text, Dot => text :: "" :: "." :: re_split_go (InGap "") rest
    end
  end.

Definition component_re_split (vstring : string) : list string :=
  re_split_go (InGap "") vstring.

Definition is_digit (c : ascii) : bool :=
  match classify c with Digit => true | _ => false end.

Definition digit_value (c : ascii) : N := (N_of_ascii c - 48)%N.

Fixpoint all_chars (p : ascii -> bool) (s : string) : bool :=
  match s with
  | EmptyString => true
  | String c rest => p c && all_chars p rest
  end.

Fixpoint decimal_go (acc : N) (s : string) : N :=
  match s with
  | EmptyString => acc
  | String c rest => decimal_go (10 * acc + digit_value c)%N rest
  end.

(** [int(obj)] on a piece of the split: it succeeds on a run of decimal
    digits and raises [ValueError] (modelled by [None]) on every other piece,
    none of which contains a digit. *)
Definition py_int (obj : string) : option N :=
  match obj with
  | EmptyString => None
  | _ => if all_chars is_digit obj then Some (decimal_go 0 obj) else None
  end.

(** [[x for x in component_re.split(vstring) if x and x != '.']] followed by
    the [int()] attempt on every component. *)
Definition parse (vstring : string) : list component :=
  let components :=
    List.filter (fun x => negb (String.eqb x "") && negb (String.eqb x "."))
                (component_re_split vstring) in
  List.map (fun obj => match py_int obj with
                       | Some n => CInt n
                       | None => CStr obj
                       end) components.

(** [LooseVersion(vstring).version].  The constructor parses only a
    non-empty string ([if vstring: self.parse(vstring)]); on the empty string
    the attribute [version] was never set. *)
Definition LooseVersion_version (vstring : string) : result (list component) :=
  match vstring with
  | EmptyString =>
    Raise (AttributeError "'LooseVersion' object has no attribute 'version'")
  | _ => Ok (parse vstring)
  end.

(** *** The git repository, as [is_master] reads it through GitPython *)

Definition commit : Type := string.

(** A repository: its references (full name to commit) and, for each
    revision that resolves, the commits [iter_commits(rev)] yields. *)
Record Repo : Type := {
  refs : gmap string commit;
  rev_list : gmap string (list commit)
}.

(** The repositories on disk, by directory. *)
Abbreviation git_world := (gmap string Repo).

(** [git.Repo(repodir)] *)
Definition git_Repo (git : git_world) (repodir : string) : result Repo :=
  match git !! repodir with
  | Some repo => Ok repo
  | None => Raise (ExternalError "git" "InvalidGitRepositoryError")
  end.

(** [repo.tag(path).commit] *)
Definition tag_commit (repo : Repo) (path : string) : result commit :=
  match refs repo !! path with
  | Some c => Ok c
  | None => Raise (ExternalError "git" "reference does not exist")
  end.

(** [repo.iter_commits(rev=rev)], consumed by the [in] operator. *)
Definition iter_commits (repo : Repo) (rev : string) : result (list commit) :=
  match rev_list repo !! rev with
  | Some commits => Ok commits
  | None => Raise (ExternalError "git" "GitCommandError")
  end.

(** [is_master(refname, tag, repodir)] *)
Definition is_master (git : git_world) (refname : string) (tag : option string)
    (repodir : string) : result bool :=
  match tag with
  | Some tag =>
    repo ← git_Repo git repodir;
    _tag_commit ← tag_commit repo ("refs/tags/" +:+ tag);
    commits ← iter_commits repo "master";
    Ok (bool_decide (_tag_commit ∈ commits))
  | None => Ok (bool_decide (refname = "master"))
  end.

(** [parsed_tag = distutils.version.LooseVersion(tag[1:]).version] *)
Definition parsed_tag (tag : string) : result (list component) :=
  LooseVersion_version (slice_from_1 tag).

Definition msg_project_tag (package tag : string) : log_record :=
  (INFO, "Project " +:+ package +:+ " tag is " +:+ dq +:+ tag +:+ dq).

Definition msg_prerelease : log_record :=
  (WARNING, "Pre-release detected - not publishing to stable channels").

Definition msg_non_master (tag : string) : log_record :=
  (WARNING, "Tag " +:+ tag +:+ " in non-master branch will be ignored").

Definition msg_no_tag : list log_record :=
  [ (INFO, "No tag information available at build");
    (INFO, "Considering this to be a pre-release build") ].

(** [is_stable(package, refname, tag, repodir)]: the records it logged, in
    order, and what it returned or raised. *)
Definition is_stable (git : git_world) (package refname : string)
    (tag : option string) (repodir : string) : list log_record * result bool :=
  match tag with
  | Some t =>
    let logged := [msg_project_tag package t] in
    match parsed_tag t with
    | Raise e => (logged, Raise e)
    | Ok parsed_tag =>
      let is_prerelease := existsb is_str parsed_tag in
      if is_prerelease then (logged ++ [msg_prerelease], Ok false)
      else
        match is_master git refname tag repodir with
        | Raise e => (logged, Raise e)
        | Ok true => (logged, Ok true)
        | Ok false => (logged ++ [msg_non_master t], Ok false)
        end
    end
  | None => (msg_no_tag, Ok false)
  end.

End CI.

(** ** The world the commands run in *)

Module World.

(** YAML values as they occur in a condarc file. *)
Inductive yaml : Type :=
| YStr (s : string)
| YBool (b : bool)
| YList (l : list string).

(** The options of a conda configuration ([condarc_options], a [dict]). *)
Abbreviation condarc := (gmap string yaml).

(** The remote WebDAV store: what each remote location holds, identified by
    the local path it was uploaded from. *)
Abbreviation dav_store := (gmap string string).

(** Constants of [bob/devtools/constants.py], which is not among the
    sources: they are parameters of the development. *)
Class Constants : Type := {
  SERVER : string;
  CONDA_BUILD_CONFIG : string;
  CONDA_RECIPE_APPEND : string;
  BASE_CONDARC : string;
  MATPLOTLIB_RCDIR : string;
  BOBRC_PATH : string;
  (** the URL of a path in the private or the public WebDAV area *)
  dav_get_url : bool -> string -> string
}.

(** The local file system, seen through [os.path], [glob] and [open].  Its
    representation is left open. *)
Class LocalFS : Type := {
  FS : Type;
  os_path_exists : FS -> string -> bool;
  os_path_isdir : FS -> string -> bool;
  os_path_realpath : FS -> string -> string;
  glob_glob : FS -> string -> list string;
  read_text : FS -> string -> result string;
  read_lines : FS -> string -> result (list string);
  os_makedirs : FS -> string -> result FS;
  shutil_rmtree : FS -> string -> result FS
}.

(** Everything an external tool can observe. *)
Record world {local_fs : LocalFS} : Type := {
  environ_of : environ;
  fs_of : FS;
  dav_of : dav_store
}.

(** The client [setup_webdav_client(private)] returns
    ([bob/devtools/dav.py] is not among the sources).  Setting it up and
    every one of its methods talks to the server of one area ([private] or
    public): the call answers or raises, and a method that writes returns the
    store it leaves.  What the server does with a request is left open. *)
Class WebDAV {local_fs : LocalFS} : Type := {
  setup_webdav_client : world -> bool -> result unit;
  cl_check : world -> bool -> string -> result bool;
  cl_clean : world -> bool -> string -> result dav_store;
  cl_upload_file : world -> bool -> string -> string -> result dav_store;
  cl_upload_directory : world -> bool -> string -> string -> result dav_store
}.

(** [echo_normal], [echo_info] and [echo_warning] of [bob.devtools.log]. *)
Inductive echo_kind : Type := EchoNormal | EchoInfo | EchoWarning.

(** What a command printed, logged, or asked a collaborator to do. *)
Inductive event : Type :=
| Logged (lvl : level) (msg : string)
| Echo (kind : echo_kind) (msg : string)
| Makedirs (path : string)
| Rmtree (path : string)
| GitClone (url to_path branch : string)
| UrlOpen (url : string)
| RunCmdline (cmd : list string)
| CondaBuild (recipe : string) (notest : bool)
| BaseBuild (recipe : string) (python_version : option string)
    (condarc_options : condarc)
| TwineUpload (package : string)
| DeployCondaPackage (package : string) (arch : option string)
    (stable public : bool) (username password : string)
    (overwrite dry_run : bool)
| DavUploadFile (local_path remote_path : string)
| DavUploadDirectory (local_path remote_path : string)
| DavClean (remote_path : string).

Record state {local_fs : LocalFS} : Type := {
  world_of : world;
  trace : list event
}.

(** The external collaborators: version control, HTTP, conda-build, twine
    and the helpers of [bob.devtools.bootstrap] and [bob.devtools.build],
    none of which is among the sources.  Each is a function of its arguments
    and of the world it runs in; tools that write to disk return the new file
    system. *)
Class Tools {local_fs : LocalFS} : Type := {
  Metadata : Type;
  CondaConfig : Type;
  read_packages : FS -> string -> result (list (string * string));
  git_clone_from : world -> string -> string -> string -> result FS;
  urlopen_getcode : world -> string -> result Z;
  yaml_load : string -> result condarc;
  get_channels :
    bool -> bool -> string -> bool -> string -> bool ->
    result (list string * string);
  get_env_directory : world -> string -> string -> result string;
  make_conda_config :
    world -> string -> option string -> string -> condarc -> result CondaConfig;
  get_docserver_setup : bool -> bool -> string -> bool -> string -> result string;
  conda_arch : string;
  run_cmdline : world -> list string -> result FS;
  get_rendered_metadata : world -> string -> CondaConfig -> result Metadata;
  should_skip_build : Metadata -> bool;
  (** [get_parsed_recipe]: the rendered recipe as [yaml.dump] prints it,
      its package name and its version *)
  get_parsed_recipe : Metadata -> result (string * string * string);
  get_output_path : world -> Metadata -> CondaConfig -> result (list string);
  next_build_number : world -> string -> string -> result (nat * list string);
  conda_build_api_build :
    world -> string -> CondaConfig -> bool -> result (list string * FS);
  (** [bob.devtools.build.base_build(bootstrap, server, intranet, use_local,
      group, recipe_dir, conda_build_config, python_version,
      condarc_options)] *)
  build_base_build :
    world -> string -> string -> string -> string -> option string ->
    condarc -> result FS;
  twine_upload : world -> string -> string -> string -> result unit;
  (** [bob.devtools.deploy.deploy_documentation(path, package, stable,
      latest, public, branch, tag, username, password, dry_run)] *)
  deploy_documentation_tool :
    world -> string -> string -> bool -> bool -> bool -> string ->
    option string -> string -> string -> bool -> result dav_store
}.

End World.
Export World.

(** ** [os.path] and [str] methods the commands use *)

Module OsPath.

Definition slash : ascii := ascii_of_nat 47.

Definition is_slash (c : ascii) : bool := Ascii.eqb c slash.

(** [posixpath.join(a, b)] *)
Definition join2 (a b : string) : string :=
  if startswith b "/" then b
  else if String.eqb a "" || String.eqb (substring (String.length a - 1) 1 a) "/"
       then a +:+ b
       else a +:+ "/" +:+ b.

(** [os.path.join(a, *p)] *)
Definition os_path_join (a : string) (p : list string) : string :=
  fold_left join2 p a.

(** The split at the last slash: the head keeps its final slash. *)
Fixpoint split_last (p : string) : string * string :=
  match p with
  | EmptyString => ("", "")
  | String c rest =>
    let '(h, t) := split_last rest in
    if String.eqb h "" then
      if is_slash c then (String c "", t) else ("", String c t)
    else (String c h, t)
  end.

(** [os.path.basename(p)] *)
Definition os_path_basename (p : string) : string := snd (split_last p).

Fixpoint rstrip_slash (s : string) : string :=
  match s with
  | EmptyString => ""
  | String c rest =>
    let r := rstrip_slash rest in
    if String.eqb r "" && is_slash c then "" else String c r
  end.

(** [os.path.dirname(p)] *)
Definition os_path_dirname (p : string) : string :=
  let head := fst (split_last p) in
  if String.eqb (rstrip_slash head) "" then head else rstrip_slash head.

(** [s.split(sep)] for a non-empty separator; [skip] counts the characters
    of a separator that was just matched and is being stepped over. *)
Fixpoint split_go (sep : string) (skip : nat) (s : string) : list string :=
  match s with
  | EmptyString => [""]
  | String c rest =>
    match skip with
    | S k => split_go sep k rest
    | O =>
      if startswith s sep
      then "" :: split_go sep (String.length sep - 1) rest
      else match split_go sep 0 rest with
           | x :: xs => String c x :: xs
           | [] => [String c ""]
           end
    end
  end.

Definition str_split (s sep : string) : list string := split_go sep 0 s.

(** [s.split(sep, 1)] for a one-character separator. *)
Fixpoint split_once (sep : ascii) (s : string) : list string :=
  match s with
  | EmptyString => [""]
  | String c rest =>
    if Ascii.eqb c sep then [""; rest]
    else match split_once sep rest with
         | x :: xs => String c x :: xs
         | [] => [String c ""]
         end
  end.

(** [s.partition(sep)[0]] for a one-character separator. *)
Fixpoint partition_head (sep : ascii) (s : string) : string :=
  match s with
  | EmptyString => ""
  | String c rest => if Ascii.eqb c sep then "" else String c (partition_head sep rest)
  end.

(** [c.isspace()] on ASCII. *)
Definition is_space (c : ascii) : bool :=
  let n := N_of_ascii c in
  ((9 <=? n) && (n <=? 13) || (28 <=? n) && (n <=? 32))%N.

Fixpoint lstrip (s : string) : string :=
  match s with
  | EmptyString => ""
  | String c rest => if is_space c then lstrip rest else s
  end.

Fixpoint rstrip (s : string) : string :=
  match s with
  | EmptyString => ""
  | String c rest =>
    let r := rstrip rest in
    if String.eqb r "" && is_space c then "" else String c r
  end.

(** [s.strip()] *)
Definition strip (s : string) : string := rstrip (lstrip s).

(** [s.replace(".", "")] *)
Fixpoint remove_dots (s : string) : string :=
  match s with
  | EmptyString => ""
  | String c rest =>
    if Ascii.eqb c (ascii_of_nat 46) then remove_dots rest
    else String c (remove_dots rest)
  end.

End OsPath.
Export OsPath.

(** ** The command monad: state and exceptions *)

Module Monad.

(** A command transforms the state and returns a value or raises; what it
    did before raising stays done. *)
Definition M {local_fs : LocalFS} (A : Type) : Type := state -> result A * state.

#[global] Instance M_ret {local_fs : LocalFS} : MRet M := fun A a s => (Ok a, s).

#[global] Instance M_bind {local_fs : LocalFS} : MBind M :=
  fun A B f m s =>
    match m s with
    | (Ok a, s') => f a s'
    | (Raise e, s') => (Raise e, s')
    end.

Section Primitives.
Context {local_fs : LocalFS} {constants : Constants}.

Definition raise {A} (e : exn) : M A := fun s => (Raise e, s).

(** A pure computation that may raise. *)
Definition lift {A} (r : result A) : M A := fun s => (r, s).

Definition get_world : M world := fun s => (Ok (world_of s), s).

Definition put_world (w : world) : M unit :=
  fun s => (Ok tt, {| world_of := w; trace := trace s |}).

Definition emit (e : event) : M unit :=
  fun s => (Ok tt, {| world_of := world_of s; trace := trace s ++ [e] |}).

(** [logger.debug], [logger.info], [logger.warn] *)
Definition logger (lvl : level) (msg : string) : M unit := emit (Logged lvl msg).

(** [echo_normal], [echo_info], [echo_warning] *)
Definition echo (kind : echo_kind) (msg : string) : M unit :=
  emit (Echo kind msg).

Definition set_environ (env : environ) (w : world) : world :=
  {| environ_of := env; fs_of := fs_of w; dav_of := dav_of w |}.

Definition set_fs (fs : FS) (w : world) : world :=
  {| environ_of := environ_of w; fs_of := fs; dav_of := dav_of w |}.

Definition set_dav (dav : dav_store) (w : world) : world :=
  {| environ_of := environ_of w; fs_of := fs_of w; dav_of := dav |}.

(** [os.environ[key]] *)
Definition environ_getitem (key : string) : M string :=
  w ← get_world; lift (env_getitem (environ_of w) key).

(** [os.environ.get(key)] *)
Definition environ_get (key : string) : M (option string) :=
  w ← get_world; mret (environ_of w !! key).

(** [key in os.environ] *)
Definition environ_contains (key : string) : M bool :=
  w ← get_world; mret (env_contains (environ_of w) key).

(** [os.environ[key] = value] *)
Definition environ_setitem (key value : string) : M unit :=
  w ← get_world; put_world (set_environ (<[key := value]> (environ_of w)) w).

(** [del os.environ[key]] *)
Definition environ_delitem (key : string) : M unit :=
  w ← get_world;
  match environ_of w !! key with
  | Some _ => put_world (set_environ (delete key (environ_of w)) w)
  | None => raise (KeyError key)
  end.

(** [os.path.exists(path)] *)
Definition path_exists (path : string) : M bool :=
  w ← get_world; mret (os_path_exists (fs_of w) path).

(** [os.path.isdir(path)] *)
Definition path_isdir (path : string) : M bool :=
  w ← get_world; mret (os_path_isdir (fs_of w) path).

(** A collaborator that only answers. *)
Definition ask {A} (f : world -> result A) : M A :=
  w ← get_world; lift (f w).

(** A collaborator that writes to the local file system. *)
Definition run_on_fs (f : world -> result FS) : M unit :=
  w ← get_world; fs ← lift (f w); put_world (set_fs fs w).

(** A collaborator that writes to the local file system and answers. *)
Definition run_tool {A} (f : world -> result (A * FS)) : M A :=
  w ← get_world;
  '(a, fs) ← lift (f w);
  put_world (set_fs fs w);;
  mret a.

(** A collaborator that writes to the remote store. *)
Definition run_on_dav (f : world -> result dav_store) : M unit :=
  w ← get_world; dav ← lift (f w); put_world (set_dav dav w).

(** A change of the remote store. *)
Definition modify_dav (f : dav_store -> dav_store) : M unit :=
  w ← get_world; put_world (set_dav (f (dav_of w)) w).

(** Whether the remote store holds a resource at [url]. *)
Definition dav_has (url : string) : M bool :=
  w ← get_world; mret (bool_decide (is_Some (dav_of w !! url))).

(** [for x in l: body(x)] *)
Fixpoint for_each {A} (l : list A) (body : A -> M unit) : M unit :=
  match l with
  | [] => mret tt
  | x :: rest => body x;; for_each rest body
  end.

(** [for n, x in enumerate(l): body(n, x)], counting from [n]. *)
Fixpoint for_enumerate {A} (n : nat) (l : list A) (body : nat -> A -> M unit)
    : M unit :=
  match l with
  | [] => mret tt
  | x :: rest => body n x;; for_enumerate (S n) rest body
  end.

(** [if c: body] *)
Definition when (c : bool) (body : M unit) : M unit :=
  if c then body else mret tt.

(** The first keyword of a call that names no parameter of the function
    called. *)
Definition unexpected_keyword (parameters keywords : list string)
    : option string :=
  List.find (fun k => negb (existsb (String.eqb k) parameters)) keywords.

(** [ctx.invoke(command, **keywords)]: the function of the command is called
    with the keywords given (the defaults of the parameters that were not
    named are added).  Python binds the keywords to the parameters before the
    body runs, and a keyword the function has no parameter for raises
    [TypeError]. *)
Definition call_with_keywords {A} (name : string)
    (parameters keywords : list string) (body : M A) : M A :=
  match unexpected_keyword parameters keywords with
  | Some k =>
    raise (TypeError (name +:+ "() got an unexpected keyword argument '" +:+
                      k +:+ "'"))
  | None => body
  end.

End Primitives.

(** The exit status of the process: an uncaught exception ends it with a
    non-zero status. *)
Definition exit_status {A} (r : result A) : Z :=
  match r with Ok _ => 0%Z | Raise _ => 1%Z end.

End Monad.
Export Monad.

(** ** [bob/devtools/deploy.py] *)

Module Deploy.
Section Deploy.
Context {local_fs : LocalFS} {constants : Constants}.

(** Modelled from the spec: the upload channel of [bob/devtools/deploy.py]
    (the table [WEBDAV_PATHS] is not among the sources).  Section 4.1: the
    upload channel is private-beta if private and not stable, private-root
    if private and stable, public-beta if public and not stable, else
    public-root; exactly one is selected. *)
Definition upload_channel (stable public : bool) : string :=
  if negb public then
    if negb stable then SERVER +:+ "/private/conda/label/beta"
    else SERVER +:+ "/private/conda"
  else
    if negb stable then SERVER +:+ "/public/conda/label/beta"
    else SERVER +:+ "/public/conda".

(** Modelled from the spec: the destination of an artifact, not among the
    sources.  Section 4.4: an artifact goes to the architecture-scoped
    upload channel of the architecture it was found under; when the caller
    names no architecture, it is the directory that holds the artifact. *)
Definition destination (package : string) (arch : option string)
    (stable public : bool) : string :=
  let arch := match arch with
              | Some a => a
              | None => os_path_basename (os_path_dirname package)
              end in
  upload_channel stable public +:+ "/" +:+ arch +:+ "/" +:+
  os_path_basename package.

Definition msg_already_exists (remote : string) : string :=
  "The file " +:+ remote +:+
  " already exists on the server - refusing to overwrite it".

(** Modelled from the spec: [deploy_conda_package] of
    [bob/devtools/deploy.py] is not among the sources.  Sections 4.4, 6 and
    7: the artifact store's [upload(path, channel, overwrite)] answers
    success or already-exists; uploading over an existing artifact without
    [overwrite] is fatal, the action is refused and the run aborts with an
    explicit message; dry-run suppresses the upload itself but still takes
    every decision and logs the action that would occur. *)
Definition deploy_conda_package (package : string) (arch : option string)
    (stable public : bool) (username password : string)
    (overwrite dry_run : bool) : M unit :=
  emit (DeployCondaPackage package arch stable public username password
          overwrite dry_run);;
  let remote := destination package arch stable public in
  already_there ← dav_has remote;
  if already_there && negb overwrite then
    raise (RuntimeError (msg_already_exists remote))
  else
    logger INFO ("[dav] " +:+ package +:+ " -> " +:+ remote);;
    if dry_run then mret tt
    else
      emit (DavUploadFile package remote);;
      modify_dav (insert remote package).

End Deploy.
End Deploy.
Export Deploy.

(** ** [bob/devtools/scripts/build.py] *)

Module ScriptsBuild.
Section Build.
Context {local_fs : LocalFS} {constants : Constants} {tools : Tools}.

Definition nl : string := String (ascii_of_nat 10) EmptyString.

(** ["%s" % l] for a list of strings. *)
Definition repr_list (l : list string) : string :=
  "[" +:+ join ", " (List.map (fun x => "'" +:+ x +:+ "'") l) +:+ "]".

(** Modelled from the spec: [set_environment] of [bob/devtools/bootstrap.py]
    is not among the sources; it is the environment-variable plumbing of
    section 1, the assignment [os.environ[name] = value]. *)
Definition set_environment (name value : string) : M unit :=
  environ_setitem name value.

Definition msg_no_directory (d : string) : string :=
  "The directory " +:+ d +:+ " does not exist".

Definition msg_building (name version python : string) (build_number : nat)
    (arch : string) : string :=
  "Building " +:+ name +:+ "-" +:+ version +:+ "-py" +:+
  remove_dots python +:+ " (build: " +:+ str_of_nat build_number +:+
  ") for " +:+ arch.

(** [paths[0]] *)
Definition first_of (paths : list string) : M string :=
  match paths with
  | p :: _ => mret p
  | [] => raise (IndexError "list index out of range")
  end.

(** The body of [for d in recipe_dir] in [build]. *)
Definition build_recipe (recipe_dir : list string) (python : string)
    (no_test dry_run : bool) (upload_channel : string)
    (conda_config : CondaConfig) (arch : string) (d : string) : M unit :=
  present ← path_exists d;
  (if negb present then raise (RuntimeError (msg_no_directory d))
   else mret tt);;
  (* install the yum requirements when running inside docker *)
  let yum_requirements_file := os_path_join d ["yum_requirements.txt"] in
  tags ← environ_get "CI_RUNNER_TAGS";
  has_yum ← path_exists yum_requirements_file;
  when (existsb (String.eqb "docker") (str_split (default "" tags) ", ")
        && has_yum)
    (logger INFO "Installing packages from yum_requirements.txt file using yum";;
     requirements ← ask (fun w => read_lines (fs_of w) yum_requirements_file);
     let cmd := ["/usr/bin/sudo"; "-n"; "yum"; "-y"; "install"] ++ requirements in
     emit (RunCmdline cmd);;
     run_on_fs (fun w => run_cmdline w cmd));;
  let version_candidate := os_path_join d [".."; "version.txt"] in
  has_version ← path_exists version_candidate;
  when has_version
    (version ← ask (fun w => read_text (fs_of w) version_candidate);
     set_environment "BOB_PACKAGE_VERSION" (rstrip version));;
  (* pre-renders the recipe - figures out the destination *)
  metadata ← ask (fun w => get_rendered_metadata w d conda_config);
  (* checks if we should actually build this recipe *)
  if should_skip_build metadata then
    logger INFO ("Skipping UNSUPPORTED build of " +:+ repr_list recipe_dir +:+
                 " for " +:+ arch)
  else
    '(dump, name, version) ← lift (get_parsed_recipe metadata);
    logger INFO "Printing rendered recipe";;
    logger INFO (nl +:+ dump);;
    logger INFO "Finished printing rendered recipe";;
    paths ← ask (fun w => get_output_path w metadata conda_config);
    path ← first_of paths;
    (* gets the next build number *)
    '(build_number, _) ←
      ask (fun w => next_build_number w upload_channel (os_path_basename path));
    logger INFO (msg_building name version python build_number arch);;
    when (negb dry_run)
      (set_environment "BOB_BUILD_NUMBER" (str_of_nat build_number);;
       emit (CondaBuild d no_test);;
       paths ← run_tool (fun w => conda_build_api_build w d conda_config no_test);
       (* the package was successfully rebuilt: signal the caller *)
       environ_setitem "BDT_BUILD" (join ":" paths)).

(** The parameters of [build], as its signature lists them. *)
Definition build_parameters : list string :=
  [ "recipe_dir"; "python"; "condarc"; "config"; "no_test"; "append_file";
    "server"; "group"; "private"; "stable"; "dry_run"; "ci";
    "test_mark_expr" ].

(** [bdt build] *)
Definition build (recipe_dir : list string) (python : string)
    (condarc : option string) (config : string) (no_test : bool)
    (append_file server group : string) (private stable dry_run ci : bool)
    (test_mark_expr : string) : M unit :=
  when dry_run
    (logger WARNING "!!!! DRY RUN MODE !!!!";;
     logger WARNING "Nothing will be really built");;
  w ← get_world;
  let recipe_dir :=
    match recipe_dir with
    | [] => [os_path_join (os_path_realpath (fs_of w) ".") ["conda"]]
    | _ => recipe_dir
    end in
  logger DEBUG ("This package is considered part of group " +:+ dq +:+ group
                +:+ dq +:+ " - tunning conda package and documentation URLs "
                +:+ "for this...");;
  condarc_options ←
    match condarc with
    | Some file =>
      logger INFO ("Loading CONDARC file from " +:+ file +:+ "...");;
      text ← ask (fun w => read_text (fs_of w) file);
      lift (yaml_load text)
    | None => lift (yaml_load BASE_CONDARC)
    end;
  '(channels, upload_channel) ←
    lift (get_channels (negb private) stable server ci group true);
  let condarc_options := <["channels" := YList channels]> condarc_options in
  logger INFO ("Using the following channels during (potential) build:" +:+
               nl +:+ "  - " +:+ join (nl +:+ "  - ") channels);;
  logger INFO ("Uploading resulting package to: " +:+ upload_channel);;
  (* dump packages at base environment *)
  conda_exe ← environ_getitem "CONDA_EXE";
  prefix ← ask (fun w => get_env_directory w conda_exe "base");
  let condarc_options :=
    <["croot" := YStr (os_path_join prefix ["conda-bld"])]> condarc_options in
  conda_config ←
    ask (fun w => make_conda_config w config (Some python) append_file
                    condarc_options);
  set_environment "MATPLOTLIBRC" MATPLOTLIB_RCDIR;;
  set_environment "BOBRC" BOBRC_PATH;;
  doc_urls ← lift (get_docserver_setup (negb private) stable server ci group);
  set_environment "BOB_DOCUMENTATION_SERVER" doc_urls;;
  set_environment "NOSE_EVAL_ATTR" test_mark_expr;;
  set_environment "PYTEST_ADDOPTS" ("-m '" +:+ test_mark_expr +:+ "'");;
  let arch := conda_arch in
  for_each recipe_dir
    (build_recipe recipe_dir python no_test dry_run upload_channel
       conda_config arch).

End Build.
End ScriptsBuild.
Export ScriptsBuild.

(** ** [bob/devtools/scripts/ci.py]: deployment commands *)

Module ScriptsCI.
Section Commands.
Context {local_fs : LocalFS} {constants : Constants} {tools : Tools}.

Definition msg_dry_run_deploy : M unit :=
  logger WARNING "!!!! DRY RUN MODE !!!!";;
  logger WARNING "Nothing is being deployed to server".

(** The architectures every deployment goes through, in this order. *)
Definition archs : list string := ["linux-64"; "osx-64"; "noarch"].

(** [group, name = l]: unpacking raises [ValueError] unless [l] has
    exactly two elements. *)
Definition unpack2 (l : list string) : M (string * string) :=
  match l with
  | [a; b] => mret (a, b)
  | _ => raise (ValueError "wrong number of values to unpack (expected 2)")
  end.

(** [glob.glob(pattern)] *)
Definition glob (pattern : string) : M (list string) :=
  w ← get_world; mret (glob_glob (fs_of w) pattern).

Definition msg_skip_base (k : string) : string :=
  "Skipping deploying of " +:+ k +:+ " - not a base package".

(** The body of [for k in deploy_packages] in [base_deploy]. *)
Definition base_deploy_package (name : string) (dry_run : bool)
    (arch k : string) : M unit :=
  if startswith (os_path_basename k) name then
    logger DEBUG (msg_skip_base k)
  else
    username ← environ_getitem "DOCUSER";
    password ← environ_getitem "DOCPASS";
    deploy_conda_package k (Some arch) true true username password
      false dry_run.

(** The body of [for arch in ('linux-64', 'osx-64', 'noarch')] in
    [base_deploy]. *)
Definition base_deploy_arch (name : string) (dry_run : bool) (arch : string)
    : M unit :=
  (* finds conda dependencies and uploads what we can find *)
  conda_root ← environ_getitem "CONDA_ROOT";
  let package_path :=
    os_path_join conda_root ["conda-bld"; arch; "*.tar.bz2"] in
  deploy_packages ← glob package_path;
  for_each deploy_packages (base_deploy_package name dry_run arch).

(** [bdt ci base-deploy] *)
Definition base_deploy (dry_run : bool) : M unit :=
  when dry_run msg_dry_run_deploy;;
  package ← environ_getitem "CI_PROJECT_PATH";
  '(group, name) ← unpack2 (str_split package "/");
  for_each archs (base_deploy_arch name dry_run).

(** [deploy_documentation] of [bob/devtools/deploy.py], not among the
    sources: it publishes the sphinx output and may change the remote
    store. *)
Definition deploy_documentation
    (path package : string) (stable latest public : bool) (branch : string)
    (tag : option string) (username password : string) (dry_run : bool)
    : M unit :=
  run_on_dav (fun w => deploy_documentation_tool w path package stable latest
                          public branch tag username password dry_run).

(** [bdt ci deploy] *)
Definition deploy (latest dry_run : bool) : M unit :=
  when dry_run msg_dry_run_deploy;;
  package ← environ_getitem "CI_PROJECT_PATH";
  '(group, name) ← unpack2 (str_split package "/");
  stable ← environ_contains "CI_COMMIT_TAG";
  visibility ← environ_getitem "CI_PROJECT_VISIBILITY";
  let public := bool_decide (visibility = "public") in
  for_each archs (fun arch =>
    conda_root ← environ_getitem "CONDA_ROOT";
    let package_path :=
      os_path_join conda_root ["conda-bld"; arch; name +:+ "*.tar.bz2"] in
    deploy_packages ← glob package_path;
    for_each deploy_packages (fun k =>
      username ← environ_getitem "DOCUSER";
      password ← environ_getitem "DOCPASS";
      deploy_conda_package k (Some arch) stable public username password
        false dry_run));;
  project_dir ← environ_getitem "CI_PROJECT_DIR";
  let local_docs := os_path_join project_dir ["sphinx"] in
  branch ← environ_getitem "CI_COMMIT_REF_NAME";
  tag ← environ_get "CI_COMMIT_TAG";
  username ← environ_getitem "DOCUSER";
  password ← environ_getitem "DOCPASS";
  deploy_documentation local_docs package stable latest public branch
    tag username password dry_run.

Definition msg_not_public (path : string) : string :=
  "The repository " +:+ path +:+ " is not public - a package " +:+
  "deriving from it therefore, CANNOT be published to PyPI. " +:+
  "You must follow the relevant software disclosure procedures " +:+
  "and set this repository to " +:+ dq +:+ "public" +:+ dq +:+
  " before trying again.".

(** [bdt ci pypi] *)
Definition pypi (package : list string) (dry_run : bool) : M unit :=
  when dry_run msg_dry_run_deploy;;
  visibility ← environ_getitem "CI_PROJECT_VISIBILITY";
  let public := bool_decide (visibility = "public") in
  (if negb public then
     path ← environ_getitem "CI_PROJECT_PATH";
     raise (RuntimeError (msg_not_public path))
   else mret tt);;
  username ← environ_getitem "PYPIUSER";
  password ← environ_getitem "PYPIPASS";
  when (negb dry_run)
    (for_each package (fun k =>
       logger INFO ("Deploying python package " +:+ k +:+ " to PyPI");;
       emit (TwineUpload k);;
       ask (fun w => twine_upload w username password k);;
       logger INFO (k +:+ ": Deployed to PyPI - OK"))).

Definition rule : string :=
  "================================================================================".

(** The variants file of a recipe directory: the local
    [conda_build_config.yaml] when there is one, else the default. *)
Definition choose_variants_file (recipe_dir : string) : M string :=
  let candidate := os_path_join recipe_dir ["conda_build_config.yaml"] in
  present ← path_exists candidate;
  if (present : bool) then
    logger WARNING ("Using local conda_build_config.yaml from recipe-dir (" +:+
                    candidate +:+ ")instead of default variants file (" +:+
                    CONDA_BUILD_CONFIG +:+ ")");;
    mret candidate
  else mret CONDA_BUILD_CONFIG.

(** The append file of a recipe directory, chosen the same way. *)
Definition choose_append_file (recipe_dir : string) : M string :=
  let candidate := os_path_join recipe_dir ["append_file.yaml"] in
  present ← path_exists candidate;
  if (present : bool) then
    logger WARNING ("Using local recipe_append.yaml from recipe-dir (" +:+
                    candidate +:+ ")instead of default append file (" +:+
                    CONDA_RECIPE_APPEND +:+ ")");;
    mret candidate
  else mret CONDA_RECIPE_APPEND.

(** The recipes of an order file: comments and empty lines are dropped. *)
Definition order_recipes (lines : list string) : list string :=
  List.filter (fun line => negb (String.eqb line ""))
    (List.map (fun line => strip (partition_head (ascii_of_nat 35) line)) lines).

(** [itertools.product(python, recipes)], or with [[None]] for no python. *)
Definition python_recipes (python recipes : list string)
    : list (option string * string) :=
  match python with
  | [] => List.map (fun r => (None, r)) recipes
  | _ => List.flat_map (fun py => List.map (fun r => (Some py, r)) recipes) python
  end.

Definition msg_ignoring (recipe : string) : string :=
  "Ignoring directory " +:+ dq +:+ recipe +:+ dq +:+ " - no meta.yaml found".

(** The body of the loop of [base_build]. *)
Definition base_build_recipe (group : string) (condarc_options : condarc)
    (total order : nat) (entry : option string * string) : M unit :=
  let '(pyver, recipe) := entry in
  echo EchoNormal (nl +:+ rule);;
  echo EchoNormal
    ("Building " +:+ dq +:+ recipe +:+ dq +:+ " " +:+
     match pyver with
     | Some v => "for python-" +:+ v +:+ " "
     | None => ""
     end +:+
     "(" +:+ str_of_nat (order + 1) +:+ "/" +:+ str_of_nat total +:+ ")");;
  echo EchoNormal (rule +:+ nl);;
  present ← path_exists (os_path_join recipe ["meta.yaml"]);
  if negb present then logger INFO (msg_ignoring recipe)
  else
    (* Use custom variants file if available on recipe-dir *)
    variants_file ← choose_variants_file recipe;
    emit (BaseBuild recipe pyver condarc_options);;
    run_on_fs (fun w => build_base_build w SERVER group recipe variants_file
                           pyver condarc_options).

(** [l + v] for a list [l] and the pair [v] that [get_channels] returns
    ([build] unpacks it as [channels, upload_channel]): only a list can be
    concatenated to a list. *)
Definition list_add_pair (l : list string) (v : list string * string)
    : result (list string) :=
  Raise (TypeError ("can only concatenate list (not " +:+ dq +:+ "tuple" +:+
                    dq +:+ ") to list")).

(** [bdt ci base-build].  Without a condarc file the value [get_channels]
    returned is itself put between [['local']] and [['defaults']]. *)
Definition base_build (order group : string) (python : list string)
    (dry_run : bool) : M unit :=
  conda_root ← environ_getitem "CONDA_ROOT";
  let condarc := os_path_join conda_root ["condarc"] in
  present ← path_exists condarc;
  condarc_options ←
    (if (present : bool) then
       logger INFO ("Loading (this build's) CONDARC file from " +:+ condarc
                    +:+ "...");;
       text ← ask (fun w => read_text (fs_of w) condarc);
       lift (yaml_load text)
     else
       (* get potential channel upload and other auxiliary channels *)
       channels ← lift (get_channels true true SERVER true "bob" false);
       (* use default and add channels *)
       condarc_options ← lift (yaml_load BASE_CONDARC);
       local_channels ← lift (list_add_pair ["local"] channels);
       let channels := local_channels ++ ["defaults"] in
       logger INFO ("Using the following channels during build:" +:+ nl +:+
                    "  - " +:+ join (nl +:+ "  - ") channels);;
       mret (<["channels" := YList channels]> condarc_options));
  (* dump packages at conda_root *)
  conda_root ← environ_getitem "CONDA_ROOT";
  let condarc_options :=
    <["croot" := YStr (os_path_join conda_root ["conda-bld"])]>
      condarc_options in
  (* loads dirnames from order file (accepts # comments and empty lines) *)
  lines ← ask (fun w => read_lines (fs_of w) order);
  let recipes := python_recipes python (order_recipes lines) in
  for_enumerate 0 recipes
    (base_build_recipe group condarc_options (length recipes)).

(** The re-deployment step of an iteration of [nightlies]: a package that
    was rebuilt is deployed when the run is on the master branch, and the
    marker [BDT_BUILD] the build left in the environment is removed. *)
Definition redeploy (stable private dry_run : bool) : M unit :=
  ref_name ← environ_getitem "CI_COMMIT_REF_NAME";
  let is_master := bool_decide (ref_name = "master") in
  (* re-deploys a new conda package if it was rebuilt and it is the master
     branch *)
  pending ← environ_contains "BDT_BUILD";
  when (pending && is_master)
    (tarball ← environ_getitem "BDT_BUILD";
     environ_delitem "BDT_BUILD";;
     username ← environ_getitem "DOCUSER";
     password ← environ_getitem "DOCPASS";
     deploy_conda_package tarball None stable (negb private) username
       password false dry_run).

(** The last step of an iteration of [nightlies]: removes the
    documentation to avoid permissions issues with the following projects
    being built. *)
Definition remove_docs (package : string) : M unit :=
  project_dir ← environ_getitem "CI_PROJECT_DIR";
  let local_docs := os_path_join project_dir ["sphinx"] in
  has_docs ← path_exists local_docs;
  when has_docs
    (logger DEBUG ("Sphinx output was generated during test/rebuild of " +:+
                   package +:+ " - Erasing...");;
     emit (Rmtree local_docs);;
     run_on_fs (fun w => shutil_rmtree (fs_of w) local_docs)).

(** The keywords with which [nightlies] invokes [build]. *)
Definition nightlies_build_keywords : list string :=
  [ "recipe_dir"; "python"; "condarc"; "config"; "no_test"; "append_file";
    "server"; "group"; "private"; "stable"; "use_local"; "dry_run"; "ci" ].

(** The body of the loop of [nightlies], for the package at index [n]. *)
Definition nightlies_package (token : string) (dry_run : bool) (total n : nat)
    (entry : string * string) : M unit :=
  let '(package, branch) := entry in
  echo EchoNormal (nl +:+ rule);;
  echo EchoNormal ("Building " +:+ package +:+ "@" +:+ branch +:+ " (" +:+
                   str_of_nat (n + 1) +:+ "/" +:+ str_of_nat total +:+ ")");;
  echo EchoNormal (rule +:+ nl);;
  '(group, name) ← unpack2 (split_once slash package);
  project_dir ← environ_getitem "CI_PROJECT_DIR";
  let clone_to := os_path_join project_dir ["src"; group; name] in
  let dirname := os_path_dirname clone_to in
  present ← path_exists dirname;
  when (negb present)
    (emit (Makedirs dirname);;
     run_on_fs (fun w => os_makedirs (fs_of w) dirname));;
  (* clone the repo, shallow version, on the specified branch *)
  logger INFO ("Cloning " +:+ dq +:+ package +:+ dq +:+ ", branch " +:+ dq +:+
               branch +:+ dq +:+ " (depth=1)...");;
  let url := "https://gitlab-ci-token:" +:+ token +:+ "@gitlab.idiap.ch/" +:+
             package in
  emit (GitClone url clone_to branch);;
  run_on_fs (fun w => git_clone_from w url clone_to branch);;
  (* determine package visibility *)
  emit (UrlOpen ("https://gitlab.idiap.ch/" +:+ package));;
  code ← ask (fun w => urlopen_getcode w ("https://gitlab.idiap.ch/" +:+ package));
  let private := negb (code =? 200)%Z in
  stable ← environ_contains "STABLE";
  (* Use custom variants and append files if available on recipe-dir *)
  let recipe_dir := os_path_join clone_to ["conda"] in
  variants_file ← choose_variants_file recipe_dir;
  append_file ← choose_append_file recipe_dir;
  python ← environ_getitem "PYTHON_VERSION";
  call_with_keywords "build" build_parameters nightlies_build_keywords
    (build [recipe_dir] python None variants_file false append_file SERVER
       group private stable dry_run true "");;
  redeploy stable private dry_run;;
  remove_docs package.

(** [bdt ci nightlies] *)
Definition nightlies (order : string) (dry_run : bool) : M unit :=
  (* loads dirnames from order file (accepts # comments and empty lines) *)
  packages ← ask (fun w => read_packages (fs_of w) order);
  token ← environ_getitem "CI_JOB_TOKEN";
  for_enumerate 0 packages
    (nightlies_package token dry_run (length packages)).

End Commands.
End ScriptsCI.
Export ScriptsCI.

(** ** [bob/devtools/scripts/dav.py] *)

Module ScriptsDav.
Section Commands.
Context {local_fs : LocalFS} {constants : Constants} {webdav : WebDAV}.

Definition msg_dry_run_dav : M unit :=
  echo EchoWarning "!!!! DRY RUN MODE !!!!";;
  echo EchoWarning "Nothing is being executed on server.  Use -x to execute.".

(** [if not path.startswith('/'): path = '/' + path] *)
Definition rooted (path : string) : string :=
  if startswith path "/" then path else "/" +:+ path.

(** [cl = setup_webdav_client(private)] *)
Definition setup_client (private : bool) : M unit :=
  ask (fun w => setup_webdav_client w private).

(** [cl.check(path)] *)
Definition dav_check (private : bool) (path : string) : M bool :=
  ask (fun w => cl_check w private path).

(** [cl.clean(path)] *)
Definition dav_clean (private : bool) (path : string) : M unit :=
  emit (DavClean (dav_get_url private path));;
  run_on_dav (fun w => cl_clean w private path).

(** [cl.upload_file(local_path, remote_path)] *)
Definition dav_upload_file (private : bool) (local_path remote_path : string)
    : M unit :=
  emit (DavUploadFile local_path (dav_get_url private remote_path));;
  run_on_dav (fun w => cl_upload_file w private local_path remote_path).

(** [cl.upload_directory(local_path, remote_path)] *)
Definition dav_upload_directory (private : bool)
    (local_path remote_path : string) : M unit :=
  emit (DavUploadDirectory local_path (dav_get_url private remote_path));;
  run_on_dav (fun w => cl_upload_directory w private local_path remote_path).

(** [bdt dav rmtree], as the function is written (the decorator
    [bdt.raise_on_error] it is wrapped in is not among the sources). *)
Definition rmtree (private execute : bool) (path : string) : M unit :=
  when (negb execute) msg_dry_run_dav;;
  let path := rooted path in
  setup_client private;;
  let remote_path := dav_get_url private path in
  found ← dav_check private path;
  if negb found then
    echo EchoWarning ("resource " +:+ remote_path +:+ " does not exist")
  else
    echo EchoInfo ("rm -rf " +:+ remote_path);;
    when execute (dav_clean private path).

Definition msg_resource_exists (remote_path : string) : string :=
  "resource " +:+ remote_path +:+ " already exists".

Definition msg_remove_first : string :=
  "remove it first before uploading a new copy".

(** The body of [for k in local] in [upload]. *)
Definition upload_one (private execute : bool) (remote k : string) : M unit :=
  let actual_remote := remote +:+ os_path_basename k in
  let remote_path := dav_get_url private actual_remote in
  found ← dav_check private actual_remote;
  if (found : bool) then
    echo EchoWarning (msg_resource_exists remote_path);;
    echo EchoWarning msg_remove_first
  else
    is_dir ← path_isdir k;
    if (is_dir : bool) then
      echo EchoInfo ("cp -r " +:+ k +:+ " " +:+ remote_path);;
      when execute (dav_upload_directory private k actual_remote)
    else
      echo EchoInfo ("cp " +:+ k +:+ " " +:+ remote_path);;
      when execute (dav_upload_file private k actual_remote).

(** [bdt dav upload], as the function is written (the decorator
    [bdt.raise_on_error] it is wrapped in is not among the sources): it
    returns [1] when the base remote directory is missing, [None]
    otherwise. *)
Definition upload (private execute : bool) (local : list string)
    (remote : string) : M (option Z) :=
  when (negb execute) msg_dry_run_dav;;
  let remote := rooted remote in
  setup_client private;;
  found ← dav_check private remote;
  if negb found then
    echo EchoWarning ("base remote directory for upload " +:+ remote +:+
                      " does not exist");;
    mret (Some 1%Z)
  else
    for_each local (upload_one private execute remote);;
    mret None.

End Commands.
End ScriptsDav.
Export ScriptsDav.

(** ** A simulated world

    Concrete collaborators on which the commands can be run: the local file
    system is the list of the paths that exist with the lines of each file, a
    clone creates the package directory and its [conda] recipe directory
    unless the scenario says the package has none, and a build fails exactly
    for the recipes the scenario lists. *)

Module Sim.

Definition sim_fs : Type := list (string * list string).

Definition sim_exists (fs : sim_fs) (path : string) : bool :=
  existsb (fun entry => String.eqb (fst entry) path) fs.

Definition sim_lines (fs : sim_fs) (path : string) : result (list string) :=
  match List.find (fun entry => String.eqb (fst entry) path) fs with
  | Some entry => Ok (snd entry)
  | None => Raise (ExternalError "open" "FileNotFoundError")
  end.

Definition endswith (s suffix : string) : bool :=
  startswith (String.rev s) (String.rev suffix).

(** The text after the first star of a pattern. *)
Fixpoint after_star (s : string) : string :=
  match s with
  | EmptyString => ""
  | String c rest => if Ascii.eqb c (ascii_of_nat 42) then rest else after_star rest
  end.

(** [glob] for a pattern whose last component holds one star. *)
Definition sim_glob (fs : sim_fs) (pattern : string) : list string :=
  let dir := os_path_dirname pattern in
  let base := os_path_basename pattern in
  let before := partition_head (ascii_of_nat 42) base in
  let after := after_star base in
  List.filter
    (fun path =>
       String.eqb (os_path_dirname path) dir
       && startswith (os_path_basename path) before
       && endswith (os_path_basename path) after)
    (List.map fst fs).

Definition sim_remove (fs : sim_fs) (path : string) : sim_fs :=
  List.filter
    (fun entry => negb (String.eqb (fst entry) path
                        || startswith (fst entry) (path +:+ "/"))) fs.

#[export] Instance sim_localfs : LocalFS := {|
  FS := sim_fs;
  os_path_exists := sim_exists;
  os_path_isdir := fun _ _ => false;
  os_path_realpath := fun _ path => path;
  glob_glob := sim_glob;
  read_text := fun fs path =>
    match sim_lines fs path with
    | Ok lines => Ok (join (String (ascii_of_nat 10) "") lines)
    | Raise e => Raise e
    end;
  read_lines := sim_lines;
  os_makedirs := fun fs path => Ok (fs ++ [(path, [])]);
  shutil_rmtree := fun fs path => Ok (sim_remove fs path)
|}.

#[export] Instance sim_constants : Constants := {|
  SERVER := "http://www.idiap.ch";
  CONDA_BUILD_CONFIG := "/data/conda_build_config.yaml";
  CONDA_RECIPE_APPEND := "/data/recipe_append.yaml";
  BASE_CONDARC := "anaconda_upload: false";
  MATPLOTLIB_RCDIR := "/data";
  BOBRC_PATH := "/data/bobrc";
  dav_get_url := fun private path =>
    "http://www.idiap.ch" +:+
    (if private then "/private-upload" else "/public-upload") +:+ path
|}.

(** The collection a remote location names: the location with a final
    slash. *)
Definition collection (url : string) : string :=
  if endswith url "/" then url else url +:+ "/".

(** A resource lies below [url] when its location is [url] itself or lies
    in the collection [url] names. *)
Definition below (url key : string) : bool :=
  String.eqb key url || startswith key (collection url).

(** A server that is always reachable and keeps what it is given: a
    resource exists when the store holds its location, a removal takes the
    resource and everything below it away, an upload puts the resource at its
    location. *)
#[export] Instance sim_webdav : WebDAV := {|
  setup_webdav_client := fun _ _ => Ok tt;
  cl_check := fun w private path =>
    Ok (bool_decide (is_Some (dav_of w !! dav_get_url private path)));
  cl_clean := fun w private path =>
    Ok (filter (fun kv => below (dav_get_url private path) (fst kv) = false)
          (dav_of w));
  cl_upload_file := fun w private local_path remote_path =>
    Ok (<[dav_get_url private remote_path := local_path]> (dav_of w));
  cl_upload_directory := fun w private local_path remote_path =>
    Ok (<[dav_get_url private remote_path := local_path]> (dav_of w))
|}.

(** A server that cannot be reached. *)
Definition unreachable : exn := ExternalError "webdav" "no connection".

Definition sim_webdav_down : WebDAV := {|
  setup_webdav_client := fun _ _ => Raise unreachable;
  cl_check := fun _ _ _ => Raise unreachable;
  cl_clean := fun _ _ _ => Raise unreachable;
  cl_upload_file := fun _ _ _ _ => Raise unreachable;
  cl_upload_directory := fun _ _ _ _ => Raise unreachable
|}.

Record scenario : Type := {
  (** clone destinations whose repository has no [conda] directory *)
  without_recipe : list string;
  (** recipe directories whose build fails *)
  failing : list string
}.

Definition listed (l : list string) (x : string) : bool :=
  existsb (String.eqb x) l.

Definition sim_channels (public stable : bool) (server : string)
    : list string * string :=
  ([server +:+ "/public/conda"],
   if public then server +:+ "/public/conda" else server +:+ "/private/conda").

Definition sim_tools (sc : scenario) : Tools := {|
  Metadata := string;
  CondaConfig := unit;
  read_packages := fun fs order =>
    match sim_lines fs order with
    | Ok lines => Ok (List.map (fun line => (line, "master")) lines)
    | Raise e => Raise e
    end;
  git_clone_from := fun w url to_path branch =>
    Ok (fs_of w ++ [(to_path, [])] ++
        (if listed (without_recipe sc) to_path then []
         else [(os_path_join to_path ["conda"], [])]));
  urlopen_getcode := fun _ _ => Ok 200%Z;
  yaml_load := fun _ => Ok ∅;
  get_channels := fun public stable server intranet group dependent =>
    Ok (sim_channels public stable server);
  get_env_directory := fun _ _ _ => Ok "/conda";
  make_conda_config := fun _ _ _ _ _ => Ok tt;
  get_docserver_setup := fun _ _ server _ _ => Ok (server +:+ "/docs");
  conda_arch := "linux-64";
  run_cmdline := fun w _ => Ok (fs_of w);
  get_rendered_metadata := fun _ d _ => Ok d;
  should_skip_build := fun _ => false;
  get_parsed_recipe := fun d => Ok ("package:", os_path_basename (os_path_dirname d), "1.0");
  get_output_path := fun _ d _ =>
    Ok ["/conda/conda-bld/linux-64/" +:+ os_path_basename (os_path_dirname d)
        +:+ "-1.0-py37_0.tar.bz2"];
  next_build_number := fun _ _ _ => Ok (0, []);
  conda_build_api_build := fun w d _ _ =>
    if listed (failing sc) d
    then Raise (ExternalError "conda-build" "the build failed")
    else Ok (["/conda/conda-bld/linux-64/" +:+
              os_path_basename (os_path_dirname d) +:+ "-1.0-py37_0.tar.bz2"],
             fs_of w);
  build_base_build := fun w _ _ recipe _ _ _ =>
    if listed (failing sc) recipe
    then Raise (ExternalError "conda-build" "the build failed")
    else Ok (fs_of w);
  twine_upload := fun _ _ _ _ => Ok tt;
  deploy_documentation_tool := fun w _ _ _ _ _ _ _ _ _ _ => Ok (dav_of w)
|}.

(** A state with the given environment, files and remote store, and an
    empty trace. *)
Definition initial (env : environ) (fs : sim_fs) (dav : dav_store) : state :=
  {| world_of := {| environ_of := env; fs_of := fs; dav_of := dav |};
     trace := [] |}.

(** The environment of a CI job on the branch [ref_name]. *)
Definition ci_environ (ref_name : string) : environ :=
  list_to_map
    [ ("CI_JOB_TOKEN", "token");
      ("CI_PROJECT_DIR", "/ci");
      ("CI_PROJECT_PATH", "bob/bob.devtools");
      ("CI_PROJECT_VISIBILITY", "public");
      ("CI_COMMIT_REF_NAME", ref_name);
      ("CONDA_ROOT", "/conda");
      ("CONDA_EXE", "/conda/bin/conda");
      ("PYTHON_VERSION", "3.7");
      ("DOCUSER", "user");
      ("DOCPASS", "pass");
      ("PYPIUSER", "user");
      ("PYPIPASS", "pass") ].

(** A scenario in which every package has a recipe and every build
    succeeds. *)
Definition all_fine : scenario := {| without_recipe := []; failing := [] |}.

(** A build tree that holds the package's own output and two dependencies
    collected during the base build. *)
Definition built_tree : sim_fs :=
  [ ("/conda/conda-bld/linux-64/bob.devtools-1.0-py37_0.tar.bz2", []);
    ("/conda/conda-bld/linux-64/zlib-1.2.11-0.tar.bz2", []);
    ("/conda/conda-bld/noarch/six-1.12-py_0.tar.bz2", []) ].


(** An order file for [base_build] that lists the recipe [a], which has no
    [meta.yaml], before the recipe [b], which has one. *)
Definition recipes_ab : sim_fs :=
  [("order.txt", ["a  # first"; ""; "b"]); ("b/meta.yaml", [])].

(** The same with a [meta.yaml] for both recipes. *)
Definition recipes_ab_complete : sim_fs :=
  [("order.txt", ["a"; "b"]); ("a/meta.yaml", []); ("b/meta.yaml", [])].

(** The condarc file the bootstrap of a CI job leaves in [CONDA_ROOT]. *)
Definition condarc_file : string * list string :=
  ("/conda/condarc", ["channels:"; "  - defaults"]).

(** The build of the recipe [a] fails. *)
Definition recipe_a_fails : scenario :=
  {| without_recipe := []; failing := ["a"] |}.

(** The recipes a trace asked [base_build] to build. *)
Definition base_builds (evs : list event) : list string :=
  omap (fun ev => match ev with BaseBuild recipe _ _ => Some recipe | _ => None end) evs.

(** A repository whose tag [v2.3.1] is on master and whose tag [v2.3.2] is
    not. *)
Definition example_repo : CI.Repo :=
  {| CI.refs :=
       list_to_map [("refs/tags/v2.3.1", "c2"); ("refs/tags/v2.3.2", "c9")];
     CI.rev_list := {[ "master" := ["c3"; "c2"; "c1"] ]} |}.

Definition example_git : CI.git_world := {[ "/repo" := example_repo ]}.

(** The environment of a CI job of a private project. *)
Definition private_environ : environ :=
  <[ "CI_PROJECT_VISIBILITY" := "private" ]> (ci_environ "master").


End Sim.

(** ** Properties of commands *)

Module Frame.
Section Frame.
Context {local_fs : LocalFS}.

(** [preserves R m]: whatever [m] does, returning or raising, the state it
    leaves is related by [R] to the state it started in. *)
Definition preserves (R : relation state) {A} (m : M A) : Prop :=
  forall s, R s (m s).2.

(** A command that only reads leaves the state as it is. *)
Definition readonly {A} (m : M A) : Prop := forall s, (m s).2 = s.

(** A command that raises from every state. *)
Definition never_returns {A} (m : M A) : Prop :=
  forall s, exists e, (m s).1 = Raise e.

(** The trace only grows, and by events that satisfy [P]. *)
Definition trace_ext (P : event -> Prop) : relation state :=
  fun s s' => exists new, trace s' = trace s ++ new /\ Forall P new.

(** The environment variable [key] has the value it had. *)
Definition env_keeps (key : string) : relation state :=
  fun s s' =>
    environ_of (world_of s') !! key = environ_of (world_of s) !! key.

(** The environment variable [key] is not set if it was not. *)
Definition env_never_sets (key : string) : relation state :=
  fun s s' =>
    environ_of (world_of s) !! key = None ->
    environ_of (world_of s') !! key = None.

(** Every remote resource is still there, with the content it had. *)
Definition dav_keeps : relation state :=
  fun s s' =>
    forall path content,
      dav_of (world_of s) !! path = Some content ->
      dav_of (world_of s') !! path = Some content.

(** The environment and the local file system are the ones it started
    with. *)
Definition local_same : relation state :=
  fun s s' =>
    environ_of (world_of s') = environ_of (world_of s) /\
    fs_of (world_of s') = fs_of (world_of s).

(** Relations that do not look at one component of the state. *)
Class TraceBlind (R : relation state) : Prop :=
  trace_blind : forall s e,
    R s {| world_of := world_of s; trace := trace s ++ [e] |}.

Class EnvBlind (R : relation state) : Prop :=
  env_blind : forall s env,
    R s {| world_of := set_environ env (world_of s); trace := trace s |}.

Class FsBlind (R : relation state) : Prop :=
  fs_blind : forall s fs,
    R s {| world_of := set_fs fs (world_of s); trace := trace s |}.

Class DavBlind (R : relation state) : Prop :=
  dav_blind : forall s dav,
    R s {| world_of := set_dav dav (world_of s); trace := trace s |}.

(** A call to [deploy_conda_package] passes [overwrite=False]. *)
Definition never_overwrites (ev : event) : Prop :=
  match ev with
  | DeployCondaPackage _ _ _ _ _ _ overwrite _ => overwrite = false
  | _ => True
  end.

(** The events that build a package, upload to PyPI or to the remote store,
    or delete from the remote store. *)
Definition is_side_effect (ev : event) : bool :=
  match ev with
  | CondaBuild _ _ | BaseBuild _ _ _ | TwineUpload _
  | DavUploadFile _ _ | DavUploadDirectory _ _ | DavClean _ => true
  | _ => false
  end.

(** The events that build a package with conda-build or hand an artifact
    to [deploy_conda_package]. *)
Definition is_build_or_deployment (ev : event) : bool :=
  match ev with
  | CondaBuild _ _ | DeployCondaPackage _ _ _ _ _ _ _ _ => true
  | _ => false
  end.

(** The artifacts a trace asked [deploy_conda_package] to deploy, with the
    architecture named in each call. *)
Definition deployed (evs : list event) : list (option string * string) :=
  omap (fun ev => match ev with
                  | DeployCondaPackage package arch _ _ _ _ _ _ =>
                    Some (arch, package)
                  | _ => None
                  end) evs.

(** The packages a trace asked twine to upload. *)
Definition twine_uploads (evs : list event) : list string :=
  omap (fun ev => match ev with TwineUpload k => Some k | _ => None end) evs.

End Frame.
End Frame.
Export Frame.

(** ** [ci/bootstrap.py]: elapsed times and the output of a command *)

Module BootstrapTime.

(** [str(n)], ["{}".format(n)] and ["%d" % n] for an integer. *)
Definition str_of_Z (n : Z) : string := NilZero.string_of_int (Z.to_int n).

(** ["%.2f" % n] for an integer. *)
Definition fmt_2f (n : Z) : string := str_of_Z n +:+ ".00".

(** [name.rstrip('s')] *)
Fixpoint rstrip_s (name : string) : string :=
  match name with
  | EmptyString => ""
  | String c rest =>
    let r := rstrip_s rest in
    if String.eqb r "" && Ascii.eqb c "s" then "" else String c r
  end.

(** [l[:n]]: a negative bound counts from the end. *)
Definition slice_to {A} (n : Z) (l : list A) : list A :=
  if (n <? 0)%Z then take (Z.to_nat (Z.of_nat (length l) + n)) l
  else take (Z.to_nat n) l.

Definition _INTERVALS : list (string * Z) :=
  [ ("weeks", 604800%Z);
    ("days", 86400%Z);
    ("hours", 3600%Z);
    ("minutes", 60%Z);
    ("seconds", 1%Z) ].

(** The body of [for name, count in _INTERVALS]: the state is the number of
    seconds still to account for and the entries of [result], where [None]
    is the blank that stands for a unit whose value is zero. *)
Definition human_time_step (st : Z * list (option string)) (iv : string * Z)
    : Z * list (option string) :=
  let '(seconds, result) := st in
  let '(name, count) := iv in
  let value := (seconds / count)%Z in
  if negb (value =? 0)%Z then
    let seconds := (seconds - value * count)%Z in
    let name := if (value =? 1)%Z then rstrip_s name else name in
    (seconds, result ++ [Some (str_of_Z value +:+ " " +:+ name)])
  else
    (* Add a blank if we're in the middle of other values *)
    (seconds, if (0 <? length result)%nat then result ++ [None] else result).

(** [human_time(seconds, granularity)] for an integer number of seconds. *)
Definition human_time (seconds granularity : Z) : string :=
  let '(seconds, result) := fold_left human_time_step _INTERVALS (seconds, []) in
  match result with
  | [] =>
    if (seconds <? 1)%Z then fmt_2f seconds +:+ " seconds"
    else if (seconds =? 1)%Z then "1 second"
    else str_of_Z seconds +:+ " seconds"
  | _ => join ", " (omap id (slice_to granularity result))
  end.

(** *** The same, said directly

    The value of every unit by division, the units a reader is shown, and
    how a unit is written. *)

Definition unit_values (seconds : Z) : list (Z * string) :=
  [ ((seconds / 604800)%Z, "week");
    ((seconds mod 604800 / 86400)%Z, "day");
    ((seconds mod 86400 / 3600)%Z, "hour");
    ((seconds mod 3600 / 60)%Z, "minute");
    ((seconds mod 60)%Z, "second") ].

Definition is_zero_unit (u : Z * string) : bool := (fst u =? 0)%Z.

(** The units from the first that is not zero on. *)
Fixpoint from_leading_unit (us : list (Z * string)) : list (Z * string) :=
  match us with
  | [] => []
  | u :: rest => if is_zero_unit u then from_leading_unit rest else us
  end.

Definition show_unit (u : Z * string) : string :=
  str_of_Z (fst u) +:+ " " +:+
  (if (fst u =? 1)%Z then snd u else snd u +:+ "s").

(** The entry of [result] for a unit. *)
Definition entry_of (u : Z * string) : option string :=
  if is_zero_unit u then None else Some (show_unit u).

Definition shown_units (seconds granularity : Z) : list (Z * string) :=
  List.filter (fun u => negb (is_zero_unit u))
    (slice_to granularity (from_leading_unit (unit_values seconds))).

End BootstrapTime.

(** ** Shapes of the inputs the properties speak about *)

Module Shapes.

(** [c in s] for a character. *)
Fixpoint has_char (c : ascii) (s : string) : bool :=
  match s with
  | EmptyString => false
  | String c' rest => Ascii.eqb c' c || has_char c rest
  end.

(** [s.count(c)] for a character. *)
Fixpoint count_char (c : ascii) (s : string) : nat :=
  match s with
  | EmptyString => 0
  | String c' rest =>
    (if Ascii.eqb c' c then 1 else 0) + count_char c rest
  end.

(** [str(n)] for a natural number of any size. *)
Definition str_of_N (n : N) : string := NilZero.string_of_uint (N.to_uint n).

(** The version string of a release: numbers separated by dots. *)
Definition dotted (numbers : list N) : string :=
  join "." (List.map str_of_N numbers).

(** A recipe name as the order file means it: not empty, no comment sign, no
    white space around it. *)
Definition clean_recipe (r : string) : Prop :=
  r <> "" /\ has_char "#" r = false /\ strip r = r.

(** A string that does not start with white space. *)
Definition no_leading_space (s : string) : Prop :=
  match s with
  | EmptyString => True
  | String c _ => is_space c = false
  end.

(** A non-empty run of decimal digits. *)
Definition digits (s : string) : Prop :=
  s <> "" /\ CI.all_chars CI.is_digit s = true.

(** The pieces [LooseVersion] keeps of a split. *)
Definition kept (pieces : list string) : list string :=
  List.filter (fun x => negb (String.eqb x "") && negb (String.eqb x "."))
    pieces.

(** The warnings among the records a function logged. *)
Definition warnings (records : list log_record) : list string :=
  omap (fun r => match fst r with WARNING => Some (snd r) | _ => None end)
    records.

(** A channel of the public area of the server. *)
Definition public_channel (channel : string) : Prop :=
  channel = Bootstrap.server +:+ "/public/conda" \/
  channel = Bootstrap.server +:+ "/public/conda/label/beta".

(** A channel of beta packages. *)
Definition beta_channel (channel : string) : Prop :=
  channel = Bootstrap.server +:+ "/private/conda/label/beta" \/
  channel = Bootstrap.server +:+ "/public/conda/label/beta".

End Shapes.

(** ** What the properties observe of a run *)

Module Observations.

(** The world is the one the command started in. *)
Definition world_same {local_fs : LocalFS} : relation state :=
  fun s s' => world_of s' = world_of s.

(** A call to [deploy_conda_package] is made with these flags and without
    [overwrite]. *)
Definition deploys_with (stable public dry_run : bool) (ev : event) : Prop :=
  match ev with
  | DeployCondaPackage _ _ stable' public' _ _ overwrite dry_run' =>
    stable' = stable /\ public' = public /\ overwrite = false /\
    dry_run' = dry_run
  | _ => True
  end.

(** A build of [base_build] is given these options. *)
Definition builds_with (options : condarc) (ev : event) : Prop :=
  match ev with
  | BaseBuild _ _ options' => options' = options
  | _ => True
  end.

(** The one request [rmtree] can make that changes the server: the removal
    of [url], when it executes. *)
Definition cleans (execute : bool) (url : string) (ev : event) : Prop :=
  is_side_effect ev = true -> execute = true /\ ev = DavClean url.

(** The command that installs the requirements of a recipe. *)
Definition yum_install (requirements : list string) : list string :=
  ["/usr/bin/sudo"; "-n"; "yum"; "-y"; "install"] ++ requirements.

End Observations.

(** ** [bob/devtools/scripts/ci.py]: the check of the long description *)

Module ScriptsReadme.
Section Readme.
Context {local_fs : LocalFS}.

(** [twine.commands.check.check([k])]: whether the check of the package
    failed. *)
Variable twine_check : world -> string -> result bool.

Definition msg_readme_failed (k : string) : string :=
  "twine check (a.k.a. readme check) " +:+ k +:+ ": FAILED".

Definition msg_readme_ok (k : string) : string :=
  "twine check (a.k.a. readme check) " +:+ k +:+ ": OK".

(** The body of [for k in package] in [readme]. *)
Definition readme_package (k : string) : M unit :=
  logger INFO ("Checking python package " +:+ k);;
  failed ← ask (fun w => twine_check w k);
  if (failed : bool) then raise (RuntimeError (msg_readme_failed k))
  else logger INFO (msg_readme_ok k).

(** [bdt ci readme] *)
Definition readme (package : list string) : M unit :=
  for_each package readme_package.

End Readme.
End ScriptsReadme.

(** ** [ci/bootstrap.py]: echoing the output of a command *)

Module BootstrapOutput.

Definition newline : ascii := ascii_of_nat 10.

(** [decoded.index('\n')], with [None] when ['\n' in decoded] is false. *)
Fixpoint index_newline (decoded : string) : option nat :=
  match decoded with
  | EmptyString => None
  | String c rest =>
    if Ascii.eqb c newline then Some 0
    else match index_newline rest with
         | Some pos => Some (S pos)
         | None => None
         end
  end.

(** ['0' * n] *)
Fixpoint zeros (n : nat) : string :=
  match n with
  | 0 => ""
  | S n => String "0" (zeros n)
  end.

(** ['%03d' % n] *)
Definition fmt_03d (n : nat) : string :=
  zeros (3 - String.length (str_of_nat n)) +:+ str_of_nat n.

(** [while '\n' in decoded: ...]: the lines printed and the line number
    reached.  Every turn shortens [decoded]; [fuel] bounds the turns. *)
Fixpoint echo_lines (fuel lineno : nat) (decoded : string)
    : list string * nat :=
  match fuel with
  | 0 => ([], lineno)
  | S fuel =>
    match index_newline decoded with
    | Some pos =>
      let printed := fmt_03d lineno +:+ ": " +:+ substring 0 pos decoded in
      let decoded :=
        substring (pos + 1) (String.length decoded - (pos + 1)) decoded in
      let '(more, lineno) := echo_lines fuel (lineno + 1) decoded in
      (printed :: more, lineno)
    | None => ([], lineno)
    end
  end.

(** The body of [for chunk in iter(...)] in [run_cmdline], for a chunk that
    decodes to [decoded]. *)
Definition echo_chunk (lineno : nat) (decoded : string) : list string * nat :=
  echo_lines (String.length decoded) lineno decoded.

(** The loop of [run_cmdline] over the chunks read from the command: what
    it printed and the output it collected in [out]. *)
Fixpoint echo_output (lineno : nat) (out : string) (chunks : list string)
    : list string * string :=
  match chunks with
  | [] => ([], out)
  | chunk :: rest =>
    let '(printed, lineno) := echo_chunk lineno chunk in
    let '(more, out) := echo_output lineno (out +:+ chunk) rest in
    (printed ++ more, out)
  end.

(** *** The same, said directly *)

(** The lines a chunk holds in full: the pieces of [decoded.split('\n')]
    but the last. *)
Definition whole_lines (decoded : string) : list string :=
  removelast (str_split decoded (String newline "")).

(** Lines with their numbers, counting from [lineno]. *)
Fixpoint numbered (lineno : nat) (lines : list string) : list string :=
  match lines with
  | [] => []
  | line :: rest =>
    (fmt_03d lineno +:+ ": " +:+ line) :: numbered (lineno + 1) rest
  end.

(** [''.join(chunks)] *)
Fixpoint concat_chunks (chunks : list string) : string :=
  match chunks with
  | [] => ""
  | chunk :: rest => chunk +:+ concat_chunks rest
  end.

End BootstrapOutput.

(** ** [bob/devtools/pipelines.py] *)

Module PipelineUtils.

(** *** The two regular expressions *)

(** [needle in hay] *)
Fixpoint contains (needle hay : string) : bool :=
  match hay with
  | EmptyString => String.prefix needle ""
  | String _ rest => String.prefix needle hay || contains needle rest
  end.

(** [len(re.findall("Building bob/[a-z]*", l)) > 0]: the letters may be
    none, so the expression matches where its fixed part occurs. *)
Definition is_banner (l : string) : bool := contains "Building bob/" l.

Definition is_char (c : ascii) : ascii -> bool := Ascii.eqb c.

(** The expression of a timestamp, character by character:
    [[0-9]{4,4}-[0-9]{2,2}-[0-9]{2,2} [0-9]{2,2}:[0-9]{2,2}:[0-9]{2,2}] *)
Definition date_pattern : list (ascii -> bool) :=
  [ CI.is_digit; CI.is_digit; CI.is_digit; CI.is_digit; is_char "-";
    CI.is_digit; CI.is_digit; is_char "-";
    CI.is_digit; CI.is_digit; is_char " ";
    CI.is_digit; CI.is_digit; is_char ":";
    CI.is_digit; CI.is_digit; is_char ":";
    CI.is_digit; CI.is_digit ].

(** The match of a sequence of character classes at the start of [s]. *)
Fixpoint match_here (pattern : list (ascii -> bool)) (s : string)
    : option string :=
  match pattern with
  | [] => Some ""
  | p :: pattern =>
    match s with
    | EmptyString => None
    | String c rest =>
      if p c then
        match match_here pattern rest with
        | Some matched => Some (String c matched)
        | None => None
        end
      else None
    end
  end.

(** [re.findall(timestamp, l)[0]], with [None] when nothing matches: the
    leftmost match. *)
Fixpoint find_date (l : string) : option string :=
  match match_here date_pattern l with
  | Some date => Some date
  | None =>
    match l with
    | EmptyString => None
    | String _ rest => find_date rest
    end
  end.

(** [l[9:-1]] *)
Definition slice_9_to_last (l : string) : string :=
  substring 9 (String.length l - 1 - 9) l.

(** *** The dictionary [logs]

    A [dict] keeps its keys in the order they were first inserted; a key is
    [None] or the text of a banner. *)

Abbreviation logs_dict := (list (option string * list string)).

(** [logs[key] = value] *)
Fixpoint dict_set (key : option string) (value : list string)
    (logs : logs_dict) : logs_dict :=
  match logs with
  | [] => [(key, value)]
  | (k, v) :: rest =>
    if decide (k = key) then (key, value) :: rest
    else (k, v) :: dict_set key value rest
  end.

(** The body of [for l in log]: the state is [current_package], [logs] and
    [dates]. *)
Definition process_line
    (st : option string * logs_dict * list string) (l : string)
    : option string * logs_dict * list string :=
  let '(current_package, logs, dates) := st in
  if is_banner l then
    (Some (slice_9_to_last l), dict_set current_package dates logs, [])
  else
    match find_date l with
    | Some date => (current_package, logs, dates ++ [date])
    | None => st
    end.

(** The dictionary after the loop and the [## Last log] step. *)
Definition collect (log : list string) : logs_dict :=
  let '(current_package, logs, dates) :=
    fold_left process_line log (None, [], []) in
  if (0 <? length dates)%nat then dict_set current_package dates logs
  else logs.

(** *** [datetime] *)

Record datetime : Type := {
  year : N; month : N; day : N; hour : N; minute : N; second : N
}.

Definition is_leap (y : N) : bool :=
  ((y mod 4 =? 0) && negb (y mod 100 =? 0) || (y mod 400 =? 0))%N.

Definition days_in_month (y m : N) : N :=
  if (m =? 2)%N then (if is_leap y then 29 else 28)%N
  else if ((m =? 4) || (m =? 6) || (m =? 9) || (m =? 11))%N then 30%N
  else 31%N.

(** The number a field of a timestamp holds. *)
Definition field (start len : nat) (text : string) : N :=
  CI.decimal_go 0 (substring start len text).

(** [datetime.strptime(text, "%Y-%m-%d %H:%M:%S")] for the texts
    [process_log] passes to it, which the timestamp expression matched in
    full: a text that names a date or a time that does not exist raises
    [ValueError] (the message is not modelled).  Every other text is
    refused here. *)
Definition strptime (text : string) : result datetime :=
  if negb (bool_decide (match_here date_pattern text = Some text)) then
    Raise (ValueError "time data does not match format")
  else
    let dt :=
      {| year := field 0 4 text; month := field 5 2 text;
         day := field 8 2 text; hour := field 11 2 text;
         minute := field 14 2 text; second := field 17 2 text |} in
    if ((1 <=? year dt) && (1 <=? month dt) && (month dt <=? 12)
        && (1 <=? day dt) && (day dt <=? days_in_month (year dt) (month dt))
        && (hour dt <=? 23) && (minute dt <=? 59) && (second dt <=? 59))%N
    then Ok dt
    else Raise (ValueError "time data does not match format").

(** ['%0*d' % (width, n)] *)
Definition zero_padded (width : nat) (n : N) : string :=
  BootstrapOutput.zeros (width - String.length (Shapes.str_of_N n))
  +:+ Shapes.str_of_N n.

(** [str(dt)] for a time without microseconds. *)
Definition str_datetime (dt : datetime) : string :=
  zero_padded 4 (year dt) +:+ "-" +:+ zero_padded 2 (month dt) +:+ "-" +:+
  zero_padded 2 (day dt) +:+ " " +:+ zero_padded 2 (hour dt) +:+ ":" +:+
  zero_padded 2 (minute dt) +:+ ":" +:+ zero_padded 2 (second dt).

Definition second_of_day (dt : datetime) : Z :=
  (Z.of_N (hour dt) * 3600 + Z.of_N (minute dt) * 60 + Z.of_N (second dt))%Z.

(** [(last - first).seconds]: a [timedelta] holds days and, apart, the
    seconds of a day, from 0 to 86399. *)
Definition delta_seconds (first last : datetime) : Z :=
  ((second_of_day last - second_of_day first) mod 86400)%Z.

(** *** The table *)

Section Table.

(** [str(round(seconds / 60, 2))] *)
Variable str_minutes : Z -> string.

(** [str(k)] *)
Definition str_key (k : option string) : string :=
  match k with
  | Some package => package
  | None => "None"
  end.

(** The body of [for k in logs], which makes one row. *)
Definition table_row (entry : option string * list string)
    : result (list string) :=
  let '(k, dates) := entry in
  match dates with
  | [] => Raise (IndexError "list index out of range")
  | date :: _ =>
    first ← strptime date;
    last ← strptime (List.last dates date);
    let delta := delta_seconds first last in
    Ok [str_key k; str_datetime first; str_minutes delta +:+ "m"]
  end.

Fixpoint table_rows (logs : logs_dict) : result (list (list string)) :=
  match logs with
  | [] => Ok []
  | entry :: rest =>
    row ← table_row entry;
    rows ← table_rows rest;
    Ok (row :: rows)
  end.

(** [process_log(log)]: the table it prints. *)
Definition process_log (log : list string) : result (list (list string)) :=
  table_rows (collect log).

End Table.

(** *** A log as the pipeline writes it

    Lines before the first banner, then one section for each package: its
    banner and the lines that follow it. *)

Definition plain (l : string) : Prop := is_banner l = false.

(** The timestamps of some lines, in order. *)
Definition dates_of (lines : list string) : list string :=
  omap find_date lines.

Definition section_lines (sec : string * list string) : list string :=
  fst sec :: snd sec.

Definition section_entry (sec : string * list string)
    : option string * list string :=
  (Some (slice_9_to_last (fst sec)), dates_of (snd sec)).

Definition well_formed_section (sec : string * list string) : Prop :=
  is_banner (fst sec) = true /\ Forall plain (snd sec) /\
  dates_of (snd sec) <> [].

End PipelineUtils.

(** * Reasoning about commands *)

Module Logic.
Section Logic.
Context {local_fs : LocalFS}.

(** ** Running a command *)

Lemma run_bind {A B} (m : M A) (k : A -> M B) (s : state) :
  (m ≫= k) s =
  match m s with
  | (Ok a, s') => k a s'
  | (Raise e, s') => (Raise e, s')
  end.
Proof. reflexivity. Qed.

Lemma run_bind_ok {A B} (m : M A) (k : A -> M B) (s s1 : state) (a : A) :
  m s = (Ok a, s1) -> (m ≫= k) s = k a s1.
Proof. intros E. rewrite run_bind, E. reflexivity. Qed.


(** A successful sequence ran both of its halves. *)
Lemma bind_inv_ok {A B} (m : M A) (k : A -> M B) (s s' : state) (b : B) :
  (m ≫= k) s = (Ok b, s') ->
  exists a s1, m s = (Ok a, s1) /\ k a s1 = (Ok b, s').
Proof.
  rewrite run_bind. destruct (m s) as [[a|e] s1]; intros E.
  - exists a, s1. split; [reflexivity | exact E].
  - discriminate E.
Qed.

(** ** Frame relations *)

Section Frame.
Variable R : relation state.
Context {R_pre : PreOrder R}.

Lemma preserves_readonly {A} (m : M A) : readonly m -> preserves R m.
Proof. intros Hm s. rewrite Hm. reflexivity. Qed.

Lemma preserves_ret {A} (a : A) : preserves R (mret a).
Proof. intros s. reflexivity. Qed.

Lemma preserves_raise {A} (e : exn) : preserves R (raise (A:=A) e).
Proof. intros s. reflexivity. Qed.

Lemma preserves_bind {A B} (m : M A) (k : A -> M B) :
  preserves R m -> (forall a, preserves R (k a)) -> preserves R (m ≫= k).
Proof.
  intros Hm Hk s. rewrite run_bind.
  specialize (Hm s). destruct (m s) as [[a|e] s1]; simpl in *.
  - transitivity s1; [exact Hm | apply Hk].
  - exact Hm.
Qed.

Lemma preserves_when (c : bool) (body : M unit) :
  (c = true -> preserves R body) -> preserves R (when c body).
Proof.
  intros Hb. destruct c; simpl.
  - apply Hb. reflexivity.
  - apply preserves_ret.
Qed.

Lemma preserves_for_each {A} (l : list A) (body : A -> M unit) :
  (forall x, preserves R (body x)) -> preserves R (for_each l body).
Proof.
  intros Hb. induction l as [|x l IH]; simpl.
  - apply preserves_ret.
  - apply preserves_bind; [apply Hb | intros _; exact IH].
Qed.

Lemma preserves_for_enumerate {A} (n : nat) (l : list A)
    (body : nat -> A -> M unit) :
  (forall i x, preserves R (body i x)) -> preserves R (for_enumerate n l body).
Proof.
  intros Hb. revert n. induction l as [|x l IH]; intros n; simpl.
  - apply preserves_ret.
  - apply preserves_bind; [apply Hb | intros _; apply IH].
Qed.

End Frame.

(** ** Read-only primitives *)

Lemma readonly_lift {A} (r : result A) : readonly (lift r).
Proof. intros s. reflexivity. Qed.

Lemma readonly_get_world : readonly get_world.
Proof. intros s. reflexivity. Qed.

Lemma readonly_ask {A} (f : world -> result A) : readonly (ask f).
Proof. intros s. unfold ask. rewrite run_bind. simpl. reflexivity. Qed.

Lemma readonly_environ_getitem (key : string) : readonly (environ_getitem key).
Proof. intros s. reflexivity. Qed.

Lemma readonly_environ_get (key : string) : readonly (environ_get key).
Proof. intros s. reflexivity. Qed.

Lemma readonly_environ_contains (key : string) :
  readonly (environ_contains key).
Proof. intros s. reflexivity. Qed.

Lemma readonly_path_exists (path : string) : readonly (path_exists path).
Proof. intros s. reflexivity. Qed.

Lemma readonly_path_isdir (path : string) : readonly (path_isdir path).
Proof. intros s. reflexivity. Qed.

Lemma readonly_dav_has (url : string) : readonly (dav_has url).
Proof. intros s. reflexivity. Qed.

End Logic.
End Logic.

(** * Channels *)

Section Channels.
Import Bootstrap.

(** C1: for every visibility and stability, [get_local_channels] returns,
    in this priority order, the private-beta channel iff the project is
    private and the build is not stable, the private root channel iff the
    project is private, the public-beta channel iff the build is not stable,
    and the public root channel always; so a beta channel is present iff the
    build is a prerelease. *)
Theorem get_local_channels_spec (env : environ) (visibility : string) :
  env !! "CI_PROJECT_VISIBILITY" = Some visibility ->
  let private := visibility <> "public" in
  let prerelease := env !! "CI_COMMIT_TAG" = None in
  let private_beta := server +:+ "/private/conda/label/beta" in
  let private_root := server +:+ "/private/conda" in
  let public_beta := server +:+ "/public/conda/label/beta" in
  let public_root := server +:+ "/public/conda" in
  exists channels,
    get_local_channels env = Ok channels /\
    channels =
      (if decide (private /\ prerelease) then [private_beta] else []) ++
      (if decide private then [private_root] else []) ++
      (if decide prerelease then [public_beta] else []) ++
      [public_root] /\
    (private_beta ∈ channels <-> private /\ prerelease) /\
    (private_root ∈ channels <-> private) /\
    (public_beta ∈ channels <-> prerelease) /\
    public_root ∈ channels /\
    (private_beta ∈ channels \/ public_beta ∈ channels <-> prerelease).
Proof.
  intros Hvis. cbv zeta.
  unfold get_local_channels, env_getitem. rewrite Hvis.
  eexists. split; [reflexivity|].
  destruct (decide (visibility = "public")) as [Hpub|Hpub];
    [rewrite (bool_decide_eq_true_2 _ Hpub)
    |rewrite (bool_decide_eq_false_2 _ Hpub)];
    (destruct (env !! "CI_COMMIT_TAG") as [tag|] eqn:Htag;
     [rewrite (bool_decide_eq_true_2 (is_Some (Some tag))) by eauto
     |rewrite (bool_decide_eq_false_2 (is_Some None))
        by (intros [? ?]; discriminate)]).
  all: cbv [String.append server app negb].
  all: (split; [repeat case_decide;
                first [reflexivity | exfalso; intuition congruence] |]).
  all: rewrite ?elem_of_cons, ?elem_of_nil.
  all: intuition (try congruence).
Qed.

(** The theorem applies: a private project built without a tag reads the
    private-beta channel. *)
Lemma get_local_channels_spec_witness :
  exists channels,
    get_local_channels {[ "CI_PROJECT_VISIBILITY" := "private" ]} = Ok channels /\
    server +:+ "/private/conda/label/beta" ∈ channels.
Proof.
  assert (Hvis : ({[ "CI_PROJECT_VISIBILITY" := "private" ]} : environ)
                   !! "CI_PROJECT_VISIBILITY" = Some "private")
    by (vm_compute; reflexivity).
  destruct (get_local_channels_spec _ _ Hvis)
    as (channels & Hrun & _ & Hbeta & _).
  exists channels. split; [exact Hrun|].
  apply Hbeta. split; [discriminate | vm_compute; reflexivity].
Defined.

End Channels.

(** * Stability *)

Section Stability.
Import CI.

Lemma existsb_is_str_false (components : list component) :
  existsb is_str components = false <->
  Forall (fun k => is_str k = false) components.
Proof.
  induction components as [|k l IH]; simpl.
  - split; [constructor | reflexivity].
  - rewrite orb_false_iff, IH, Forall_cons. reflexivity.
Qed.

Lemma existsb_is_str_true (components : list component) :
  existsb is_str components = true <->
  Exists (fun k => is_str k = true) components.
Proof.
  induction components as [|k l IH]; simpl.
  - split; [discriminate | intros E; inversion E].
  - rewrite orb_true_iff, IH, Exists_cons. reflexivity.
Qed.

(** What [is_master] answers for a tag: the tag's commit is one of the
    commits iterated from [master]. *)
Lemma is_master_tag_true (git : git_world) (refname t repodir : string) :
  is_master git refname (Some t) repodir = Ok true <->
  exists repo c commits,
    git !! repodir = Some repo /\
    refs repo !! ("refs/tags/" +:+ t) = Some c /\
    rev_list repo !! "master" = Some commits /\
    c ∈ commits.
Proof.
  unfold is_master, git_Repo, tag_commit, iter_commits.
  split.
  - destruct (git !! repodir) as [repo|] eqn:Hrepo;
      cbn [mbind result_bind]; [|discriminate].
    destruct (refs repo !! ("refs/tags/" +:+ t)) as [c|] eqn:Htag;
      cbn [mbind result_bind]; [|discriminate].
    destruct (rev_list repo !! "master") as [commits|] eqn:Hrev;
      cbn [mbind result_bind]; [|discriminate].
    intros E. injection E as E. apply bool_decide_eq_true_1 in E.
    exists repo, c, commits. auto.
  - intros (repo & c & commits & Hrepo & Htag & Hrev & Hin).
    rewrite Hrepo. cbn [mbind result_bind].
    rewrite Htag. cbn [mbind result_bind].
    rewrite Hrev. cbn [mbind result_bind].
    rewrite bool_decide_eq_true_2 by exact Hin. reflexivity.
Qed.

(** A version that is not empty is parsed, whatever it holds. *)
Lemma parsed_tag_version (t : string) :
  slice_from_1 t <> "" -> parsed_tag t = Ok (parse (slice_from_1 t)).
Proof.
  unfold parsed_tag, LooseVersion_version.
  destruct (slice_from_1 t); [intros H; destruct H|]; reflexivity.
Qed.

(** When [LooseVersion] has a version, it is the parse of the tag without
    its first character, which is then not empty. *)
Lemma parsed_tag_ok (t : string) (components : list component) :
  parsed_tag t = Ok components ->
  slice_from_1 t <> "" /\ components = parse (slice_from_1 t).
Proof.
  unfold parsed_tag, LooseVersion_version.
  destruct (slice_from_1 t); [discriminate|].
  intros E. injection E as <-. split; [discriminate | reflexivity].
Qed.

(** A version with a component has a character. *)
Lemma parse_component_not_empty (vstring : string) :
  parse vstring <> [] -> vstring <> "".
Proof. intros Hne ->. apply Hne. reflexivity. Qed.

(** A tag with a non-numeric component is a prerelease whatever the
    repository and the branch are: the check comes first. *)
Lemma is_stable_prerelease (git : git_world) (package refname t repodir : string) :
  existsb is_str (parse (slice_from_1 t)) = true ->
  is_stable git package refname (Some t) repodir =
  ([msg_project_tag package t; msg_prerelease], Ok false).
Proof.
  intros Hstr. unfold is_stable.
  rewrite parsed_tag_version, Hstr; [reflexivity|].
  apply parse_component_not_empty. intros E. rewrite E in Hstr. discriminate.
Qed.

(** C2, as the code has it: [is_stable] returns true iff the tag is set,
    there is a version after its first character, every parsed component of
    that version is numeric and the tag's commit is among the commits
    iterated from master.  A tag with a non-numeric component gives false
    whatever the repository and the branch are (the check is made before
    the branch is looked at); a numeric tag that is not on master gives
    false with a warning; no tag gives false. *)
Theorem is_stable_spec (git : git_world) (package refname : string)
    (tag : option string) (repodir : string) :
  ((is_stable git package refname tag repodir).2 = Ok true <->
   exists t repo c commits,
     tag = Some t /\
     slice_from_1 t <> "" /\
     Forall (fun k => is_str k = false) (parse (slice_from_1 t)) /\
     git !! repodir = Some repo /\
     refs repo !! ("refs/tags/" +:+ t) = Some c /\
     rev_list repo !! "master" = Some commits /\
     c ∈ commits) /\
  (forall t,
     tag = Some t ->
     Exists (fun k => is_str k = true) (parse (slice_from_1 t)) ->
     forall git' refname' repodir',
       is_stable git' package refname' tag repodir' =
       ([msg_project_tag package t; msg_prerelease], Ok false)) /\
  (forall t,
     tag = Some t ->
     slice_from_1 t <> "" ->
     Forall (fun k => is_str k = false) (parse (slice_from_1 t)) ->
     is_master git refname tag repodir = Ok false ->
     is_stable git package refname tag repodir =
     ([msg_project_tag package t; msg_non_master t], Ok false)) /\
  (tag = None ->
   is_stable git package refname tag repodir = (msg_no_tag, Ok false)).
Proof.
  repeat split.
  - (* true only for a numeric tag on master *)
    destruct tag as [t|]; [|discriminate].
    unfold is_stable.
    destruct (parsed_tag t) as [components|e] eqn:Hparse; [|discriminate].
    destruct (existsb is_str components) eqn:Hstr; [discriminate|].
    destruct (is_master git refname (Some t) repodir) as [[|]|e] eqn:Hm;
      try discriminate.
    intros _. apply is_master_tag_true in Hm.
    destruct Hm as (repo & c & commits & Hm).
    apply parsed_tag_ok in Hparse as [Hne ->].
    exists t, repo, c, commits.
    rewrite <- existsb_is_str_false.
    split; [reflexivity|]. split; [exact Hne|].
    split; [exact Hstr | exact Hm].
  - (* a numeric tag on master is stable *)
    intros (t & repo & c & commits & -> & Hne & Hnum & Hm).
    apply existsb_is_str_false in Hnum.
    assert (is_master git refname (Some t) repodir = Ok true) as Hmaster.
    { apply is_master_tag_true. exists repo, c, commits. exact Hm. }
    unfold is_stable.
    rewrite (parsed_tag_version t Hne), Hnum, Hmaster. reflexivity.
  - intros t -> Hstr git' refname' repodir'.
    apply is_stable_prerelease, existsb_is_str_true, Hstr.
  - intros t -> Hne Hnum Hmaster.
    apply existsb_is_str_false in Hnum.
    unfold is_stable.
    rewrite (parsed_tag_version t Hne), Hnum, Hmaster. reflexivity.
  - intros ->. reflexivity.
Qed.

(** C2 fails for a tag that is nothing but its first character: no
    component of the version is non-numeric and the tag is on master, yet
    [is_stable] does not return true, since [LooseVersion] has no version
    for the empty string. *)
Lemma is_stable_bare_prefix :
  let git : git_world :=
    {[ "/repo" := {| refs := {[ "refs/tags/v" := "c1" ]};
                     rev_list := {[ "master" := ["c1"] ]} |} ]} in
  Forall (fun k => is_str k = false) (parse (slice_from_1 "v")) /\
  is_master git "master" (Some "v") "/repo" = Ok true /\
  (is_stable git "bob/bob.io" "master" (Some "v") "/repo").2 =
    Raise (AttributeError "'LooseVersion' object has no attribute 'version'") /\
  (is_stable git "bob/bob.io" "master" (Some "v") "/repo").2 <> Ok true.
Proof.
  split; [constructor|]. split; [vm_compute; reflexivity|].
  split; [vm_compute; reflexivity | vm_compute; discriminate].
Qed.

(** A numeric tag on master is stable; the same kind of tag issued off
    master is not, with a warning; a release candidate is not, even on
    master; neither is an untagged build. *)
Example is_stable_examples :
  is_stable Sim.example_git "bob/bob.io" "master" (Some "v2.3.1") "/repo" =
    ([msg_project_tag "bob/bob.io" "v2.3.1"], Ok true) /\
  is_stable Sim.example_git "bob/bob.io" "master" (Some "v2.3.2") "/repo" =
    ([msg_project_tag "bob/bob.io" "v2.3.2"; msg_non_master "v2.3.2"],
     Ok false) /\
  is_stable Sim.example_git "bob/bob.io" "master" (Some "v1.2.0rc1") "/repo" =
    ([msg_project_tag "bob/bob.io" "v1.2.0rc1"; msg_prerelease], Ok false) /\
  is_stable Sim.example_git "bob/bob.io" "master" None "/repo" =
    (msg_no_tag, Ok false).
Proof. repeat split; vm_compute; reflexivity. Qed.

(** C10: for a tag that is set, the version components [is_stable] tests
    are those of the tag without its first character, whatever that
    character is: the prerelease warning depends on the rest of the tag
    only, and the tag [1.2.0] is tested as [2.0].  (Nothing is left of the
    empty tag, and [LooseVersion] has no version for it.) *)
Theorem is_stable_drops_first_character (git : git_world)
    (package refname repodir : string) (c : ascii) (rest : string) :
  parsed_tag (String c rest) = LooseVersion_version rest /\
  (msg_prerelease ∈ (is_stable git package refname (Some (String c rest))
                       repodir).1 <->
   exists components,
     LooseVersion_version rest = Ok components /\
     existsb is_str components = true) /\
  parsed_tag "1.2.0" = Ok [CInt 2; CInt 0] /\
  parsed_tag "" = LooseVersion_version "".
Proof.
  split; [reflexivity|]. split; [|split; reflexivity].
  unfold is_stable, parsed_tag. cbn [slice_from_1].
  destruct (LooseVersion_version rest) as [components|e] eqn:Hparse.
  - destruct (existsb is_str components) eqn:Hstr.
    + split.
      * intros _. exists components. split; [reflexivity | exact Hstr].
      * intros _. apply elem_of_cons. right. apply elem_of_cons. left.
        reflexivity.
    + split.
      * destruct (is_master git refname (Some (String c rest)) repodir)
          as [[|]|?]; cbn [fst app];
          rewrite ?elem_of_cons, ?elem_of_nil;
          unfold msg_project_tag, msg_prerelease, msg_non_master;
          cbv [String.append]; intuition (try discriminate).
      * intros (components' & E & Hstr'). injection E as <-.
        rewrite Hstr in Hstr'. discriminate.
  - split.
    + cbn [fst]. rewrite ?elem_of_cons, ?elem_of_nil.
      unfold msg_project_tag, msg_prerelease. intuition (try discriminate).
    + intros (components & E & _). discriminate.
Qed.

(** The first character is dropped even when it is a digit or a letter of a
    prerelease marker: [b1] on master counts as the stable version [1]. *)
Example is_stable_b1 :
  is_stable {[ "/repo" := {| refs := {[ "refs/tags/b1" := "c1" ]};
                             rev_list := {[ "master" := ["c1"] ]} |} ]}
    "bob/bob.io" "master" (Some "b1") "/repo" =
  ([msg_project_tag "bob/bob.io" "b1"], Ok true).
Proof. vm_compute. reflexivity. Qed.

End Stability.

(** * Frame lemmas for the primitives *)

Module Frames.
Import Logic.
Section Frames.
Context {local_fs : LocalFS}.

#[global] Instance trace_ext_pre (P : event -> Prop) : PreOrder (trace_ext P).
Proof.
  split.
  - intros s. exists []. rewrite app_nil_r. split; [reflexivity | constructor].
  - intros s1 s2 s3 (n1 & E1 & F1) (n2 & E2 & F2). exists (n1 ++ n2).
    rewrite E2, E1, app_assoc. split; [reflexivity | apply Forall_app; auto].
Qed.

#[global] Instance env_keeps_pre (key : string) : PreOrder (env_keeps key).
Proof.
  split.
  - intros s. reflexivity.
  - intros s1 s2 s3 E1 E2. unfold env_keeps in *. congruence.
Qed.

#[global] Instance env_never_sets_pre (key : string) :
  PreOrder (env_never_sets key).
Proof.
  split.
  - intros s E. exact E.
  - intros s1 s2 s3 E1 E2 E. apply E2, E1, E.
Qed.

#[global] Instance dav_keeps_pre : PreOrder dav_keeps.
Proof.
  split.
  - intros s path content E. exact E.
  - intros s1 s2 s3 E1 E2 path content E. apply E2, E1, E.
Qed.

#[global] Instance local_same_pre : PreOrder local_same.
Proof.
  split.
  - intros s. split; reflexivity.
  - intros s1 s2 s3 [E1 F1] [E2 F2]. split; congruence.
Qed.

(** Which component each relation ignores. *)
#[global] Instance trace_ext_env (P : event -> Prop) : EnvBlind (trace_ext P).
Proof. intros s env. exists []. rewrite app_nil_r. split; [reflexivity | constructor]. Qed.
#[global] Instance trace_ext_fs (P : event -> Prop) : FsBlind (trace_ext P).
Proof. intros s fs. exists []. rewrite app_nil_r. split; [reflexivity | constructor]. Qed.
#[global] Instance trace_ext_dav (P : event -> Prop) : DavBlind (trace_ext P).
Proof. intros s dav. exists []. rewrite app_nil_r. split; [reflexivity | constructor]. Qed.

#[global] Instance env_keeps_trace (key : string) : TraceBlind (env_keeps key).
Proof. intros s e. reflexivity. Qed.
#[global] Instance env_keeps_fs (key : string) : FsBlind (env_keeps key).
Proof. intros s fs. reflexivity. Qed.
#[global] Instance env_keeps_dav (key : string) : DavBlind (env_keeps key).
Proof. intros s dav. reflexivity. Qed.

#[global] Instance env_never_sets_trace (key : string) :
  TraceBlind (env_never_sets key).
Proof. intros s e E. exact E. Qed.
#[global] Instance env_never_sets_fs (key : string) :
  FsBlind (env_never_sets key).
Proof. intros s fs E. exact E. Qed.
#[global] Instance env_never_sets_dav (key : string) :
  DavBlind (env_never_sets key).
Proof. intros s dav E. exact E. Qed.

#[global] Instance dav_keeps_trace : TraceBlind dav_keeps.
Proof. intros s e path content E. exact E. Qed.
#[global] Instance dav_keeps_env : EnvBlind dav_keeps.
Proof. intros s env path content E. exact E. Qed.
#[global] Instance dav_keeps_fs : FsBlind dav_keeps.
Proof. intros s fs path content E. exact E. Qed.

#[global] Instance local_same_trace : TraceBlind local_same.
Proof. intros s e. split; reflexivity. Qed.
#[global] Instance local_same_dav : DavBlind local_same.
Proof. intros s dav. split; reflexivity. Qed.

Section Blind.
Variable R : relation state.
Context {R_pre : PreOrder R}.

Lemma preserves_emit `{!TraceBlind R} (e : event) : preserves R (emit e).
Proof. intros s. apply trace_blind. Qed.

Lemma preserves_environ_setitem `{!EnvBlind R} (key value : string) :
  preserves R (environ_setitem key value).
Proof. intros s. apply env_blind. Qed.

Lemma preserves_environ_delitem `{!EnvBlind R} (key : string) :
  preserves R (environ_delitem key).
Proof.
  intros s. unfold environ_delitem. rewrite run_bind. simpl.
  destruct (environ_of (world_of s) !! key); simpl.
  - apply env_blind.
  - reflexivity.
Qed.

Lemma preserves_run_on_fs `{!FsBlind R} (f : world -> result FS) :
  preserves R (run_on_fs f).
Proof.
  intros s. unfold run_on_fs. rewrite run_bind. simpl.
  unfold lift. rewrite run_bind.
  destruct (f (world_of s)); simpl; [apply fs_blind | reflexivity].
Qed.

Lemma preserves_run_tool `{!FsBlind R} {A} (f : world -> result (A * FS)) :
  preserves R (run_tool f).
Proof.
  intros s. unfold run_tool. rewrite run_bind. simpl.
  unfold lift. rewrite run_bind.
  destruct (f (world_of s)) as [[a fs]|e]; simpl; [apply fs_blind | reflexivity].
Qed.

Lemma preserves_run_on_dav `{!DavBlind R} (f : world -> result dav_store) :
  preserves R (run_on_dav f).
Proof.
  intros s. unfold run_on_dav. rewrite run_bind. simpl.
  unfold lift. rewrite run_bind.
  destruct (f (world_of s)); simpl; [apply dav_blind | reflexivity].
Qed.

Lemma preserves_modify_dav `{!DavBlind R} (f : dav_store -> dav_store) :
  preserves R (modify_dav f).
Proof. intros s. apply dav_blind. Qed.

End Blind.

(** What the relations ask of the primitives they do look at. *)
Lemma trace_ext_emit (P : event -> Prop) (e : event) :
  P e -> preserves (trace_ext P) (emit e).
Proof.
  intros HP s. exists [e]. split; [reflexivity|].
  constructor; [exact HP | constructor].
Qed.

Lemma env_keeps_setitem (key key' value : string) :
  key <> key' -> preserves (env_keeps key) (environ_setitem key' value).
Proof.
  intros Hne s. unfold env_keeps. simpl.
  apply lookup_insert_ne. congruence.
Qed.

Lemma env_keeps_delitem (key key' : string) :
  key <> key' -> preserves (env_keeps key) (environ_delitem key').
Proof.
  intros Hne s. unfold env_keeps, environ_delitem. rewrite run_bind. simpl.
  destruct (environ_of (world_of s) !! key'); simpl; [|reflexivity].
  apply lookup_delete_ne. congruence.
Qed.

Lemma env_never_sets_setitem (key key' value : string) :
  key <> key' -> preserves (env_never_sets key) (environ_setitem key' value).
Proof.
  intros Hne s E. simpl. rewrite lookup_insert_ne by congruence. exact E.
Qed.

Lemma env_never_sets_delitem (key key' : string) :
  preserves (env_never_sets key) (environ_delitem key').
Proof.
  intros s E. unfold environ_delitem. rewrite run_bind. simpl.
  destruct (environ_of (world_of s) !! key') eqn:E'; simpl; [|exact E].
  destruct (decide (key' = key)) as [->|Hne].
  - apply lookup_delete_eq.
  - rewrite lookup_delete_ne by exact Hne. exact E.
Qed.

End Frames.

(** The head constant of a command. *)
Ltac head_of t :=
  lazymatch t with
  | ?f _ => head_of f
  | _ => t
  end.

(** Side conditions of the frame lemmas: an event satisfies a predicate
    that computes, two names differ. *)
Ltac frame_side :=
  solve [ exact I | reflexivity | discriminate | intro; discriminate
        | assumption ].

(** Applies a frame lemma and discharges its class premises. *)
Ltac fapply lem := apply lem; try (exact _).

(** Proves [preserves R m] by following the structure of [m]. *)
Ltac frame_step :=
  lazymatch goal with
  | |- preserves _ (mret _) => fapply preserves_ret
  | |- preserves _ (raise _) => fapply preserves_raise
  | |- preserves _ (mbind _ _) => fapply preserves_bind; [ | intros ? ]
  | |- preserves _ (when false ?body) =>
    change (when false body) with (mret tt : M unit); fapply preserves_ret
  | |- preserves _ (when _ _) => fapply preserves_when; intros ?
  | |- preserves _ (for_each _ _) => fapply preserves_for_each; intros ?
  | |- preserves _ (for_enumerate _ _ _) =>
    fapply preserves_for_enumerate; intros ? ?
  | |- preserves _ (lift _) => fapply preserves_readonly; apply readonly_lift
  | |- preserves _ get_world =>
    fapply preserves_readonly; apply readonly_get_world
  | |- preserves _ (ask _) => fapply preserves_readonly; apply readonly_ask
  | |- preserves _ (environ_getitem _) =>
    fapply preserves_readonly; apply readonly_environ_getitem
  | |- preserves _ (environ_get _) =>
    fapply preserves_readonly; apply readonly_environ_get
  | |- preserves _ (environ_contains _) =>
    fapply preserves_readonly; apply readonly_environ_contains
  | |- preserves _ (path_exists _) =>
    fapply preserves_readonly; apply readonly_path_exists
  | |- preserves _ (path_isdir _) =>
    fapply preserves_readonly; apply readonly_path_isdir
  | |- preserves _ (dav_has _) =>
    fapply preserves_readonly; apply readonly_dav_has
  | |- preserves _ (emit _) =>
    first [ solve [fapply preserves_emit]
          | apply trace_ext_emit; frame_side ]
  | |- preserves _ (environ_setitem _ _) =>
    first [ solve [fapply preserves_environ_setitem]
          | apply env_keeps_setitem; frame_side
          | apply env_never_sets_setitem; frame_side ]
  | |- preserves _ (environ_delitem _) =>
    first [ solve [fapply preserves_environ_delitem]
          | apply env_keeps_delitem; frame_side
          | apply env_never_sets_delitem ]
  | |- preserves _ (run_on_fs _) => solve [fapply preserves_run_on_fs]
  | |- preserves _ (run_tool _) => solve [fapply preserves_run_tool]
  | |- preserves _ (run_on_dav _) => solve [fapply preserves_run_on_dav]
  | |- preserves _ (modify_dav _) => solve [fapply preserves_modify_dav]
  | |- preserves _ (if ?b then _ else _) => destruct b
  | |- preserves _ (match ?x with _ => _ end) => destruct x
  | |- preserves _ ?m => let h := head_of m in unfold h
  end.

(** Frame properties of commands that were proved by hand. *)
Create HintDb frames.

Ltac frame :=
  repeat (first [assumption | solve [auto 1 with frames nocore] | frame_step]).

End Frames.
Export Frames.

(** * Deployment *)

(** Runs a command symbolically: unfolds the monad and its primitives. *)
Ltac run :=
  cbv beta iota zeta delta
    [mbind mret M_bind M_ret raise lift get_world put_world emit logger echo
     environ_getitem environ_get environ_contains environ_setitem
     environ_delitem path_exists path_isdir ask run_on_fs run_tool
     run_on_dav modify_dav dav_has when env_getitem env_contains
     set_environ set_fs set_dav];
  cbn [world_of trace environ_of fs_of dav_of fst snd negb andb orb].

Module DeployFacts.
Import Logic.
Section DeployFacts.
Context {local_fs : LocalFS} {constants : Constants} {tools : Tools}
        {webdav : WebDAV}.

(** An upload without [overwrite] to a destination that holds a resource
    is refused: the call raises and nothing else happens. *)
Lemma deploy_conda_package_refuses (package : string) (arch : option string)
    (stable public : bool) (username password : string) (dry_run : bool)
    (s : state) :
  is_Some (dav_of (world_of s) !! destination package arch stable public) ->
  deploy_conda_package package arch stable public username password false
    dry_run s =
  (Raise (RuntimeError
            (Deploy.msg_already_exists
               (destination package arch stable public))),
   {| world_of := world_of s;
      trace := trace s ++ [DeployCondaPackage package arch stable public
                             username password false dry_run] |}).
Proof.
  intros Hthere. unfold deploy_conda_package. run.
  rewrite bool_decide_eq_true_2 by exact Hthere. reflexivity.
Qed.

(** Without [overwrite], a deployment leaves every remote resource as it
    was. *)
Lemma deploy_conda_package_keeps (package : string) (arch : option string)
    (stable public : bool) (username password : string) (dry_run : bool) :
  preserves dav_keeps
    (deploy_conda_package package arch stable public username password false
       dry_run).
Proof.
  intros s path content Hpath. unfold deploy_conda_package. run.
  destruct (bool_decide
              (is_Some (dav_of (world_of s) !!
                          destination package arch stable public)))
    eqn:Hthere; run; [exact Hpath|].
  destruct dry_run; run; [exact Hpath|].
  apply bool_decide_eq_false_1 in Hthere.
  rewrite lookup_insert_ne; [exact Hpath|].
  intros <-. apply Hthere. eauto.
Qed.

(** A deployment changes neither the environment nor the local files. *)
Lemma deploy_conda_package_local (package : string) (arch : option string)
    (stable public : bool) (username password : string)
    (overwrite dry_run : bool) :
  preserves local_same
    (deploy_conda_package package arch stable public username password
       overwrite dry_run).
Proof. frame. Qed.

(** In dry-run mode a deployment uploads nothing. *)
Lemma deploy_conda_package_dry_run (package : string) (arch : option string)
    (stable public : bool) (username password : string) (overwrite : bool) :
  preserves (trace_ext (fun ev => is_side_effect ev = false))
    (deploy_conda_package package arch stable public username password
       overwrite true).
Proof. frame. Qed.

(** [upload] skips a resource whose remote name the server says is taken:
    two warnings, no upload, no error, and the loop it is the body of goes
    on. *)
Lemma upload_one_refuses (private execute : bool) (remote k : string)
    (s : state) :
  cl_check (world_of s) private (remote +:+ os_path_basename k) = Ok true ->
  upload_one private execute remote k s =
  (Ok tt,
   {| world_of := world_of s;
      trace := trace s ++
        [Echo EchoWarning
           (msg_resource_exists
              (dav_get_url private (remote +:+ os_path_basename k)));
         Echo EchoWarning msg_remove_first] |}).
Proof.
  intros Hthere. unfold upload_one, dav_check. run.
  rewrite Hthere. run. rewrite <- app_assoc. reflexivity.
Qed.

End DeployFacts.
End DeployFacts.

#[export] Hint Resolve DeployFacts.deploy_conda_package_keeps : frames.

Section Deployment.
Import Logic DeployFacts.
Context {local_fs : LocalFS} {constants : Constants} {tools : Tools}
        {webdav : WebDAV}.

(** Every call of [deploy_conda_package] made by [base_deploy], [deploy]
    and [nightlies] passes [overwrite=False], and base-deploy leaves every
    resource of the remote store as it was. *)
Lemma deploy_calls_never_overwrite :
  (forall dry_run,
     preserves (trace_ext never_overwrites) (base_deploy dry_run)) /\
  (forall latest dry_run,
     preserves (trace_ext never_overwrites) (deploy latest dry_run)) /\
  (forall order dry_run,
     preserves (trace_ext never_overwrites) (nightlies order dry_run)) /\
  (forall dry_run, preserves dav_keeps (base_deploy dry_run)).
Proof.
  split; [intros; frame|].
  split; [intros; frame|].
  split; [intros; frame|].
  intros; frame.
Qed.

(** Dry-run is honoured by the single-package build, by the PyPI upload,
    by the deploy commands, by the nightlies and by the WebDAV commands:
    with it they build no package, upload nothing to PyPI or to the remote
    store and delete nothing there. *)
Lemma dry_run_honoured :
  (forall recipe_dir python condarc config no_test append_file server group
          private stable ci test_mark_expr,
     preserves (trace_ext (fun ev => is_side_effect ev = false))
       (build recipe_dir python condarc config no_test append_file server
          group private stable true ci test_mark_expr)) /\
  (forall package,
     preserves (trace_ext (fun ev => is_side_effect ev = false))
       (pypi package true)) /\
  preserves (trace_ext (fun ev => is_side_effect ev = false))
    (base_deploy true) /\
  (forall order,
     preserves (trace_ext (fun ev => is_side_effect ev = false))
       (nightlies order true)) /\
  (forall private path,
     preserves (trace_ext (fun ev => is_side_effect ev = false))
       (rmtree private false path)) /\
  (forall private local remote,
     preserves (trace_ext (fun ev => is_side_effect ev = false))
       (upload private false local remote)).
Proof.
  repeat split; intros; frame.
Qed.

(** [base_build] never looks at its [dry_run] argument. *)
Lemma base_build_ignores_dry_run (order group : string) (python : list string)
    (dry_run : bool) :
  base_build order group python dry_run = base_build order group python false.
Proof. reflexivity. Qed.

(** What [pypi] does for a project that is not public. *)
Lemma pypi_non_public_run (package : list string) (dry_run : bool)
    (s : state) :
  environ_of (world_of s) !! "CI_PROJECT_VISIBILITY" <> Some "public" ->
  exists e s',
    pypi package dry_run s = (Raise e, s') /\
    world_of s' = world_of s /\
    twine_uploads (trace s') = twine_uploads (trace s) /\
    (forall path,
       is_Some (environ_of (world_of s) !! "CI_PROJECT_VISIBILITY") ->
       environ_of (world_of s) !! "CI_PROJECT_PATH" = Some path ->
       e = RuntimeError (msg_not_public path)).
Proof.
  intros Hvis. unfold pypi, msg_dry_run_deploy.
  assert (forall t evs, twine_uploads (t ++ evs) =
                        twine_uploads t ++ twine_uploads evs) as Happ
    by (intros; apply omap_app).
  destruct dry_run; run;
    (destruct (environ_of (world_of s) !! "CI_PROJECT_VISIBILITY")
       as [v|] eqn:Ev;
     [ rewrite bool_decide_eq_false_2 by congruence; run;
       destruct (environ_of (world_of s) !! "CI_PROJECT_PATH")
         as [p|] eqn:Ep
     | ]);
    do 2 eexists; (split; [reflexivity|]); cbn [world_of trace];
    (split; [reflexivity|]);
    (split; [rewrite ?Happ; cbn; rewrite ?app_nil_r; reflexivity|]);
    intros path Hsome Hpath; try congruence;
    destruct Hsome as [? Hsome]; discriminate Hsome.
Qed.

(** Hence an upload to PyPI happens only for a public project. *)
Lemma pypi_uploads_only_public (package : list string) (dry_run : bool)
    (s : state) :
  twine_uploads (trace (pypi package dry_run s).2) <> twine_uploads (trace s) ->
  environ_of (world_of s) !! "CI_PROJECT_VISIBILITY" = Some "public".
Proof.
  intros Hup.
  destruct (decide (environ_of (world_of s) !! "CI_PROJECT_VISIBILITY"
                    = Some "public")) as [E|E]; [exact E|].
  exfalso. apply Hup.
  destruct (pypi_non_public_run package dry_run s E)
    as (e & s' & Hrun & _ & Htw & _).
  rewrite Hrun. exact Htw.
Qed.

(** C7: when the visibility of the project is not [public], [pypi] raises
    and uploads nothing (the error is the explicit refusal when the
    visibility and the project path are defined); so packages are uploaded
    only when the visibility is [public]. *)
Theorem pypi_refuses_non_public (package : list string) (dry_run : bool)
    (s : state) :
  environ_of (world_of s) !! "CI_PROJECT_VISIBILITY" <> Some "public" ->
  exists e s',
    pypi package dry_run s = (Raise e, s') /\
    world_of s' = world_of s /\
    twine_uploads (trace s') = twine_uploads (trace s) /\
    (forall path,
       is_Some (environ_of (world_of s) !! "CI_PROJECT_VISIBILITY") ->
       environ_of (world_of s) !! "CI_PROJECT_PATH" = Some path ->
       e = RuntimeError (msg_not_public path)).
Proof. apply pypi_non_public_run. Qed.

End Deployment.

Section DeploymentRuns.
Import Sim.

(** The theorem applies: the PyPI upload of a private project is refused
    with the explicit message. *)
Lemma pypi_refuses_non_public_witness :
  (pypi (tools := sim_tools all_fine) ["dist/bob.devtools.zip"] false
     (initial private_environ [] ∅)).1 =
  Raise (RuntimeError (msg_not_public "bob/bob.devtools")).
Proof.
  assert (Hvis :
            environ_of (world_of (initial private_environ [] ∅))
              !! "CI_PROJECT_VISIBILITY" <> Some "public")
    by (vm_compute; discriminate).
  destruct (pypi_refuses_non_public (tools := sim_tools all_fine)
              ["dist/bob.devtools.zip"] false _ Hvis)
    as (e & s' & Hrun & _ & _ & Hmsg).
  rewrite Hrun. cbn [fst]. f_equal.
  apply Hmsg; [eexists|]; vm_compute; reflexivity.
Defined.

(** Publishing twice: the second deployment of the same artifact is
    refused and the remote store still holds what the first one put
    there. *)
Example deploy_conda_package_twice :
  let artifact := "/conda/conda-bld/linux-64/bob.io-1.0-py37_0.tar.bz2" in
  let once :=
    deploy_conda_package artifact (Some "linux-64") true true "user" "pass"
      false false (initial (ci_environ "master") [] ∅) in
  let twice :=
    deploy_conda_package "/other/bob.io-1.0-py37_0.tar.bz2" (Some "linux-64")
      true true "user" "pass" false false once.2 in
  once.1 = Ok tt /\
  twice.1 = Raise (RuntimeError
                     (Deploy.msg_already_exists
                        (destination artifact (Some "linux-64") true true))) /\
  dav_of (world_of twice.2) !! destination artifact (Some "linux-64") true true
    = Some artifact.
Proof. vm_compute. repeat split; reflexivity. Qed.

(** C5 fails for [bdt dav upload]: with [--execute], two local files and a
    remote directory that holds a resource with the name of the first, on a
    server that answers every request, the command warns twice about the
    first file, goes on to upload the second and returns [None], the value
    of a run without error.  The resource that was there is kept. *)
Theorem dav_upload_goes_on_after_refusal :
  let index := dav_get_url false "/docs/index.html" in
  let api := dav_get_url false "/docs/api.html" in
  let store : dav_store :=
    {[ dav_get_url false "/docs/" := "docs"; index := "old/index.html" ]} in
  let run :=
    upload false true ["new/index.html"; "new/api.html"] "/docs/"
      (initial (ci_environ "master") [] store) in
  run.1 = Ok None /\
  trace run.2 =
    [ Echo EchoWarning (msg_resource_exists index);
      Echo EchoWarning msg_remove_first;
      Echo EchoInfo ("cp new/api.html " +:+ api);
      DavUploadFile "new/api.html" api ] /\
  dav_of (world_of run.2) !! index = Some "old/index.html" /\
  dav_of (world_of run.2) !! api = Some "new/api.html".
Proof. vm_compute. repeat split; reflexivity. Qed.

End DeploymentRuns.

(** * Base-dependency deployment *)

Module LoopFacts.
Import Logic.
Section LoopFacts.
Context {local_fs : LocalFS}.

(** What a loop asks its collaborators, from what each iteration asks: the
    observed calls are those wanted for the elements in order, all of them
    when the loop returns and a prefix of them when it raises. *)
Lemma for_each_observed {A X} (obs : list event -> list X)
    (want : A -> list X) (I : state -> Prop) (body : A -> M unit) :
  obs [] = [] ->
  (forall a b, obs (a ++ b) = obs a ++ obs b) ->
  (forall x s, I s ->
     exists new,
       trace (body x s).2 = trace s ++ new /\
       obs new `prefix_of` want x /\
       ((body x s).1 = Ok tt -> obs new = want x /\ I (body x s).2)) ->
  forall l s, I s ->
    exists new,
      trace (for_each l body s).2 = trace s ++ new /\
      obs new `prefix_of` flat_map want l /\
      ((for_each l body s).1 = Ok tt ->
       obs new = flat_map want l /\ I (for_each l body s).2).
Proof.
  intros Hnil Happ Hbody l. induction l as [|x l IH]; intros s HI.
  - exists []. cbn. rewrite app_nil_r, Hnil.
    split; [reflexivity|]. split; [reflexivity|]. auto.
  - cbn [for_each flat_map]. rewrite run_bind.
    destruct (Hbody x s HI) as (new1 & Htr1 & Hpre1 & Hok1).
    destruct (body x s) as [[[]|e] s1]; cbn [fst snd] in *.
    + destruct (Hok1 eq_refl) as [Hobs1 HI1].
      destruct (IH s1 HI1) as (new2 & Htr2 & Hpre2 & Hok2).
      exists (new1 ++ new2).
      rewrite Htr2, Htr1, app_assoc, Happ, Hobs1.
      split; [reflexivity|].
      split; [apply prefix_app, Hpre2|].
      intros Hok. destruct (Hok2 Hok) as [Hobs2 HI2].
      rewrite Hobs2. auto.
    + exists new1. split; [exact Htr1|].
      split; [apply prefix_app_r, Hpre1 | discriminate].
Qed.

Lemma deployed_app (a b : list event) :
  deployed (a ++ b) = deployed a ++ deployed b.
Proof. apply omap_app. Qed.

End LoopFacts.
End LoopFacts.

(** * Base-dependency deployment: what is deployed *)

Module BaseDeployFacts.
Import Logic LoopFacts DeployFacts.
Section BaseDeployFacts.
Context {local_fs : LocalFS} {constants : Constants} {tools : Tools}.

(** A deployment records its call first; nothing it does afterwards is
    another call. *)
Lemma deploy_conda_package_trace (package : string) (arch : option string)
    (stable public : bool) (username password : string)
    (overwrite dry_run : bool) (s : state) :
  exists rest,
    trace (deploy_conda_package package arch stable public username password
             overwrite dry_run s).2 =
    trace s ++ DeployCondaPackage package arch stable public username
                 password overwrite dry_run :: rest /\
    deployed rest = [].
Proof.
  unfold deploy_conda_package. run.
  destruct (bool_decide _ && negb overwrite); run.
  - exists []. rewrite <- ?app_assoc. split; reflexivity.
  - destruct dry_run; run; eexists; rewrite <- ?app_assoc; split; reflexivity.
Qed.



(** One artifact of the build tree: it is passed to
    [deploy_conda_package] unless its name starts with the package name. *)
Lemma base_deploy_package_observed (name arch : string) (dry_run : bool)
    (k : string) (s0 s : state) :
  local_same s0 s ->
  let want :=
    if startswith (os_path_basename k) name then [] else [(Some arch, k)] in
  exists new,
    trace (base_deploy_package name dry_run arch k s).2 = trace s ++ new /\
    deployed new `prefix_of` want /\
    ((base_deploy_package name dry_run arch k s).1 = Ok tt ->
     deployed new = want /\
     local_same s0 (base_deploy_package name dry_run arch k s).2).
Proof.
  intros Hs want. subst want. unfold base_deploy_package.
  destruct (startswith (os_path_basename k) name); run.
  - eexists. split; [reflexivity|]. split; [reflexivity|].
    intros _. split; [reflexivity | exact Hs].
  - destruct (environ_of (world_of s) !! "DOCUSER") as [u|]; run;
      [|exists []; rewrite app_nil_r; split; [reflexivity|];
        split; [apply prefix_nil | discriminate]].
    destruct (environ_of (world_of s) !! "DOCPASS") as [p|]; run;
      [|exists []; rewrite app_nil_r; split; [reflexivity|];
        split; [apply prefix_nil | discriminate]].
    destruct (deploy_conda_package_trace k (Some arch) true true u p false
                dry_run s) as (rest & Htr & Hrest).
    eexists. split; [exact Htr|].
    assert (deployed (DeployCondaPackage k (Some arch) true true u p false
                        dry_run :: rest) = [(Some arch, k)]) as ->.
    { change (DeployCondaPackage k (Some arch) true true u p false dry_run :: rest)
        with ([DeployCondaPackage k (Some arch) true true u p false dry_run] ++ rest).
      rewrite deployed_app, Hrest. reflexivity. }
    split; [reflexivity|]. intros _. split; [reflexivity|].
    transitivity s; [exact Hs | apply deploy_conda_package_local].
Qed.

End BaseDeployFacts.
End BaseDeployFacts.

Section BaseDeploy.
Import Logic LoopFacts DeployFacts BaseDeployFacts.
Context {local_fs : LocalFS} {constants : Constants} {tools : Tools}.

(** C8: base-deploy passes to [deploy_conda_package], architecture by
    architecture and in the order they were found, exactly the artifacts of
    the local build tree whose file name does not start with the name of the
    current package: all of them when the command returns, a prefix of them
    when a deployment raises; an artifact whose name starts with the package
    name is never deployed. *)
Theorem base_deploy_only_other_packages (dry_run : bool) (s : state)
    (package group name conda_root : string) :
  environ_of (world_of s) !! "CI_PROJECT_PATH" = Some package ->
  str_split package "/" = [group; name] ->
  environ_of (world_of s) !! "CONDA_ROOT" = Some conda_root ->
  let found arch :=
    glob_glob (fs_of (world_of s))
      (os_path_join conda_root ["conda-bld"; arch; "*.tar.bz2"]) in
  let wanted :=
    flat_map
      (fun arch =>
         flat_map (fun k => if startswith (os_path_basename k) name
                            then [] else [(Some arch, k)])
                  (found arch))
      archs in
  exists new,
    trace (base_deploy dry_run s).2 = trace s ++ new /\
    deployed new `prefix_of` wanted /\
    ((base_deploy dry_run s).1 = Ok tt -> deployed new = wanted) /\
    (forall arch k,
       arch ∈ archs -> k ∈ found arch ->
       ((Some arch, k) ∈ wanted <->
        startswith (os_path_basename k) name = false)).
Proof.
  intros Hpath Hsplit Hroot found wanted.
  assert (forall s1, local_same s s1 ->
            exists new,
              trace (for_each archs (base_deploy_arch name dry_run) s1).2
              = trace s1 ++ new /\
              deployed new `prefix_of` wanted /\
              ((for_each archs (base_deploy_arch name dry_run) s1).1 = Ok tt ->
               deployed new = wanted /\
               local_same s (for_each archs (base_deploy_arch name dry_run) s1).2))
    as Hloop.
  { intros s1 Hs1. subst wanted.
    apply (for_each_observed deployed _ (local_same s));
      [reflexivity | apply deployed_app | | exact Hs1].
    intros arch s2 [Henv Hfs]. unfold base_deploy_arch, glob. run.
    rewrite Henv, Hroot, Hfs. run. fold (found arch).
    apply (for_each_observed deployed _ (local_same s));
      [reflexivity | apply deployed_app | | split; assumption].
    intros k s3 Hs3.
    apply (base_deploy_package_observed name arch dry_run k s s3 Hs3). }
  assert (forall arch k,
            arch ∈ archs -> k ∈ found arch ->
            ((Some arch, k) ∈ wanted <->
             startswith (os_path_basename k) name = false)) as Hmem.
  { intros arch k Harch Hk. subst wanted.
    rewrite list_elem_of_In, in_flat_map. split.
    - intros (arch' & _ & Hin). apply in_flat_map in Hin.
      destruct Hin as (k' & _ & Hin).
      destruct (startswith (os_path_basename k') name) eqn:Hstart;
        [destruct Hin|].
      destruct Hin as [Heq|[]]. injection Heq as -> ->. exact Hstart.
    - intros Hstart. exists arch. split; [apply list_elem_of_In, Harch|].
      apply in_flat_map. exists k. split; [apply list_elem_of_In, Hk|].
      rewrite Hstart. left. reflexivity. }
  unfold base_deploy, msg_dry_run_deploy.
  destruct dry_run; run; rewrite Hpath; run; rewrite Hsplit;
    unfold unpack2; run.
  - match goal with
    | |- context [for_each archs _ ?s1] =>
      destruct (Hloop s1) as (new & Htr & Hpre & Hok);
        [split; reflexivity|]
    end.
    exists ([Logged WARNING "!!!! DRY RUN MODE !!!!";
             Logged WARNING "Nothing is being deployed to server"] ++ new).
    split; [rewrite Htr; cbn [trace]; rewrite <- !app_assoc; reflexivity|].
    rewrite deployed_app.
    split; [exact Hpre|]. split; [|exact Hmem].
    intros Hrun. apply Hok, Hrun.
  - destruct (Hloop s) as (new & Htr & Hpre & Hok); [reflexivity|].
    exists new. split; [exact Htr|]. split; [exact Hpre|].
    split; [|exact Hmem]. intros Hrun. apply Hok, Hrun.
Qed.

End BaseDeploy.

Section BaseDeployWitness.
Import Sim.

(** The theorem applies: of the three artifacts of the build tree of
    [bob.devtools], the two dependencies are deployed and the package's own
    output is not. *)
Lemma base_deploy_only_other_packages_witness :
  deployed
    (trace (base_deploy false
              (initial (ci_environ "master") built_tree ∅)).2) =
  [ (Some "linux-64", "/conda/conda-bld/linux-64/zlib-1.2.11-0.tar.bz2");
    (Some "noarch", "/conda/conda-bld/noarch/six-1.12-py_0.tar.bz2") ].
Proof.
  destruct (base_deploy_only_other_packages false
              (initial (ci_environ "master") built_tree ∅)
              "bob/bob.devtools" "bob" "bob.devtools" "/conda")
    as (new & Htrace & _ & Hall & _);
    [vm_compute; reflexivity .. |].
  rewrite Htrace. cbn [trace initial app].
  rewrite Hall by (vm_compute; reflexivity).
  vm_compute. reflexivity.
Defined.

End BaseDeployWitness.

(** * The nightly pipeline *)

Module NightliesFacts.
Import Logic DeployFacts.
Section NightliesFacts.
Context {local_fs : LocalFS} {constants : Constants} {tools : Tools}.

Lemma never_returns_raise {A} (e : exn) : never_returns (raise (A:=A) e).
Proof. intros s. exists e. reflexivity. Qed.

(** What follows a command that never returns is never run. *)
Lemma never_returns_bind_l {A B} (m : M A) (k : A -> M B) :
  never_returns m -> never_returns (m ≫= k).
Proof.
  intros Hm s. rewrite run_bind. destruct (Hm s) as [e He].
  destruct (m s) as [[a|e'] s1]; cbn [fst] in *; [discriminate|].
  exists e'. reflexivity.
Qed.

Lemma never_returns_bind_r {A B} (m : M A) (k : A -> M B) :
  (forall a, never_returns (k a)) -> never_returns (m ≫= k).
Proof.
  intros Hk s. rewrite run_bind.
  destruct (m s) as [[a|e] s1]; [apply Hk|].
  exists e. reflexivity.
Qed.

Lemma preserves_raise_bind (R : relation state) `{!PreOrder R} {A B}
    (e : exn) (k : A -> M B) :
  preserves R (raise e ≫= k).
Proof. intros s. reflexivity. Qed.

(** [build] has no parameter [use_local]: the call [nightlies] makes raises
    before the body of [build] runs. *)
Lemma invoke_build_raises {A} (body : M A) :
  call_with_keywords "build" build_parameters nightlies_build_keywords body =
  raise (TypeError "build() got an unexpected keyword argument 'use_local'").
Proof. reflexivity. Qed.

(** Follows an iteration of [nightlies] up to the call of [build], where it
    ends. *)
Ltac up_to_build :=
  repeat lazymatch goal with
  | |- never_returns (call_with_keywords _ _ _ _ ≫= _) =>
    apply never_returns_bind_l; rewrite invoke_build_raises;
    apply never_returns_raise
  | |- never_returns (_ ≫= _) => apply never_returns_bind_r; intros ?
  | |- never_returns (match ?x with _ => _ end) => destruct x
  | |- preserves _ (call_with_keywords _ _ _ _ ≫= _) =>
    rewrite invoke_build_raises; apply preserves_raise_bind; exact _
  | |- preserves _ (_ ≫= _) =>
    apply preserves_bind; [exact _ | solve [frame] | intros ?]
  | |- preserves _ (match ?x with _ => _ end) => destruct x
  end.


(** An iteration leaves the marker [BDT_BUILD] as it found it. *)
Lemma nightlies_package_keeps_marker (token : string) (dry_run : bool)
    (total n : nat) (entry : string * string) :
  preserves (env_keeps "BDT_BUILD")
    (nightlies_package token dry_run total n entry).
Proof. unfold nightlies_package. destruct entry. up_to_build. Qed.

(** An iteration builds nothing and deploys nothing. *)
Lemma nightlies_package_builds_nothing (token : string) (dry_run : bool)
    (total n : nat) (entry : string * string) :
  preserves (trace_ext (fun ev => is_build_or_deployment ev = false))
    (nightlies_package token dry_run total n entry).
Proof. unfold nightlies_package. destruct entry. up_to_build. Qed.

End NightliesFacts.
End NightliesFacts.

#[export] Hint Resolve NightliesFacts.nightlies_package_keeps_marker
  NightliesFacts.nightlies_package_builds_nothing : frames.

Section NightliesRuns.
Import Logic NightliesFacts Sim.


End NightliesRuns.

(** * Failures and skipped recipes in the pipelines *)

Section Pipelines.
Import Logic.
Context {local_fs : LocalFS} {constants : Constants} {tools : Tools}.






(** [build] has no such skip: a recipe directory that does not exist is an
    error. *)
Lemma build_recipe_missing_directory (recipe_dir : list string)
    (python : string) (no_test dry_run : bool) (upload_channel : string)
    (conda_config : CondaConfig) (arch d : string) (s : state) :
  os_path_exists (fs_of (world_of s)) d = false ->
  build_recipe recipe_dir python no_test dry_run upload_channel conda_config
    arch d s = (Raise (RuntimeError (msg_no_directory d)), s).
Proof. intros Hd. unfold build_recipe. run. rewrite Hd. reflexivity. Qed.


End Pipelines.

Section PipelineRuns.
Import Sim.

(** In [base_build] the recipe [a], which has no [meta.yaml], is skipped and
    [b] is built; when both have one and the build of [a] fails, [b] is not
    built and the command ends with the error of the build. *)
Example base_build_runs :
  let skipped :=
    base_build (tools := sim_tools all_fine) "order.txt" "bob" [] false
      (initial (ci_environ "master") (condarc_file :: recipes_ab) ∅) in
  let failed :=
    base_build (tools := sim_tools recipe_a_fails) "order.txt" "bob" [] false
      (initial (ci_environ "master") (condarc_file :: recipes_ab_complete) ∅) in
  skipped.1 = Ok tt /\
  Logged INFO (msg_ignoring "a") ∈ trace skipped.2 /\
  base_builds (trace skipped.2) = ["b"] /\
  failed.1 = Raise (ExternalError "conda-build" "the build failed") /\
  base_builds (trace failed.2) = ["a"] /\
  exit_status failed.1 = 1%Z.
Proof.
  vm_compute. repeat split; try reflexivity.
  repeat first [apply list_elem_of_here | apply list_elem_of_further].
Qed.

End PipelineRuns.

(** * Dry-run and the channels of a base build *)

Section BaseBuild.
Import Logic Bootstrap.
Context {local_fs : LocalFS} {constants : Constants} {tools : Tools}.

(** Without a condarc file in [CONDA_ROOT], [base_build] raises before it
    reads the order file and leaves the state as it found it; when
    [get_channels] answers and the default options load, the error is the
    [TypeError] of the concatenation of a list and a pair. *)
Lemma base_build_without_condarc (order group : string) (python : list string)
    (dry_run : bool) (s : state) (conda_root : string) :
  environ_of (world_of s) !! "CONDA_ROOT" = Some conda_root ->
  os_path_exists (fs_of (world_of s)) (os_path_join conda_root ["condarc"])
    = false ->
  exists e,
    base_build order group python dry_run s = (Raise e, s) /\
    (forall channels options,
       get_channels true true SERVER true "bob" false = Ok channels ->
       yaml_load BASE_CONDARC = Ok options ->
       list_add_pair ["local"] channels = Raise e).
Proof.
  intros Hroot Hcondarc. unfold base_build. run. rewrite Hroot. run.
  rewrite Hcondarc. run.
  destruct (get_channels true true SERVER true "bob" false) as [channels|e];
    run; [|exists e; split; [destruct s; reflexivity | discriminate]].
  destruct (yaml_load BASE_CONDARC) as [options|e];
    run; [|exists e; split; [destruct s; reflexivity | discriminate]].
  eexists. split; [destruct s; reflexivity|].
  intros channels' options' [= <-] _. reflexivity.
Qed.

End BaseBuild.

Section BaseBuildRuns.
Import Sim Bootstrap.


(** C6 fails for [base_build]: on a CI job, where [CONDA_ROOT] holds the
    condarc file, the command builds the recipes [a] and [b] with
    [--dry-run] all the same, as it never looks at the flag. *)
Theorem base_build_dry_run_builds :
  let files := condarc_file :: recipes_ab_complete in
  let run :=
    base_build (tools := sim_tools all_fine) "order.txt" "bob" [] true
      (initial (ci_environ "master") files ∅) in
  os_path_exists files "/conda/condarc" = true /\
  run.1 = Ok tt /\
  base_builds (trace run.2) = ["a"; "b"] /\
  existsb is_side_effect (trace run.2) = true /\
  run =
  base_build (tools := sim_tools all_fine) "order.txt" "bob" [] false
    (initial (ci_environ "master") files ∅).
Proof. vm_compute. repeat split; reflexivity. Qed.

End BaseBuildRuns.

(** * Elapsed times *)

Section HumanTime.
Import BootstrapTime.

Lemma human_time_step_eq (s : Z) (res : list (option string)) (name : string)
    (count : Z) :
  (0 < count)%Z ->
  human_time_step (s, res) (name, count) =
  ((s mod count)%Z,
   if (s / count =? 0)%Z
   then (if (0 <? length res)%nat then res ++ [None] else res)
   else res ++ [Some (str_of_Z (s / count) +:+ " " +:+
                      (if (s / count =? 1)%Z then rstrip_s name else name))]).
Proof.
  intros Hc. unfold human_time_step.
  destruct (s / count =? 0)%Z eqn:Hv; cbn [negb].
  - apply Z.eqb_eq in Hv. f_equal.
    rewrite Z.mod_eq by lia. rewrite Hv. lia.
  - f_equal. rewrite Z.mod_eq by lia. lia.
Qed.

Lemma human_time_steps (n : Z) :
  fold_left human_time_step _INTERVALS (n, []) =
  (0%Z, List.map entry_of (from_leading_unit (unit_values n))).
Proof.
  assert (E2 : ((n mod 604800) mod 86400 = n mod 86400)%Z).
  { apply Z.mod_mod_divide. exists 7%Z. reflexivity. }
  assert (E3 : ((n mod 86400) mod 3600 = n mod 3600)%Z).
  { apply Z.mod_mod_divide. exists 24%Z. reflexivity. }
  assert (E4 : ((n mod 3600) mod 60 = n mod 60)%Z).
  { apply Z.mod_mod_divide. exists 60%Z. reflexivity. }
  unfold _INTERVALS, unit_values. cbn [fold_left].
  rewrite (human_time_step_eq n) by lia.
  rewrite (human_time_step_eq (n mod 604800)) by lia. rewrite E2.
  rewrite (human_time_step_eq (n mod 86400)) by lia. rewrite E3.
  rewrite (human_time_step_eq (n mod 3600)) by lia. rewrite E4.
  rewrite (human_time_step_eq (n mod 60)) by lia.
  rewrite Z.mod_1_r, Z.div_1_r.
  unfold entry_of, show_unit, is_zero_unit.
  cbn [from_leading_unit is_zero_unit fst snd].
  unfold is_zero_unit. cbn [fst snd].
  destruct (n / 604800 =? 0)%Z eqn:V1;
  destruct (n mod 604800 / 86400 =? 0)%Z eqn:V2;
  destruct (n mod 86400 / 3600 =? 0)%Z eqn:V3;
  destruct (n mod 3600 / 60 =? 0)%Z eqn:V4;
  destruct (n mod 60 =? 0)%Z eqn:V5;
  cbn [length Nat.ltb Nat.leb app List.map fst snd];
  rewrite ?V1, ?V2, ?V3, ?V4, ?V5;
  repeat match goal with
         | |- context [(?v =? 1)%Z] => destruct (v =? 1)%Z
         end; reflexivity.
Qed.

End HumanTime.

Section HumanTimeSpec.
Import BootstrapTime.

Lemma slice_to_map {A B} (f : A -> B) (g : Z) (l : list A) :
  slice_to g (List.map f l) = List.map f (slice_to g l).
Proof.
  unfold slice_to. rewrite length_map.
  destruct (g <? 0)%Z; symmetry; apply (fmap_take f).
Qed.

Lemma omap_entry_of (l : list (Z * string)) :
  omap id (List.map entry_of l) =
  List.map show_unit (List.filter (fun u => negb (is_zero_unit u)) l).
Proof.
  induction l as [|u l IH]; [reflexivity|].
  cbn [List.map List.filter]. unfold entry_of at 1.
  destruct (is_zero_unit u); cbn [negb omap list_omap id List.map].
  - exact IH.
  - f_equal. exact IH.
Qed.

Lemma no_leading_unit (n : Z) :
  from_leading_unit (unit_values n) = [] <-> n = 0%Z.
Proof.
  split.
  - unfold unit_values. cbn [from_leading_unit]. unfold is_zero_unit.
    cbn [fst].
    destruct (n / 604800 =? 0)%Z eqn:V1; [|discriminate].
    destruct (n mod 604800 / 86400 =? 0)%Z eqn:V2; [|discriminate].
    destruct (n mod 86400 / 3600 =? 0)%Z eqn:V3; [|discriminate].
    destruct (n mod 3600 / 60 =? 0)%Z eqn:V4; [|discriminate].
    destruct (n mod 60 =? 0)%Z eqn:V5; [|discriminate].
    intros _.
    apply Z.eqb_eq in V1, V2, V3, V4, V5.
    apply Z.div_small_iff in V1; [|lia].
    rewrite Z.mod_small in V2 by lia.
    apply Z.div_small_iff in V2; [|lia].
    rewrite Z.mod_small in V3 by lia.
    apply Z.div_small_iff in V3; [|lia].
    rewrite Z.mod_small in V4 by lia.
    apply Z.div_small_iff in V4; [|lia].
    rewrite Z.mod_small in V5 by lia. exact V5.
  - intros ->. reflexivity.
Qed.

Lemma human_time_units (seconds granularity : Z) :
  human_time seconds granularity =
  if (seconds =? 0)%Z then "0.00 seconds"
  else join ", " (List.map show_unit (shown_units seconds granularity)).
Proof.
  unfold human_time. rewrite human_time_steps.
  destruct (seconds =? 0)%Z eqn:Hz.
  - apply Z.eqb_eq in Hz. subst seconds. reflexivity.
  - destruct (from_leading_unit (unit_values seconds)) as [|u us] eqn:Hl.
    + apply no_leading_unit in Hl. apply Z.eqb_neq in Hz. contradiction.
    + unfold shown_units. rewrite Hl.
      rewrite <- omap_entry_of, <- slice_to_map. reflexivity.
Qed.

(** X1: [human_time] reports, for an integer number of seconds, the values
    obtained by division: weeks, then the days, hours, minutes and seconds of
    what is left; it starts at the first unit that is not zero, looks at
    [granularity] units from there and writes those that are not zero,
    separated by commas.  Zero seconds are written ["0.00 seconds"], so the
    branches for one second and for whole seconds are never taken. *)
Theorem human_time_by_division (seconds granularity : Z) :
  human_time seconds granularity =
  (if (seconds =? 0)%Z then "0.00 seconds"
   else join ", " (List.map show_unit (shown_units seconds granularity))) /\
  (fst (fold_left human_time_step _INTERVALS (seconds, [])) = 0%Z) /\
  (snd (fold_left human_time_step _INTERVALS (seconds, [])) = [] <->
   seconds = 0%Z).
Proof.
  split; [apply human_time_units|]. rewrite human_time_steps. cbn [fst snd].
  split; [reflexivity|]. rewrite <- no_leading_unit.
  destruct (from_leading_unit (unit_values seconds)); cbn [List.map];
    split; intros H; (reflexivity || discriminate H).
Qed.

(** X2: with the default granularity of two, a blank counts as a unit: a
    duration of whole weeks and less than a day is reported in weeks only,
    whatever hours, minutes and seconds it has. *)
Theorem human_time_hides_after_blank (weeks rest : Z) :
  (0 < weeks)%Z -> (0 <= rest < 86400)%Z ->
  human_time (604800 * weeks + rest) 2 = show_unit (weeks, "week").
Proof.
  intros Hw Hr. rewrite human_time_units.
  destruct (604800 * weeks + rest =? 0)%Z eqn:Hz;
    [apply Z.eqb_eq in Hz; lia|].
  unfold shown_units, unit_values.
  assert (Hdiv : ((604800 * weeks + rest) / 604800 = weeks)%Z).
  { rewrite Z.mul_comm, Z.div_add_l by lia. rewrite Z.div_small by lia. lia. }
  assert (Hmod : ((604800 * weeks + rest) mod 604800 = rest)%Z).
  { rewrite Z.add_comm, Z.mul_comm, Z.mod_add by lia. apply Z.mod_small. lia. }
  rewrite Hdiv, Hmod. rewrite (Z.div_small rest 86400) by lia.
  assert (Hw0 : (weeks =? 0)%Z = false) by (apply Z.eqb_neq; lia).
  cbv [from_leading_unit is_zero_unit fst]. rewrite Hw0.
  cbv [slice_to Z.ltb Z.compare Z.to_nat Pos.to_nat Pos.iter_op Nat.add
       firstn List.filter fst].
  rewrite Hw0. reflexivity.
Qed.

Lemma human_time_hides_after_blank_witness :
  human_time (604800 * 1 + 18305) 2 = "1 week".
Proof.
  apply (human_time_hides_after_blank 1 18305); lia.
Defined.

End HumanTimeSpec.

(** * The order file of a base build *)

Section OrderFile.
Import Shapes.

Lemma partition_head_no_sep (sep : ascii) (s : string) :
  has_char sep (partition_head sep s) = false.
Proof.
  induction s as [|c s IH]; [reflexivity|].
  cbn [partition_head]. destruct (Ascii.eqb c sep) eqn:Hc; [reflexivity|].
  cbn [has_char]. rewrite Hc, IH. reflexivity.
Qed.

Lemma partition_head_id (sep : ascii) (s : string) :
  has_char sep s = false -> partition_head sep s = s.
Proof.
  induction s as [|c s IH]; [reflexivity|].
  cbn [has_char partition_head]. intros H.
  apply orb_false_iff in H as [Hc Hs]. rewrite Hc, IH by exact Hs. reflexivity.
Qed.

Lemma lstrip_no_new (c : ascii) (s : string) :
  has_char c s = false -> has_char c (lstrip s) = false.
Proof.
  induction s as [|c' s IH]; [reflexivity|].
  cbn [lstrip]. destruct (is_space c'); [|tauto].
  cbn [has_char]. intros H. apply orb_false_iff in H as [_ Hs]. auto.
Qed.

Lemma rstrip_no_new (c : ascii) (s : string) :
  has_char c s = false -> has_char c (rstrip s) = false.
Proof.
  induction s as [|c' s IH]; [reflexivity|].
  cbn [rstrip has_char]. intros H. apply orb_false_iff in H as [Hc Hs].
  destruct (String.eqb (rstrip s) "" && is_space c'); [reflexivity|].
  cbn [has_char]. rewrite Hc, IH by exact Hs. reflexivity.
Qed.

Lemma rstrip_idem (s : string) : rstrip (rstrip s) = rstrip s.
Proof.
  induction s as [|c s IH]; [reflexivity|].
  cbn [rstrip].
  destruct (String.eqb (rstrip s) "" && is_space c) eqn:H; [reflexivity|].
  cbn [rstrip]. rewrite IH, H. reflexivity.
Qed.

Lemma lstrip_no_leading_space (s : string) : no_leading_space (lstrip s).
Proof.
  induction s as [|c s IH]; [exact I|].
  cbn [lstrip]. destruct (is_space c) eqn:Hc; [exact IH|exact Hc].
Qed.

Lemma rstrip_no_leading_space (s : string) :
  no_leading_space s -> no_leading_space (rstrip s).
Proof.
  destruct s as [|c s]; [intros; exact I|].
  cbn [no_leading_space rstrip]. intros Hc. rewrite Hc, andb_false_r. exact Hc.
Qed.

Lemma lstrip_id (s : string) : no_leading_space s -> lstrip s = s.
Proof.
  destruct s as [|c s]; [reflexivity|].
  cbn [no_leading_space lstrip]. intros ->. reflexivity.
Qed.

Lemma strip_idem (s : string) : strip (strip s) = strip s.
Proof.
  unfold strip.
  rewrite (lstrip_id (rstrip (lstrip s))).
  - apply rstrip_idem.
  - apply rstrip_no_leading_space, lstrip_no_leading_space.
Qed.

Lemma order_recipes_fixed (recipes : list string) :
  Forall clean_recipe recipes -> order_recipes recipes = recipes.
Proof.
  unfold order_recipes. induction 1 as [|r recipes [Hne [Hc Hs]] _ IH];
    [reflexivity|].
  cbn [List.map List.filter]. rewrite (partition_head_id _ r) by exact Hc.
  rewrite Hs. destruct (String.eqb r "") eqn:He.
  - apply String.eqb_eq in He. contradiction.
  - cbn [negb]. f_equal. exact IH.
Qed.

(** X3: the recipes [base_build] reads from an order file are clean: none
    is empty, none holds a comment sign and none has white space around it;
    reading the list of recipes again as an order file gives the same
    list. *)
Theorem order_recipes_clean (lines : list string) :
  Forall clean_recipe (order_recipes lines) /\
  order_recipes (order_recipes lines) = order_recipes lines.
Proof.
  assert (H : Forall clean_recipe (order_recipes lines)).
  { unfold order_recipes. induction lines as [|line lines IH]; [constructor|].
    cbn [List.map List.filter].
    destruct (String.eqb (strip (partition_head (ascii_of_nat 35) line)) "")
      eqn:He; cbn [negb]; [exact IH|].
    constructor; [|exact IH].
    split; [|split].
    - intros Hn. rewrite Hn in He. discriminate.
    - unfold strip. apply rstrip_no_new, lstrip_no_new.
      apply (partition_head_no_sep (ascii_of_nat 35)).
    - apply strip_idem. }
  split; [exact H|]. apply order_recipes_fixed. exact H.
Qed.

(** X4: [base_build] builds every recipe once for every version of python
    it is given, version by version in the order of the order file, and once
    with no version when it is given none. *)
Theorem python_recipes_product (python recipes : list string) :
  length (python_recipes python recipes) =
    (Nat.max 1 (length python) * length recipes)%nat /\
  List.map snd (python_recipes python recipes) =
    List.concat (repeat recipes (Nat.max 1 (length python))) /\
  (forall pyver recipe,
     In (pyver, recipe) (python_recipes python recipes) <->
     In recipe recipes /\
     match pyver with
     | Some v => In v python
     | None => python = []
     end).
Proof.
  destruct python as [|py python].
  - cbn [python_recipes length Nat.max repeat List.concat].
    rewrite length_map, app_nil_r, List.map_map, List.map_id.
    split; [lia|]. split; [reflexivity|].
    intros pyver recipe. rewrite in_map_iff. split.
    + intros [r [Heq Hr]]. injection Heq as <- <-. auto.
    + intros [Hr Hp]. destruct pyver; [destruct Hp|]. eauto.
  - unfold python_recipes.
    assert (Hmax : Nat.max 1 (length (py :: python)) = length (py :: python))
      by (cbn [length]; lia).
    rewrite Hmax. split; [|split].
    + generalize (py :: python). clear. intros python.
      induction python as [|v python IH]; [reflexivity|].
      cbn [flat_map length]. rewrite length_app, length_map, IH. lia.
    + generalize (py :: python). clear. intros python.
      induction python as [|v python IH]; [reflexivity|].
      cbn [flat_map length repeat List.concat].
      rewrite List.map_app, List.map_map, List.map_id, IH. reflexivity.
    + intros pyver recipe. rewrite in_flat_map. split.
      * intros [v [Hv Hin]]. apply in_map_iff in Hin as [r [Heq Hr]].
        injection Heq as <- <-. auto.
      * intros [Hr Hp]. destruct pyver as [v|]; [|discriminate].
        exists v. split; [exact Hp|]. apply in_map_iff. eauto.
Qed.

End OrderFile.

(** * Release tags *)

Section ReleaseTags.
Import Shapes CI.

Lemma uint_digits (d : Decimal.uint) :
  all_chars is_digit (NilEmpty.string_of_uint d) = true.
Proof. induction d; cbn [NilEmpty.string_of_uint all_chars]; auto. Qed.

Lemma decimal_go_pos (d : Decimal.uint) (acc : positive) :
  decimal_go (N.pos acc) (NilEmpty.string_of_uint d) =
  N.pos (Pos.of_uint_acc d acc).
Proof.
  revert acc. induction d; intros acc;
    cbn [NilEmpty.string_of_uint decimal_go Pos.of_uint_acc];
    [reflexivity|..];
    rewrite <- IHd; f_equal;
    match goal with
    | |- context [digit_value ?c] =>
      let v := eval vm_compute in (digit_value c) in
      change (digit_value c) with v
    end; lia.
Qed.

Lemma decimal_go_uint (d : Decimal.uint) :
  decimal_go 0 (NilEmpty.string_of_uint d) = N.of_uint d.
Proof.
  unfold N.of_uint.
  induction d; cbn [NilEmpty.string_of_uint decimal_go Pos.of_uint];
    [reflexivity|exact IHd|..]; apply decimal_go_pos.
Qed.

Lemma str_of_N_digits (n : N) : digits (str_of_N n).
Proof.
  unfold digits, str_of_N, NilZero.string_of_uint.
  destruct (N.to_uint n) eqn:E; rewrite <- ?E;
    try (split; [discriminate|reflexivity]);
    (split; [rewrite E; discriminate|apply uint_digits]).
Qed.

Lemma py_int_str_of_N (n : N) : py_int (str_of_N n) = Some n.
Proof.
  destruct (str_of_N_digits n) as [Hne Hd]. unfold py_int.
  destruct (str_of_N n) as [|c s] eqn:E; [contradiction|].
  rewrite Hd. f_equal. rewrite <- E.
  rewrite <- (DecimalN.Unsigned.of_to n) at 2.
  unfold str_of_N, NilZero.string_of_uint.
  destruct (N.to_uint n); try apply decimal_go_uint. reflexivity.
Qed.

Lemma append_cons (c : ascii) (s t : string) :
  String c s +:+ t = String c (s +:+ t).
Proof. reflexivity. Qed.

Lemma append_empty_r (s : string) : s +:+ "" = s.
Proof.
  induction s as [|c s IH]; [reflexivity|].
  rewrite append_cons, IH. reflexivity.
Qed.

Lemma append_snoc (text : string) (c : ascii) (s : string) :
  snoc text c +:+ s = text +:+ String c s.
Proof.
  unfold snoc. induction text as [|c' text IH]; [reflexivity|].
  rewrite !append_cons, IH. reflexivity.
Qed.

Lemma re_split_more_digits (ds text rest : string) :
  all_chars is_digit ds = true ->
  re_split_go (InMatch true text) (ds +:+ rest) =
  re_split_go (InMatch true (text +:+ ds)) rest.
Proof.
  revert text. induction ds as [|c ds IH]; intros text Hd.
  - rewrite append_empty_r. reflexivity.
  - cbn [all_chars] in Hd. apply andb_true_iff in Hd as [Hc Hd].
    rewrite append_cons. cbn [re_split_go]. unfold is_digit in Hc.
    destruct (classify c); try discriminate.
    rewrite IH by exact Hd. rewrite append_snoc. reflexivity.
Qed.

Lemma digits_kept (s : string) :
  digits s -> negb (String.eqb s "") && negb (String.eqb s ".") = true.
Proof.
  intros [Hne Hd]. destruct s as [|c s]; [contradiction|].
  cbn [all_chars] in Hd. apply andb_true_iff in Hd as [Hc _].
  destruct (String.eqb (String c s) ".") eqn:E; [|reflexivity].
  apply String.eqb_eq in E. injection E as -> ->. discriminate.
Qed.

Lemma re_split_digits (s rest : string) :
  digits s ->
  re_split_go (InGap "") (s +:+ rest) = "" :: re_split_go (InMatch true s) rest.
Proof.
  intros [Hne Hd]. destruct s as [|c s]; [contradiction|].
  cbn [all_chars] in Hd. apply andb_true_iff in Hd as [Hc Hd].
  rewrite append_cons. cbn [re_split_go]. unfold is_digit in Hc.
  destruct (classify c); try discriminate.
  rewrite re_split_more_digits by exact Hd. reflexivity.
Qed.

Lemma kept_digits_end (s : string) :
  digits s -> kept (component_re_split s) = [s].
Proof.
  intros Hs. pose proof (digits_kept s Hs) as Hk.
  unfold component_re_split.
  rewrite <- (append_empty_r s) at 1.
  rewrite re_split_digits by exact Hs.
  cbn [re_split_go kept List.filter String.eqb negb andb].
  rewrite Hk. reflexivity.
Qed.

Lemma kept_digits_dot (s rest : string) :
  digits s ->
  kept (component_re_split (s +:+ "." +:+ rest)) =
  s :: kept (component_re_split rest).
Proof.
  intros Hs. pose proof (digits_kept s Hs) as Hk.
  unfold component_re_split. rewrite re_split_digits by exact Hs.
  rewrite append_cons. cbn [re_split_go].
  change (classify ".") with Dot. cbn iota.
  cbn [kept List.filter String.eqb negb andb]. rewrite Hk.
  reflexivity.
Qed.

Lemma kept_dotted (n : N) (l : list N) :
  kept (component_re_split (dotted (n :: l))) = List.map str_of_N (n :: l).
Proof.
  revert n. induction l as [|m l IH]; intros n.
  - apply kept_digits_end, str_of_N_digits.
  - change (dotted (n :: m :: l))
      with (str_of_N n +:+ "." +:+ dotted (m :: l)).
    rewrite kept_digits_dot by apply str_of_N_digits.
    rewrite IH. reflexivity.
Qed.

Lemma parse_dotted (n : N) (l : list N) :
  parse (dotted (n :: l)) = List.map CInt (n :: l).
Proof.
  unfold parse. fold (kept (component_re_split (dotted (n :: l)))).
  rewrite kept_dotted, List.map_map.
  apply List.map_ext. intros k. rewrite py_int_str_of_N. reflexivity.
Qed.

Lemma dotted_not_empty (n : N) (l : list N) : dotted (n :: l) <> "".
Proof.
  destruct (str_of_N_digits n) as [Hne _].
  unfold dotted. cbn [List.map join].
  destruct (str_of_N n) as [|c s]; [contradiction|].
  destruct (List.map str_of_N l); [discriminate|].
  rewrite append_cons. discriminate.
Qed.

(** X5: a release tag, one character followed by numbers separated by
    dots, is read as those numbers, whatever the first character is; for
    such a tag [is_stable] never reports a pre-release and answers what
    [is_master] answers. *)
Theorem release_tag_is_numeric (git : git_world) (package refname : string)
    (first : ascii) (n : N) (l : list N) (repodir : string) :
  let tag := String first (dotted (n :: l)) in
  parsed_tag tag = Ok (List.map CInt (n :: l)) /\
  snd (is_stable git package refname (Some tag) repodir) =
    is_master git refname (Some tag) repodir /\
  ~ In msg_prerelease (fst (is_stable git package refname (Some tag) repodir)).
Proof.
  intros tag.
  assert (Hp : parsed_tag tag = Ok (List.map CInt (n :: l))).
  { unfold parsed_tag, tag. cbn [slice_from_1]. unfold LooseVersion_version.
    pose proof (dotted_not_empty n l) as Hne.
    destruct (dotted (n :: l)) eqn:E; [contradiction|].
    rewrite <- E. f_equal. apply parse_dotted. }
  split; [exact Hp|].
  unfold is_stable. rewrite Hp.
  assert (Hnum : existsb is_str (List.map CInt (n :: l)) = false).
  { clear. generalize (n :: l). intros k.
    induction k as [|x k IH]; [reflexivity|exact IH]. }
  rewrite Hnum.
  destruct (is_master git refname (Some tag) repodir) as [[|]|e];
    cbn [fst snd]; (split; [reflexivity|]).
  - intros [H|[]]. discriminate.
  - intros H. apply in_app_or in H as [[H|[]]|[H|[]]]; discriminate.
  - intros [H|[]]. discriminate.
Qed.

End ReleaseTags.

(** * What [is_stable] logs, and the shape of the channel list *)

Section StableLogs.
Import Shapes CI.

(** X6: [is_stable] explains every refusal of a tagged build with one
    warning and warns in no other case: when it answers [True], when it
    raises and when no tag is set, it logs no warning; its first record
    names the tag. *)
Theorem is_stable_warns_once (git : git_world) (package refname : string)
    (tag : option string) (repodir : string) :
  let logged := fst (is_stable git package refname tag repodir) in
  match snd (is_stable git package refname tag repodir), tag with
  | Ok false, Some t =>
    warnings logged = [snd msg_prerelease] \/
    warnings logged = [snd (msg_non_master t)]
  | _, _ => warnings logged = []
  end /\
  match tag with
  | Some t => head logged = Some (msg_project_tag package t)
  | None => logged = msg_no_tag
  end.
Proof.
  unfold is_stable. destruct tag as [t|]; [|split; reflexivity].
  destruct (parsed_tag t) as [components|e]; [|split; reflexivity].
  destruct (existsb is_str components).
  - split; [left|]; reflexivity.
  - destruct (is_master git refname (Some t) repodir) as [[|]|e];
      split; try reflexivity. right. reflexivity.
Qed.

End StableLogs.

Section ChannelShape.
Import Shapes Bootstrap.

(** X7: the channels of [get_local_channels] are pairwise different; a
    project whose visibility is [public] is given channels of the public
    area only; and a tag only removes channels: the channels of a tagged
    build are among those of the untagged build, in the same order, and
    none of them is a beta channel.  The function raises only when
    [CI_PROJECT_VISIBILITY] is not set. *)
Theorem get_local_channels_shape (env : environ) :
  match get_local_channels env with
  | Raise e =>
    env !! "CI_PROJECT_VISIBILITY" = None /\
    e = KeyError "CI_PROJECT_VISIBILITY"
  | Ok channels =>
    NoDup channels /\
    (env !! "CI_PROJECT_VISIBILITY" = Some "public" ->
     Forall public_channel channels) /\
    forall tag,
      exists tagged,
        get_local_channels (<["CI_COMMIT_TAG" := tag]> env) = Ok tagged /\
        sublist tagged channels /\
        Forall (fun channel => ~ beta_channel channel) tagged
  end.
Proof.
  unfold get_local_channels, env_getitem.
  destruct (env !! "CI_PROJECT_VISIBILITY") as [visibility|] eqn:Hvis;
    [|split; reflexivity].
  split; [|split].
  - destruct (bool_decide (visibility = "public")),
      (bool_decide (is_Some (env !! "CI_COMMIT_TAG")));
      cbn [negb app]; repeat constructor;
      rewrite ?elem_of_cons, ?elem_of_nil; cbv [String.append server];
      intuition discriminate.
  - intros [= ->].
    rewrite (bool_decide_eq_true_2 ("public" = "public")) by reflexivity.
    destruct (bool_decide (is_Some (env !! "CI_COMMIT_TAG")));
      cbn [negb app];
      repeat (constructor; [unfold public_channel; auto|]); constructor.
  - intros tag. rewrite lookup_insert_ne by discriminate. rewrite Hvis.
    rewrite lookup_insert_eq.
    rewrite (bool_decide_eq_true_2 (is_Some (Some tag))) by eauto.
    eexists. split; [reflexivity|].
    destruct (bool_decide (visibility = "public")),
      (bool_decide (is_Some (env !! "CI_COMMIT_TAG")));
      cbn [negb app];
      (split;
       [|repeat (constructor;
                 [unfold beta_channel; cbv [String.append server];
                  intuition discriminate|]); constructor]).
    all: repeat first [ apply sublist_nil | apply sublist_skip; [] | apply sublist_cons ].
    all: try solve [repeat constructor].
Qed.

End ChannelShape.

(** * The project path *)

Section ProjectPath.
Import Shapes Logic.
Context {local_fs : LocalFS} {constants : Constants} {tools : Tools}.

Lemma split_slash_length (s : string) :
  length (str_split s "/") = S (count_char "/" s).
Proof.
  unfold str_split. induction s as [|c s IH]; [reflexivity|].
  cbn [split_go count_char]. unfold startswith. cbn [String.prefix].
  destruct (ascii_dec "/" c) as [<-|Hne].
  - change (String.length "/" - 1) with 0.
    replace (String.prefix "" s) with true by (destruct s; reflexivity).
    cbn [length].
    change (Ascii.eqb "/" "/") with true. cbn iota. rewrite IH. reflexivity.
  - destruct (Ascii.eqb c "/") eqn:E;
      [apply Ascii.eqb_eq in E; congruence|].
    destruct (split_go "/" 0 s) as [|x xs]; [discriminate IH|].
    cbn [length] in *. rewrite IH. reflexivity.
Qed.

Lemma unpack2_refuses (package : string) (s : state) :
  count_char "/" package <> 1 ->
  unpack2 (str_split package "/") s =
  (Raise (ValueError "wrong number of values to unpack (expected 2)"), s).
Proof.
  intros Hcount. pose proof (split_slash_length package) as Hlen.
  destruct (str_split package "/") as [|a [|b [|c l]]]; try reflexivity.
  cbn [length] in Hlen. congruence.
Qed.

(** X8: [base_deploy] and [deploy] take the project path apart with
    [package.split('/')]: unless [CI_PROJECT_PATH] holds exactly one slash
    (a project in a sub-group has two) the unpacking raises [ValueError],
    before any artifact is looked for: nothing is deployed and the world is
    as it was. *)
Theorem deploy_needs_group_and_name (latest dry_run : bool) (s : state)
    (package : string) :
  environ_of (world_of s) !! "CI_PROJECT_PATH" = Some package ->
  count_char "/" package <> 1 ->
  exists msg,
    (base_deploy dry_run s).1 = Raise (ValueError msg) /\
    world_of (base_deploy dry_run s).2 = world_of s /\
    deployed (trace (base_deploy dry_run s).2) = deployed (trace s) /\
    (deploy latest dry_run s).1 = Raise (ValueError msg) /\
    world_of (deploy latest dry_run s).2 = world_of s /\
    deployed (trace (deploy latest dry_run s).2) = deployed (trace s).
Proof.
  intros Hpath Hcount.
  exists "wrong number of values to unpack (expected 2)".
  unfold base_deploy, deploy, msg_dry_run_deploy.
  destruct dry_run; run; rewrite Hpath; run;
    rewrite !unpack2_refuses by exact Hcount; cbn [fst snd world_of trace];
    rewrite <- ?app_assoc, ?LoopFacts.deployed_app, ?app_nil_r;
    repeat split; reflexivity.
Qed.

End ProjectPath.

Section ProjectPathRuns.
Import Shapes Sim.

(** The theorem applies: the project [bob/tools/pkg] of a sub-group cannot
    be deployed. *)
Lemma deploy_needs_group_and_name_witness :
  exists msg,
    (deploy (tools := sim_tools all_fine) true false
       (initial (<["CI_PROJECT_PATH" := "bob/tools/pkg"]> (ci_environ "master"))
          built_tree ∅)).1 = Raise (ValueError msg).
Proof.
  destruct (deploy_needs_group_and_name (tools := sim_tools all_fine)
              true false
              (initial (<["CI_PROJECT_PATH" := "bob/tools/pkg"]>
                          (ci_environ "master")) built_tree ∅)
              "bob/tools/pkg")
    as (msg & _ & _ & _ & Hdeploy & _).
  - vm_compute. reflexivity.
  - vm_compute. discriminate.
  - exists msg. exact Hdeploy.
Defined.

End ProjectPathRuns.

(** * The flags of a deployment *)

Module RunFacts.
Import Logic.
Section RunFacts.
Context {local_fs : LocalFS}.

(** A sequence extends the trace as its two halves do. *)
Lemma trace_ext_bind {A B} (P : event -> Prop) (m : M A) (k : A -> M B)
    (s : state) :
  trace_ext P s (m s).2 ->
  (forall a s1, m s = (Ok a, s1) -> trace_ext P s1 (k a s1).2) ->
  trace_ext P s ((m ≫= k) s).2.
Proof.
  intros Hm Hk. rewrite run_bind.
  destruct (m s) as [[a|e] s1] eqn:E; cbn [snd] in *.
  - transitivity s1; [exact Hm | apply Hk; reflexivity].
  - exact Hm.
Qed.

Lemma environ_getitem_ok (key value : string) (s s' : state) :
  environ_getitem key s = (Ok value, s') ->
  s' = s /\ environ_of (world_of s) !! key = Some value.
Proof.
  unfold environ_getitem. run.
  destruct (environ_of (world_of s) !! key); intros [= <- <-]; auto.
Qed.

Lemma environ_contains_ok (key : string) (present : bool) (s s' : state) :
  environ_contains key s = (Ok present, s') ->
  s' = s /\ present = env_contains (environ_of (world_of s)) key.
Proof. unfold environ_contains. run. intros [= <- <-]; auto. Qed.

End RunFacts.

#[global] Instance world_same_pre {local_fs : LocalFS} :
  PreOrder Observations.world_same.
Proof.
  split.
  - intros s. reflexivity.
  - intros s1 s2 s3 E1 E2. unfold Observations.world_same in *. congruence.
Qed.

#[global] Instance world_same_trace {local_fs : LocalFS} :
  TraceBlind Observations.world_same.
Proof. intros s e. reflexivity. Qed.

(** A frame property, used at the state the command is in. *)
Ltac frame_here :=
  lazymatch goal with
  | |- ?R ?s (?m ?s).2 =>
    let H := fresh in
    assert (H : preserves R m) by frame; exact (H s)
  end.

End RunFacts.

Section DeployFlags.
Import Logic Observations RunFacts DeployFacts.
Context {local_fs : LocalFS} {constants : Constants} {tools : Tools}.

Lemma deploy_conda_package_flags (package : string) (arch : option string)
    (stable public : bool) (username password : string) (dry_run : bool) :
  preserves (trace_ext (deploys_with stable public dry_run))
    (deploy_conda_package package arch stable public username password false
       dry_run).
Proof.
  unfold deploy_conda_package.
  apply preserves_bind; [exact _| |intros ?; frame].
  apply trace_ext_emit. repeat split.
Qed.

Lemma unpack2_ok (l : list string) (a b : string) (s s' : state) :
  unpack2 l s = (Ok (a, b), s') -> s' = s.
Proof.
  destruct l as [|x [|y [|z l]]]; cbn; intros [= ]; subst; reflexivity.
Qed.

(** X9: every artifact [deploy] hands to [deploy_conda_package] goes with
    the same flags, fixed by the environment the command starts in: stable
    when [CI_COMMIT_TAG] is set, whatever the tag is, public when
    [CI_PROJECT_VISIBILITY] is [public], never with [overwrite], and in
    dry-run mode when the command is. *)
Theorem deploy_flags (latest dry_run : bool) (s : state) :
  let env := environ_of (world_of s) in
  trace_ext
    (deploys_with (env_contains env "CI_COMMIT_TAG")
       (bool_decide (env !! "CI_PROJECT_VISIBILITY" = Some "public"))
       dry_run)
    s (deploy latest dry_run s).2.
Proof.
  intros env. unfold deploy.
  assert (Hwarn : preserves local_same (when dry_run msg_dry_run_deploy))
    by frame.
  apply trace_ext_bind; [frame_here|].
  intros [] s1 H1. specialize (Hwarn s). rewrite H1 in Hwarn.
  destruct Hwarn as [Henv _]. cbn [snd] in Henv.
  apply trace_ext_bind; [frame_here|].
  intros package s2 H2. apply environ_getitem_ok in H2 as [-> Hpackage].
  apply trace_ext_bind; [frame_here|].
  intros [group name] s2 H2. apply unpack2_ok in H2 as ->.
  apply trace_ext_bind; [frame_here|].
  intros stable s2 H2. apply environ_contains_ok in H2 as [-> ->].
  apply trace_ext_bind; [frame_here|].
  intros visibility s2 H2. apply environ_getitem_ok in H2 as [-> Hvis].
  rewrite Henv. fold env. unfold env in Hvis |- *. rewrite <- Henv.
  rewrite Hvis.
  assert (Hpub : bool_decide (Some visibility = Some "public")
                 = bool_decide (visibility = "public")).
  { apply bool_decide_ext. split; congruence. }
  rewrite Hpub.
  pose proof deploy_conda_package_flags as Hflags.
  frame_here.
Qed.

End DeployFlags.

(** * The WebDAV commands *)

Section DavCommands.
Import Logic Observations RunFacts DeployFacts.
Context {local_fs : LocalFS} {constants : Constants} {webdav : WebDAV}.

(** X10: [bdt dav upload] with any WebDAV client, whose calls may raise.
    The command touches neither the environment nor the local files, and
    without [--execute] it leaves the remote store alone too and asks the
    client for no upload.  When the function returns, it returns [1] exactly
    when the client said that the base remote directory does not exist, and
    then nothing was changed; otherwise it returns nothing.  A local
    resource whose remote name the client says is taken is skipped with two
    warnings, and the loop goes on with the resources that follow. *)
Theorem upload_outcome (private execute : bool) (local : list string)
    (remote : string) (s : state) :
  let base := rooted remote in
  let run := upload private execute local remote s in
  local_same s run.2 /\
  (execute = false ->
   world_of run.2 = world_of s /\
   trace_ext (fun ev => is_side_effect ev = false) s run.2) /\
  (forall v,
     run.1 = Ok v ->
     cl_check (world_of s) private base = Ok (bool_decide (v = None)) /\
     (v = Some 1%Z \/ v = None) /\
     (v = Some 1%Z -> world_of run.2 = world_of s)) /\
  (forall k rest s1,
     cl_check (world_of s1) private (base +:+ os_path_basename k) = Ok true ->
     for_each (k :: rest) (upload_one private execute base) s1 =
     for_each rest (upload_one private execute base)
       {| world_of := world_of s1;
          trace := trace s1 ++
            [Echo EchoWarning
               (msg_resource_exists
                  (dav_get_url private (base +:+ os_path_basename k)));
             Echo EchoWarning msg_remove_first] |}).
Proof.
  intros base run. subst base run.
  split; [|split; [|split]].
  - assert (H : preserves local_same (upload private execute local remote))
      by frame.
    apply H.
  - intros ->. split.
    + assert (H : preserves world_same (upload private false local remote))
        by frame.
      apply H.
    + assert (H : preserves (trace_ext (fun ev => is_side_effect ev = false))
                    (upload private false local remote)) by frame.
      apply H.
  - intros v. unfold upload, msg_dry_run_dav, setup_client, dav_check.
    destruct execute; run;
      (destruct (setup_webdav_client (world_of s) private) as [[]|e]; run;
       [|discriminate]);
      (destruct (cl_check (world_of s) private (rooted remote))
         as [[|]|e]; run; [| |discriminate]).
    all: try (intros [= <-]; split; [reflexivity|];
              split; [left; reflexivity | intros _; reflexivity]).
    all: match goal with
         | |- context [for_each ?l ?body ?s1] =>
           destruct (for_each l body s1) as [[[]|e] s2]
         end; run; [|discriminate].
    all: intros [= <-]; split; [reflexivity|];
      split; [right; reflexivity | discriminate].
  - intros k rest s1 Hthere. cbn [for_each].
    rewrite (run_bind_ok _ _ _ _ _
               (upload_one_refuses private execute (rooted remote) k s1 Hthere)).
    reflexivity.
Qed.

(** X11: [bdt dav rmtree] with any WebDAV client, whose calls may raise.
    The command touches neither the environment nor the local files; the
    one request it makes that changes the server is the removal of the path
    it was given, and only with [--execute]: without it the remote store is
    left as it is.  The function returns exactly when the client can be set
    up, answers whether the path exists and, when the path exists and the
    command executes, removes it; the store is then the one that removal
    left.  A path the client says does not exist gives a warning, not an
    error. *)
Theorem rmtree_outcome (private execute : bool) (path : string) (s : state) :
  let target := rooted path in
  let run := rmtree private execute path s in
  local_same s run.2 /\
  trace_ext (cleans execute (dav_get_url private target)) s run.2 /\
  (execute = false -> world_of run.2 = world_of s) /\
  (run.1 = Ok tt <->
   setup_webdav_client (world_of s) private = Ok tt /\
   exists found,
     cl_check (world_of s) private target = Ok found /\
     (execute && found = true ->
      exists store, cl_clean (world_of s) private target = Ok store)) /\
  (run.1 = Ok tt ->
   forall found,
     cl_check (world_of s) private target = Ok found ->
     if execute && found
     then cl_clean (world_of s) private target = Ok (dav_of (world_of run.2))
          /\ DavClean (dav_get_url private target) ∈ trace run.2
     else world_of run.2 = world_of s
          /\ (found = false ->
              Echo EchoWarning ("resource " +:+ dav_get_url private target +:+
                                " does not exist") ∈ trace run.2)).
Proof.
  intros target run. subst target run.
  split; [|split; [|split; [|split]]].
  - assert (H : preserves local_same (rmtree private execute path)) by frame.
    apply H.
  - assert (H : preserves
                  (trace_ext (cleans execute (dav_get_url private (rooted path))))
                  (rmtree private execute path)).
    { unfold rmtree, msg_dry_run_dav, dav_clean.
      repeat lazymatch goal with
      | |- preserves _ (emit (DavClean _)) =>
        apply trace_ext_emit; intros _; split; [assumption | reflexivity]
      | |- preserves _ (emit _) =>
        apply trace_ext_emit; intros Hside; discriminate Hside
      | |- preserves _ (echo _ _) =>
        apply trace_ext_emit; intros Hside; discriminate Hside
      | |- preserves _ (when ?c _) =>
        apply preserves_when; [exact _ | intros ?]
      | |- preserves _ (_ ≫= _) => apply preserves_bind; [exact _ | | intros ?]
      | |- preserves _ (if ?b then _ else _) => destruct b
      | |- preserves _ _ => solve [frame]
      end. }
    apply H.
  - intros ->.
    assert (H : preserves world_same (rmtree private false path)) by frame.
    apply H.
  - unfold rmtree, msg_dry_run_dav, setup_client, dav_check, dav_clean.
    destruct execute; run;
      (destruct (setup_webdav_client (world_of s) private) as [[]|e]; run;
       [|split; [discriminate | intros [H _]; discriminate H]]);
      (destruct (cl_check (world_of s) private (rooted path))
         as [[|]|e]; run;
       [| |split; [discriminate | intros [_ (found & H & _)]; discriminate H]]).
    + destruct (cl_clean (world_of s) private (rooted path)) as [store|e]; run.
      * split; [intros _|reflexivity].
        split; [reflexivity|]. exists true. split; [reflexivity|].
        intros _. exists store. reflexivity.
      * split; [discriminate|].
        intros [_ (found & Hfound & Hclean)]. injection Hfound as <-.
        destruct (Hclean eq_refl) as [store Hstore]. discriminate Hstore.
    + split; [intros _|reflexivity].
      split; [reflexivity|]. exists false. split; [reflexivity|discriminate].
    + split; [intros _|reflexivity].
      split; [reflexivity|]. exists true. split; [reflexivity|discriminate].
    + split; [intros _|reflexivity].
      split; [reflexivity|]. exists false. split; [reflexivity|discriminate].
  - unfold rmtree, msg_dry_run_dav, setup_client, dav_check, dav_clean.
    destruct execute; run;
      (destruct (setup_webdav_client (world_of s) private) as [[]|e]; run;
       [|discriminate]);
      (destruct (cl_check (world_of s) private (rooted path))
         as [[|]|e]; run; [| |discriminate]).
    + destruct (cl_clean (world_of s) private (rooted path)) as [store|e]; run;
        [|discriminate].
      intros _ found [= <-]. cbn [andb]. split; [reflexivity|].
      rewrite !elem_of_app, !list_elem_of_singleton. auto.
    + intros _ found [= <-]. cbn [andb]. split; [reflexivity|].
      intros _. rewrite !elem_of_app, !list_elem_of_singleton. auto.
    + intros _ found [= <-]. cbn [andb]. split; [reflexivity|discriminate].
    + intros _ found [= <-]. cbn [andb]. split; [reflexivity|].
      intros _. rewrite !elem_of_app, !list_elem_of_singleton. auto.
Qed.

End DavCommands.

Section DavCommandsRuns.
Import Sim.

(** On a server that answers every request, the removal of a directory
    given with its final slash takes the directory and what it holds away
    and leaves the rest; without [--execute] nothing is removed; on a server
    that cannot be reached both commands raise what the client raised. *)
Example dav_commands_run :
  let docs := dav_get_url false "/docs/" in
  let index := dav_get_url false "/docs/index.html" in
  let data := dav_get_url false "/data" in
  let store : dav_store :=
    {[ docs := "docs"; index := "docs/index.html"; data := "data" ]} in
  let s := initial (ci_environ "master") [] store in
  let removed := dav_of (world_of (rmtree false true "docs/" s).2) in
  removed !! docs = None /\
  removed !! index = None /\
  removed !! data = Some "data" /\
  world_of (rmtree false false "docs/" s).2 = world_of s /\
  (rmtree (webdav := sim_webdav_down) false true "docs/" s).1
    = Raise unreachable /\
  (upload (webdav := sim_webdav_down) false true ["new/api.html"] "docs/" s).1
    = Raise unreachable.
Proof. vm_compute. repeat split; reflexivity. Qed.

End DavCommandsRuns.

(** * The check of the long description *)

Section ReadmeFacts.
Import Logic RunFacts ScriptsReadme.
Context {local_fs : LocalFS}.
Variable twine_check : world -> string -> result bool.

Lemma readme_package_run (k : string) (s : state) :
  readme_package twine_check k s =
  let checking :=
    {| world_of := world_of s;
       trace := trace s ++ [Logged INFO ("Checking python package " +:+ k)] |} in
  match twine_check (world_of s) k with
  | Ok false =>
    (Ok tt,
     {| world_of := world_of s;
        trace := trace checking ++ [Logged INFO (msg_readme_ok k)] |})
  | Ok true => (Raise (RuntimeError (msg_readme_failed k)), checking)
  | Raise e => (Raise e, checking)
  end.
Proof.
  unfold readme_package. run.
  destruct (twine_check (world_of s) k) as [[|]|e]; reflexivity.
Qed.

Lemma readme_world (package : list string) (s : state) :
  world_of (readme twine_check package s).2 = world_of s.
Proof.
  unfold readme. revert s. induction package as [|k package IH]; intros s;
    [reflexivity|].
  cbn [for_each]. rewrite run_bind, readme_package_run. cbn zeta.
  destruct (twine_check (world_of s) k) as [[|]|e]; try reflexivity.
  rewrite IH. reflexivity.
Qed.

Lemma readme_passes (package : list string) (s : state) :
  (readme twine_check package s).1 = Ok tt <->
  Forall (fun k => twine_check (world_of s) k = Ok false) package.
Proof.
  unfold readme. revert s. induction package as [|k package IH]; intros s.
  - split; [constructor|reflexivity].
  - cbn [for_each]. rewrite run_bind, readme_package_run. cbn zeta.
    rewrite Forall_cons.
    destruct (twine_check (world_of s) k) as [[|]|e]; cbn [fst].
    + split; [discriminate|intros [H _]; discriminate H].
    + rewrite IH. cbn [world_of]. tauto.
    + split; [discriminate|intros [H _]; discriminate H].
Qed.

Lemma readme_stops (before after : list string) (k : string) (s : state) :
  Forall (fun k => twine_check (world_of s) k = Ok false) before ->
  twine_check (world_of s) k = Ok true ->
  readme twine_check (before ++ k :: after) s =
  (Raise (RuntimeError (msg_readme_failed k)),
   {| world_of := world_of s;
      trace := trace (readme twine_check before s).2 ++
               [Logged INFO ("Checking python package " +:+ k)] |}).
Proof.
  unfold readme. revert s. induction before as [|x before IH]; intros s Hok Hk.
  - cbn [app for_each]. rewrite run_bind, readme_package_run, Hk.
    reflexivity.
  - apply Forall_cons in Hok as [Hx Hok].
    cbn [app for_each]. rewrite !run_bind, readme_package_run, Hx.
    cbn beta iota zeta. rewrite IH by (cbn [world_of]; assumption).
    reflexivity.
Qed.

(** X12: [bdt ci readme] checks the packages in the order given and only
    reads: the world is left as it was.  It returns exactly when no check
    fails; at the first package whose check fails it raises the error that
    names this package, and the packages after it are not looked at. *)
Theorem readme_stops_at_first_failure (package : list string) (s : state) :
  world_of (readme twine_check package s).2 = world_of s /\
  ((readme twine_check package s).1 = Ok tt <->
   Forall (fun k => twine_check (world_of s) k = Ok false) package) /\
  (forall before k after,
     package = before ++ k :: after ->
     Forall (fun k => twine_check (world_of s) k = Ok false) before ->
     twine_check (world_of s) k = Ok true ->
     readme twine_check package s =
     (Raise (RuntimeError (msg_readme_failed k)),
      {| world_of := world_of s;
         trace := trace (readme twine_check before s).2 ++
                  [Logged INFO ("Checking python package " +:+ k)] |})).
Proof.
  split; [apply readme_world|]. split; [apply readme_passes|].
  intros before k after -> Hok Hk. apply readme_stops; assumption.
Qed.

End ReadmeFacts.

(** * Uploads to PyPI *)

Section PypiOrder.
Import Logic Observations RunFacts LoopFacts.
Context {local_fs : LocalFS} {constants : Constants} {tools : Tools}.

Lemma twine_uploads_app (a b : list event) :
  twine_uploads (a ++ b) = twine_uploads a ++ twine_uploads b.
Proof. apply omap_app. Qed.

Lemma flat_map_singleton {A} (l : list A) : flat_map (fun k => [k]) l = l.
Proof. induction l as [|x l IH]; [reflexivity|]. cbn. f_equal. exact IH. Qed.

(** X13: for a public project, [pypi] hands the packages to twine one by
    one in the order given: all of them when it returns, those up to the
    one whose upload raised otherwise; the world is left as it was. *)
Theorem pypi_uploads_in_order (package : list string) (s : state)
    (username password : string) :
  environ_of (world_of s) !! "CI_PROJECT_VISIBILITY" = Some "public" ->
  environ_of (world_of s) !! "PYPIUSER" = Some username ->
  environ_of (world_of s) !! "PYPIPASS" = Some password ->
  exists new,
    trace (pypi package false s).2 = trace s ++ new /\
    twine_uploads new `prefix_of` package /\
    ((pypi package false s).1 = Ok tt -> twine_uploads new = package) /\
    world_of (pypi package false s).2 = world_of s.
Proof.
  intros Hvis Huser Hpass.
  assert (Hworld : preserves world_same (pypi package false)) by frame.
  specialize (Hworld s). unfold world_same in Hworld. revert Hworld.
  unfold pypi. run.
  rewrite Hvis. run.
  rewrite (bool_decide_eq_true_2 ("public" = "public")) by reflexivity. run.
  rewrite Huser. run. rewrite Hpass. run.
  match goal with
  | |- context [for_each package ?body s] =>
    destruct (for_each_observed twine_uploads (fun k => [k])
                (fun _ => True) body)
      with (l := package) (s := s) as (new & Htr & Hpre & Hok);
      [reflexivity | apply twine_uploads_app | | exact I |]
  end.
  - intros k s1 _. cbn beta.
    destruct (twine_upload (world_of s1) username password k) as [[]|e];
      cbn [fst snd trace world_of].
    + eexists [_; _; _]. rewrite <- !app_assoc.
      split; [reflexivity|]. split; [reflexivity|].
      intros _. split; [reflexivity | exact I].
    + eexists [_; _]. rewrite <- !app_assoc.
      split; [reflexivity|]. split; [reflexivity | discriminate].
  - rewrite flat_map_singleton in Hpre, Hok. intros Hworld.
    exists new. split; [exact Htr|]. split; [exact Hpre|].
    split; [|exact Hworld]. intros Hrun. apply Hok, Hrun.
Qed.

End PypiOrder.

Section PypiOrderRuns.
Import Sim.

(** The theorem applies: two packages of a public project. *)
Lemma pypi_uploads_in_order_witness :
  twine_uploads
    (trace (pypi (tools := sim_tools all_fine) ["dist/a.zip"; "dist/b.zip"]
              false (initial (ci_environ "master") [] ∅)).2) =
  ["dist/a.zip"; "dist/b.zip"].
Proof.
  destruct (pypi_uploads_in_order (tools := sim_tools all_fine)
              ["dist/a.zip"; "dist/b.zip"]
              (initial (ci_environ "master") [] ∅) "user" "pass")
    as (new & Htrace & _ & Hall & _); [vm_compute; reflexivity ..|].
  rewrite Htrace. cbn [trace initial app].
  apply Hall. vm_compute. reflexivity.
Defined.

End PypiOrderRuns.

(** * The options of a base build *)

Section BaseBuildOptions.
Import Logic Observations RunFacts.
Context {local_fs : LocalFS} {constants : Constants} {tools : Tools}.

(** X14: when [CONDA_ROOT] holds a condarc file, [base_build] gives every
    build the options loaded from that file, channels included, with
    [croot] set to the [conda-bld] directory of [CONDA_ROOT]; the channels
    [get_channels] would resolve play no part. *)
Theorem base_build_uses_condarc (order group : string) (python : list string)
    (dry_run : bool) (s : state) (conda_root text : string)
    (loaded : condarc) :
  environ_of (world_of s) !! "CONDA_ROOT" = Some conda_root ->
  os_path_exists (fs_of (world_of s)) (os_path_join conda_root ["condarc"])
    = true ->
  read_text (fs_of (world_of s)) (os_path_join conda_root ["condarc"])
    = Ok text ->
  yaml_load text = Ok loaded ->
  trace_ext
    (builds_with
       (<["croot" := YStr (os_path_join conda_root ["conda-bld"])]> loaded))
    s (base_build order group python dry_run s).2.
Proof.
  intros Hroot Hfile Hread Hload.
  unfold base_build. run. rewrite Hroot. run. rewrite Hfile. run.
  rewrite Hread. run. rewrite Hload. run. rewrite Hroot.
  destruct (read_lines (fs_of (world_of s)) order) as [lines|e]; run.
  - match goal with
    | |- trace_ext ?P s (for_enumerate 0 ?l ?body ?s1).2 =>
      transitivity s1;
        [eexists [_]; split; [reflexivity|repeat constructor]|];
        assert (Hloop : preserves (trace_ext P) (for_enumerate 0 l body))
          by frame;
        exact (Hloop s1)
    end.
  - eexists [_]. split; [reflexivity|repeat constructor].
Qed.

End BaseBuildOptions.

Section BaseBuildOptionsRuns.
Import Sim Observations.

(** The theorem applies: a build tree with a condarc file. *)
Lemma base_build_uses_condarc_witness :
  Forall (builds_with (<["croot" := YStr "/conda/conda-bld"]> ∅))
    (trace (base_build (tools := sim_tools all_fine) "order.txt" "bob" []
              false
              (initial (ci_environ "master")
                 (("/conda/condarc", ["channels:"]) :: recipes_ab_complete)
                 ∅)).2).
Proof.
  destruct (base_build_uses_condarc (tools := sim_tools all_fine)
              "order.txt" "bob" [] false
              (initial (ci_environ "master")
                 (("/conda/condarc", ["channels:"]) :: recipes_ab_complete) ∅)
              "/conda" "channels:" ∅)
    as (new & Htrace & Hall); [vm_compute; reflexivity ..|].
  rewrite Htrace. exact Hall.
Defined.

End BaseBuildOptionsRuns.

(** * The output of a command *)

Section CommandOutput.
Import BootstrapOutput.

Lemma substring_all (s : string) : substring 0 (String.length s) s = s.
Proof.
  induction s as [|c s IH]; [reflexivity|].
  cbn [String.length substring]. f_equal. exact IH.
Qed.

(** What [split] finds when there is no newline, and when there is one. *)
Lemma split_no_newline (s : string) :
  index_newline s = None -> str_split s (String newline "") = [s].
Proof.
  unfold str_split. induction s as [|c s IH]; [reflexivity|].
  cbn [index_newline split_go]. unfold startswith. cbn [String.prefix].
  destruct (Ascii.eqb c newline) eqn:Hc; [discriminate|].
  destruct (ascii_dec newline c) as [<-|_];
    [rewrite Ascii.eqb_refl in Hc; discriminate|].
  destruct (index_newline s); [discriminate|]. intros _.
  rewrite IH by reflexivity. reflexivity.
Qed.

Lemma split_at_newline (s : string) (pos : nat) :
  index_newline s = Some pos ->
  str_split s (String newline "") =
  substring 0 pos s ::
  str_split (substring (pos + 1) (String.length s - (pos + 1)) s)
    (String newline "").
Proof.
  unfold str_split. revert pos. induction s as [|c s IH]; intros pos;
    [discriminate|].
  cbn [index_newline split_go]. unfold startswith. cbn [String.prefix].
  destruct (Ascii.eqb c newline) eqn:Hc.
  - apply Ascii.eqb_eq in Hc. subst c. intros [= <-].
    destruct (ascii_dec newline newline) as [_|Hne]; [|contradiction].
    replace (String.prefix "" s) with true by (destruct s; reflexivity).
    change (String.length (String newline "") - 1) with 0.
    cbn [Nat.add String.length Nat.sub substring].
    rewrite Nat.sub_0_r, substring_all. reflexivity.
  - destruct (ascii_dec newline c) as [<-|_];
      [rewrite Ascii.eqb_refl in Hc; discriminate|].
    destruct (index_newline s) as [pos'|]; [|discriminate].
    intros [= <-]. rewrite (IH pos') by reflexivity.
    cbn [Nat.add String.length Nat.sub substring]. reflexivity.
Qed.

Lemma split_not_nil (s sep : string) : str_split s sep <> [].
Proof.
  unfold str_split. generalize 0. induction s as [|c s IH]; intros skip;
    [discriminate|].
  cbn [split_go]. destruct skip; [|apply IH].
  destruct (startswith (String c s) sep); [discriminate|].
  destruct (split_go sep 0 s); discriminate.
Qed.

Lemma rest_shorter (s : string) (pos : nat) :
  index_newline s = Some pos ->
  String.length (substring (pos + 1) (String.length s - (pos + 1)) s)
  < String.length s.
Proof.
  revert pos. induction s as [|c s IH]; intros pos; [discriminate|].
  cbn [index_newline]. destruct (Ascii.eqb c newline).
  - intros [= <-]. cbn [Nat.add String.length Nat.sub substring].
    rewrite Nat.sub_0_r, substring_all. lia.
  - destruct (index_newline s) as [pos'|]; [|discriminate].
    intros [= <-]. cbn [Nat.add String.length Nat.sub substring].
    specialize (IH pos' eq_refl). lia.
Qed.

Lemma echo_lines_whole (fuel lineno : nat) (decoded : string) :
  String.length decoded <= fuel ->
  echo_lines fuel lineno decoded =
  (numbered lineno (whole_lines decoded),
   lineno + length (whole_lines decoded)).
Proof.
  revert lineno decoded. induction fuel as [|fuel IH]; intros lineno decoded Hf.
  - destruct decoded; [|cbn in Hf; lia]. cbn. f_equal. lia.
  - cbn [echo_lines]. unfold whole_lines.
    destruct (index_newline decoded) as [pos|] eqn:Hpos.
    + rewrite (split_at_newline decoded pos Hpos).
      pose proof (rest_shorter decoded pos Hpos) as Hshort.
      rewrite IH by lia. unfold whole_lines.
      pose proof (split_not_nil
                    (substring (pos + 1) (String.length decoded - (pos + 1))
                       decoded) (String newline "")) as Hne.
      destruct (str_split _ _) as [|x xs] eqn:E in Hne |- *;
        [contradiction|].
      cbn [removelast numbered length]. f_equal. lia.
    + rewrite (split_no_newline decoded Hpos). cbn. f_equal. lia.
Qed.

Lemma numbered_app (lineno : nat) (a b : list string) :
  numbered lineno (a ++ b) = numbered lineno a ++ numbered (lineno + length a) b.
Proof.
  revert lineno. induction a as [|x a IH]; intros lineno.
  - cbn. rewrite Nat.add_0_r. reflexivity.
  - cbn [app numbered length]. rewrite IH. do 3 f_equal. lia.
Qed.

Lemma numbered_length (lineno : nat) (lines : list string) :
  length (numbered lineno lines) = length lines.
Proof.
  revert lineno. induction lines as [|x l IH]; intros n; [reflexivity|].
  cbn [numbered length]. rewrite IH. reflexivity.
Qed.

Lemma echo_output_whole (lineno : nat) (out : string) (chunks : list string) :
  echo_output lineno out chunks =
  (numbered lineno (flat_map whole_lines chunks),
   out +:+ concat_chunks chunks).
Proof.
  revert lineno out. induction chunks as [|chunk chunks IH]; intros lineno out.
  - cbn. f_equal. clear. induction out as [|c out IH]; [reflexivity|].
    rewrite append_cons, <- IH. reflexivity.
  - cbn [echo_output flat_map concat_chunks]. unfold echo_chunk.
    rewrite echo_lines_whole by lia. rewrite IH, numbered_app.
    f_equal. clear. induction out as [|c out IH]; [reflexivity|].
    rewrite !append_cons, IH. reflexivity.
Qed.

(** X15: the loop of [run_cmdline] prints, numbered from one with three
    digits, the lines each chunk of output holds in full, chunk by chunk:
    what follows the last newline of a chunk is not printed, so a line cut
    by the end of a chunk is never shown whole; the output it returns is all
    the chunks, in order. *)
Theorem run_cmdline_echo (chunks : list string) :
  echo_output 1 "" chunks =
  (numbered 1 (flat_map whole_lines chunks), concat_chunks chunks) /\
  (forall decoded,
     index_newline decoded = None -> whole_lines decoded = []) /\
  length (fst (echo_output 1 "" chunks)) =
  list_sum (List.map (fun chunk => length (whole_lines chunk)) chunks).
Proof.
  rewrite echo_output_whole. split; [reflexivity|]. split.
  - intros decoded Hnone. unfold whole_lines.
    rewrite split_no_newline by exact Hnone. reflexivity.
  - cbn [fst]. rewrite numbered_length, length_flat_map. reflexivity.
Qed.

End CommandOutput.

(** * The summary of a pipeline log *)

Section ProcessLog.
Import PipelineUtils.
Variable str_minutes : Z -> string.

Lemma process_plain (lines : list string) (current : option string)
    (logs : logs_dict) (dates : list string) :
  Forall plain lines ->
  fold_left process_line lines (current, logs, dates) =
  (current, logs, dates ++ dates_of lines).
Proof.
  intros Hplain. revert dates.
  induction Hplain as [|l lines Hl _ IH]; intros dates.
  - cbn. rewrite app_nil_r. reflexivity.
  - cbn [fold_left]. unfold process_line at 2. unfold plain in Hl. rewrite Hl.
    unfold dates_of. cbn [omap list_omap].
    destruct (find_date l) as [date|].
    + rewrite IH. unfold dates_of. rewrite <- app_assoc. reflexivity.
    + apply IH.
Qed.

Lemma process_banner (l : string) (current : option string)
    (logs : logs_dict) (dates : list string) :
  is_banner l = true ->
  process_line (current, logs, dates) l =
  (Some (slice_9_to_last l), dict_set current dates logs, []).
Proof. intros Hl. unfold process_line. rewrite Hl. reflexivity. Qed.

Lemma dict_set_fresh (key : option string) (value : list string)
    (logs : logs_dict) :
  ~ In key (List.map fst logs) ->
  dict_set key value logs = logs ++ [(key, value)].
Proof.
  induction logs as [|[k v] logs IH]; [reflexivity|].
  cbn [List.map In dict_set fst app]. intros Hfresh.
  destruct (decide (k = key)) as [->|_]; [tauto|].
  rewrite IH by tauto. reflexivity.
Qed.

Lemma keys_nodup (dates : list string) (secs : list (string * list string)) :
  List.NoDup (List.map (fun sec => slice_9_to_last (fst sec)) secs) ->
  List.NoDup
    (List.map fst ((None, dates) :: List.map section_entry secs)).
Proof.
  intros Hnodup. cbn [List.map fst]. constructor.
  - intros Hin. apply in_map_iff in Hin as ([k v] & Hk & Hin).
    apply in_map_iff in Hin as (sec & Hsec & _). cbn [fst] in Hk. subst k.
    discriminate Hsec.
  - induction secs as [|sec secs IH]; [constructor|].
    cbn [List.map] in *. inversion Hnodup as [|x l Hnotin Hrest]; subst.
    constructor; [|apply IH, Hrest].
    intros Hin. apply Hnotin.
    apply in_map_iff in Hin as ([k v] & Hk & Hin).
    apply in_map_iff in Hin as (sec' & Hsec & Hin').
    apply in_map_iff. exists sec'. split; [|exact Hin'].
    cbn [fst section_entry] in *. subst k. injection Hsec as Hs _.
    congruence.
Qed.

Lemma process_sections (secs : list (string * list string))
    (current : option string) (logs : logs_dict) (dates : list string) :
  Forall well_formed_section secs ->
  List.NoDup (List.map fst (logs ++ (current, dates) ::
                              List.map section_entry secs)) ->
  exists current' logs' dates',
    fold_left process_line (flat_map section_lines secs)
      (current, logs, dates) = (current', logs', dates') /\
    logs' ++ [(current', dates')] =
      logs ++ (current, dates) :: List.map section_entry secs /\
    (secs <> [] -> dates' <> []).
Proof.
  intros Hwf. revert current logs dates.
  induction Hwf as [|[banner body] secs (Hb & Hbody & Hdates) _ IH];
    intros current logs dates Hnodup.
  - exists current, logs, dates. cbn. split; [reflexivity|].
    split; [reflexivity|]. intros H. contradiction.
  - cbn [fst snd] in *. cbn [flat_map section_lines fst snd].
    change (section_lines (banner, body)) with (banner :: body).
    cbn [app fold_left]. rewrite List.fold_left_app.
    rewrite process_banner by exact Hb.
    rewrite process_plain by exact Hbody. cbn [app].
    assert (Hfresh : ~ In current (List.map fst logs)).
    { rewrite List.map_app in Hnodup. cbn [List.map fst] in Hnodup.
      apply List.NoDup_remove_2 in Hnodup. intros Hin. apply Hnodup.
      apply in_or_app. left. exact Hin. }
    rewrite dict_set_fresh by exact Hfresh.
    destruct (IH (Some (slice_9_to_last banner)) (logs ++ [(current, dates)])
                (dates_of body))
      as (current' & logs' & dates' & Hrun & Hlogs & Hne).
    { rewrite <- app_assoc. exact Hnodup. }
    exists current', logs', dates'. split; [exact Hrun|].
    split; [rewrite Hlogs, <- app_assoc; reflexivity|].
    intros _. destruct secs as [|sec secs].
    + cbn in Hrun. injection Hrun as <- <- <-. exact Hdates.
    + apply Hne. discriminate.
Qed.

(** X16: for a log as the pipeline writes it -- timestamps before the first
    banner and in the section of every package, no package built twice --
    [process_log] makes one row for what comes before the first banner,
    named [None], and one row for every package, in the order of the log,
    each from the timestamps of its own section. *)
Theorem process_log_sections (before : list string)
    (secs : list (string * list string)) :
  Forall plain before ->
  dates_of before <> [] ->
  Forall well_formed_section secs ->
  List.NoDup (List.map (fun sec => slice_9_to_last (fst sec)) secs) ->
  process_log str_minutes (before ++ flat_map section_lines secs) =
  table_rows str_minutes
    ((None, dates_of before) :: List.map section_entry secs).
Proof.
  intros Hbefore Hdates Hwf Hnodup. unfold process_log. f_equal.
  unfold collect. rewrite List.fold_left_app.
  rewrite process_plain by exact Hbefore. cbn [app].
  destruct (process_sections secs None [] (dates_of before) Hwf)
    as (current' & logs' & dates' & Hrun & Hlogs & Hne).
  { cbn [app]. apply keys_nodup, Hnodup. }
  rewrite Hrun. cbn [app] in Hlogs.
  assert (Hd : dates' <> []).
  { destruct secs as [|sec secs]; [|apply Hne; discriminate].
    cbn in Hrun. injection Hrun as <- <- <-. exact Hdates. }
  destruct dates' as [|d dates']; [contradiction|].
  cbn [length Nat.ltb Nat.leb].
  rewrite <- Hlogs. apply dict_set_fresh.
  assert (Hall : List.NoDup (List.map fst (logs' ++ [(current', d :: dates')]))).
  { rewrite Hlogs. apply keys_nodup, Hnodup. }
  rewrite List.map_app in Hall. cbn [List.map fst] in Hall.
  apply List.NoDup_remove_2 in Hall. rewrite app_nil_r in Hall. exact Hall.
Qed.

Lemma dict_set_keeps_head (key : option string) (value : list string)
    (logs : logs_dict) :
  key <> None ->
  dict_set key value ((None, []) :: logs) =
  (None, []) :: dict_set key value logs.
Proof.
  intros Hkey. cbn [dict_set].
  destruct (decide (None = key)) as [<-|_]; [contradiction|reflexivity].
Qed.

Lemma process_keeps_head (lines : list string) (package : string)
    (logs : logs_dict) (dates : list string) :
  exists package' logs' dates',
    fold_left process_line lines (Some package, (None, []) :: logs, dates) =
    (Some package', (None, []) :: logs', dates').
Proof.
  revert package logs dates. induction lines as [|l lines IH];
    intros package logs dates.
  - exists package, logs, dates. reflexivity.
  - cbn [fold_left]. unfold process_line at 2.
    destruct (is_banner l).
    + rewrite dict_set_keeps_head by discriminate. apply IH.
    + destruct (find_date l); apply IH.
Qed.

(** X17: a log whose first banner comes before any timestamp cannot be
    summarised: the dictionary then holds the key [None] with no timestamp,
    and [process_log] raises [IndexError] on it, whatever else the log
    holds. *)
Theorem process_log_banner_first (before rest : list string)
    (banner : string) :
  Forall plain before ->
  dates_of before = [] ->
  is_banner banner = true ->
  process_log str_minutes (before ++ banner :: rest) =
  Raise (IndexError "list index out of range").
Proof.
  intros Hbefore Hdates Hbanner. unfold process_log, collect.
  rewrite List.fold_left_app, process_plain by exact Hbefore.
  rewrite Hdates. cbn [app fold_left].
  rewrite process_banner by exact Hbanner. cbn [dict_set].
  destruct (process_keeps_head rest (slice_9_to_last banner) [] [])
    as (package' & logs' & dates' & ->).
  destruct (0 <? length dates')%nat.
  - rewrite dict_set_keeps_head by discriminate. reflexivity.
  - reflexivity.
Qed.

End ProcessLog.

Section Timestamps.
Import Shapes CI BootstrapOutput PipelineUtils.

Lemma digit_cases (c : ascii) :
  is_digit c = true ->
  c = "0"%char \/ c = "1"%char \/ c = "2"%char \/ c = "3"%char \/
  c = "4"%char \/ c = "5"%char \/ c = "6"%char \/ c = "7"%char \/
  c = "8"%char \/ c = "9"%char.
Proof.
  destruct c as [[] [] [] [] [] [] [] []]; intros H; try discriminate H;
    tauto.
Qed.

(** A run of digits is the text of a decimal numeral. *)
Lemma digits_uint (ds : string) :
  all_chars is_digit ds = true ->
  exists d, NilEmpty.string_of_uint d = ds.
Proof.
  induction ds as [|c ds IH]; intros H.
  - exists Decimal.Nil. reflexivity.
  - cbn [all_chars] in H. apply andb_true_iff in H as [Hc Hds].
    destruct (IH Hds) as [d <-].
    destruct (digit_cases c Hc) as [->|[->|[->|[->|[->|[->|[->|[->|[->| ->]]]]]]]]].
    + exists (Decimal.D0 d). reflexivity.
    + exists (Decimal.D1 d). reflexivity.
    + exists (Decimal.D2 d). reflexivity.
    + exists (Decimal.D3 d). reflexivity.
    + exists (Decimal.D4 d). reflexivity.
    + exists (Decimal.D5 d). reflexivity.
    + exists (Decimal.D6 d). reflexivity.
    + exists (Decimal.D7 d). reflexivity.
    + exists (Decimal.D8 d). reflexivity.
    + exists (Decimal.D9 d). reflexivity.
Qed.

Lemma length_append (a b : string) :
  String.length (a +:+ b) = String.length a + String.length b.
Proof.
  induction a as [|c a IH]; [reflexivity|].
  change (String c a +:+ b) with (String c (a +:+ b)).
  cbn [String.length]. rewrite IH. reflexivity.
Qed.

Lemma length_zeros (n : nat) : String.length (zeros n) = n.
Proof. induction n as [|n IH]; [reflexivity|]. cbn. rewrite IH. reflexivity. Qed.

(** Writing a numeral without its leading zeros and padding it again gives
    the numeral. *)
Lemma pad_unorm (d : Decimal.uint) :
  d <> Decimal.Nil ->
  zeros (String.length (NilEmpty.string_of_uint d)
         - String.length (NilZero.string_of_uint (Decimal.unorm d)))
  +:+ NilZero.string_of_uint (Decimal.unorm d) =
  NilEmpty.string_of_uint d.
Proof.
  induction d as [|d IH|d _|d _|d _|d _|d _|d _|d _|d _|d _]; intros Hne;
    [contradiction| |..].
  2-10: unfold Decimal.unorm; cbn [Decimal.nzhead];
        unfold NilZero.string_of_uint; rewrite Nat.sub_diag; reflexivity.
  change (Decimal.unorm (Decimal.D0 d)) with (Decimal.unorm d).
  cbn [NilEmpty.string_of_uint String.length].
  destruct d as [|d'|d'|d'|d'|d'|d'|d'|d'|d'|d'] eqn:Ed; [reflexivity|..];
    rewrite <- Ed in *;
    (assert (Hd : d <> Decimal.Nil) by (rewrite Ed; discriminate));
    specialize (IH Hd);
    (assert (Hlen :
       String.length (NilZero.string_of_uint (Decimal.unorm d))
       <= String.length (NilEmpty.string_of_uint d))
     by (pose proof (f_equal String.length IH) as Hl;
         rewrite length_append, length_zeros in Hl; lia));
    rewrite Nat.sub_succ_l by exact Hlen;
    cbn [zeros]; change (String "0" ?a +:+ ?b) with (String "0" (a +:+ b));
    rewrite IH; reflexivity.
Qed.

Lemma zero_padded_digits (ds : string) :
  ds <> "" -> all_chars is_digit ds = true ->
  zero_padded (String.length ds) (decimal_go 0 ds) = ds.
Proof.
  intros Hne Hds. destruct (digits_uint ds Hds) as [d <-].
  assert (Hd : d <> Decimal.Nil) by (intros ->; apply Hne; reflexivity).
  rewrite decimal_go_uint. unfold zero_padded, str_of_N.
  rewrite DecimalN.Unsigned.to_of. apply pad_unorm, Hd.
Qed.

Lemma match_here_cons (p : ascii -> bool) (pattern : list (ascii -> bool))
    (c : ascii) (rest : string) :
  match_here (p :: pattern) (String c rest) =
  if p c then
    match match_here pattern rest with
    | Some matched => Some (String c matched)
    | None => None
    end
  else None.
Proof. reflexivity. Qed.

Ltac match_step :=
  match goal with
  | H : match_here (_ :: _) ?text = Some _ |- _ =>
    let c := fresh "c" in
    let rest := fresh "rest" in
    let m := fresh "m" in
    let Hc := fresh "Hc" in
    let Hm := fresh "Hm" in
    destruct text as [|c rest]; [discriminate H|];
    rewrite match_here_cons in H;
    match type of H with
    | (if ?p c then _ else _) = _ =>
      destruct (p c) eqn:Hc; [|discriminate H]
    end;
    match type of H with
    | match ?x with _ => _ end = _ =>
      destruct x as [m|] eqn:Hm; [|discriminate H]
    end;
    injection H as <-
  end.

(** The text of a timestamp: its six fields and what separates them. *)
Lemma timestamp_shape (text matched : string) :
  match_here date_pattern text = Some matched ->
  exists y m d h mi s,
    matched = y +:+ "-" +:+ m +:+ "-" +:+ d +:+ " " +:+ h +:+ ":" +:+ mi
              +:+ ":" +:+ s /\
    Forall (fun f => all_chars is_digit f = true) [y; m; d; h; mi; s] /\
    List.map String.length [y; m; d; h; mi; s] = [4; 2; 2; 2; 2; 2].
Proof.
  intros H. unfold date_pattern in H.
  do 19 match_step.
  match goal with
  | H : match_here [] _ = Some _ |- _ => cbn in H; injection H as <-
  end.
  repeat match goal with
         | H : is_char _ _ = true |- _ =>
           unfold is_char in H; apply Ascii.eqb_eq in H; subst
         end.
  match goal with
  | |- context [String ?c0 (String ?c1 (String ?c2 (String ?c3 (String "-"
         (String ?c5 (String ?c6 (String "-" (String ?c8 (String ?c9
         (String " " (String ?c11 (String ?c12 (String ":" (String ?c14
         (String ?c15 (String ":" (String ?c17 (String ?c18 ""))))))))))))))))))] =>
    exists (String c0 (String c1 (String c2 (String c3 "")))),
           (String c5 (String c6 "")), (String c8 (String c9 "")),
           (String c11 (String c12 "")), (String c14 (String c15 "")),
           (String c17 (String c18 ""))
  end.
  split; [reflexivity|]. split; [|reflexivity].
  repeat constructor; cbn [all_chars];
    repeat match goal with H : is_digit _ = true |- _ => rewrite H; clear H end;
    reflexivity.
Qed.

(** X18: the row of a package shows the first timestamp of its section as
    it stands in the log, and the minutes between the times of day of its
    first and last timestamps: the dates play no part, so whole days are
    dropped.  A section without timestamp raises [IndexError], a timestamp
    that names no real date or time raises [ValueError]. *)
Theorem table_row_outcome (str_minutes : Z -> string) (k : option string)
    (dates : list string) :
  table_row str_minutes (k, dates) =
  match dates with
  | [] => Raise (IndexError "list index out of range")
  | date :: _ =>
    match strptime date, strptime (List.last dates date) with
    | Ok first, Ok last =>
      Ok [str_key k; date;
          str_minutes ((second_of_day last - second_of_day first) mod 86400)%Z
          +:+ "m"]
    | Raise e, _ => Raise e
    | Ok _, Raise e => Raise e
    end
  end.
Proof.
  destruct dates as [|date rest]; [reflexivity|].
  unfold table_row.
  destruct (strptime date) as [first|e] eqn:Hfirst; [|reflexivity].
  cbn [mbind result_bind].
  destruct (strptime (List.last (date :: rest) date)) as [last|e];
    [|reflexivity].
  cbn [mbind result_bind]. unfold delta_seconds. do 3 f_equal.
  unfold strptime in Hfirst.
  destruct (bool_decide (match_here date_pattern date = Some date)) eqn:Hm;
    [|discriminate Hfirst].
  apply bool_decide_eq_true_1 in Hm. cbn [negb] in Hfirst.
  match type of Hfirst with
  | (if ?valid then _ else _) = _ => destruct valid; [|discriminate Hfirst]
  end.
  injection Hfirst as <-. unfold str_datetime.
  cbn [year month day hour minute second].
  destruct (timestamp_shape date date Hm)
    as (y & m & d & h & mi & s & -> & Hdigits & Hlen).
  repeat match goal with
         | H : Forall _ (_ :: _) |- _ =>
           let Hx := fresh "Hd" in apply Forall_cons in H as [Hx H]
         end.
  injection Hlen as Ly Lm Ld Lh Lmi Ls.
  destruct y as [|y0 [|y1 [|y2 [|y3 [|? ?]]]]]; try discriminate Ly.
  destruct m as [|m0 [|m1 [|? ?]]]; try discriminate Lm.
  destruct d as [|d0 [|d1 [|? ?]]]; try discriminate Ld.
  destruct h as [|h0 [|h1 [|? ?]]]; try discriminate Lh.
  destruct mi as [|i0 [|i1 [|? ?]]]; try discriminate Lmi.
  destruct s as [|s0 [|s1 [|? ?]]]; try discriminate Ls.
  cbv [field substring String.append].
  pose proof (zero_padded_digits (String y0 (String y1 (String y2 (String y3 "")))))
    as Ey.
  pose proof (fun a b => zero_padded_digits (String a (String b ""))) as E2.
  cbn [String.length] in Ey, E2.
  rewrite Ey by (discriminate || assumption).
  rewrite !E2 by (discriminate || assumption).
  reflexivity.
Qed.

End Timestamps.

Section ProcessLogRuns.
Import PipelineUtils BootstrapTime.

(** The theorem applies: a log with a line before the banner of [bob/a]
    and two lines after it. *)
Lemma process_log_sections_witness :
  process_log (fun seconds => str_of_Z (seconds / 60))
    (["2019-01-01 10:00:00 starting"] ++
     flat_map section_lines
       [("Building bob/a" +:+ String (ascii_of_nat 10) "",
         ["2019-01-01 10:00:05 clone"; "2019-01-02 10:02:05 done"])]) =
  Ok [ ["None"; "2019-01-01 10:00:00"; "0m"];
       ["bob/a"; "2019-01-01 10:00:05"; "2m"] ].
Proof.
  rewrite (process_log_sections (fun seconds => str_of_Z (seconds / 60))).
  - vm_compute. reflexivity.
  - repeat constructor.
  - vm_compute. discriminate.
  - repeat constructor. vm_compute. discriminate.
  - repeat constructor. intros H. destruct H.
Defined.

(** The theorem applies: a log that starts with a banner. *)
Lemma process_log_banner_first_witness :
  process_log (fun seconds => str_of_Z (seconds / 60))
    ([""] ++ ("Building bob/a" +:+ String (ascii_of_nat 10) "")
          :: ["2019-01-01 10:00:05 clone"]) =
  Raise (IndexError "list index out of range").
Proof.
  apply (process_log_banner_first (fun seconds => str_of_Z (seconds / 60))).
  - repeat constructor.
  - reflexivity.
  - reflexivity.
Defined.

End ProcessLogRuns.

(** * Requirements installed before a build *)

Section YumInstall.
Import Logic Observations RunFacts.
Context {local_fs : LocalFS} {constants : Constants} {tools : Tools}.

(** X19: on a docker runner, [build] installs the packages listed in
    [yum_requirements.txt] of a recipe before it looks at the recipe, and
    it does so in dry-run mode too: the command is run whatever [dry_run]
    is. *)
Theorem build_recipe_installs_requirements (recipe_dir : list string)
    (python : string) (no_test dry_run : bool) (upload_channel : string)
    (conda_config : CondaConfig) (arch d : string) (s : state)
    (tags : string) (requirements : list string) :
  os_path_exists (fs_of (world_of s)) d = true ->
  environ_of (world_of s) !! "CI_RUNNER_TAGS" = Some tags ->
  existsb (String.eqb "docker") (str_split tags ", ") = true ->
  os_path_exists (fs_of (world_of s))
    (os_path_join d ["yum_requirements.txt"]) = true ->
  read_lines (fs_of (world_of s)) (os_path_join d ["yum_requirements.txt"])
    = Ok requirements ->
  exists rest,
    trace (build_recipe recipe_dir python no_test dry_run upload_channel
             conda_config arch d s).2 =
    trace s ++
    [Logged INFO "Installing packages from yum_requirements.txt file using yum";
     RunCmdline (yum_install requirements)] ++ rest.
Proof.
  intros Hd Htags Hdocker Hyum Hread. unfold build_recipe.
  rewrite run_bind.
  change (path_exists d s) with (Ok (os_path_exists (fs_of (world_of s)) d), s).
  rewrite Hd. cbn [negb]. rewrite run_bind.
  change (@mret M _ unit tt s) with (Ok tt, s). cbn iota.
  rewrite run_bind.
  change (environ_get "CI_RUNNER_TAGS" s)
    with (Ok (environ_of (world_of s) !! "CI_RUNNER_TAGS"), s).
  rewrite Htags. cbn iota. rewrite run_bind.
  change (path_exists (os_path_join d ["yum_requirements.txt"]) s)
    with (Ok (os_path_exists (fs_of (world_of s))
                (os_path_join d ["yum_requirements.txt"])), s).
  rewrite Hyum. cbn iota. cbn [default].
  change (id tags) with tags.
  rewrite Hdocker. cbn [andb when]. rewrite run_bind.
  match goal with
  | |- context [match ?yum s with _ => _ end] =>
    assert (Hblock : exists r s1,
              yum s = (r, s1) /\
              trace s1 = trace s ++
                [Logged INFO
                   "Installing packages from yum_requirements.txt file using yum";
                 RunCmdline (yum_install requirements)])
  end.
  { run. rewrite Hread. run. fold (yum_install requirements).
    destruct (run_cmdline _ _); run; do 2 eexists;
      (split; [reflexivity|]); cbn [trace]; rewrite <- app_assoc; reflexivity. }
  destruct Hblock as (r & s1 & -> & Htrace).
  destruct r as [[]|e]; cbn [snd].
  - match goal with
    | |- exists rest, trace (?rest_of_body s1).2 = _ =>
      assert (Hrest : preserves (trace_ext (fun _ => True)) rest_of_body)
        by frame;
      destruct (Hrest s1) as (new & -> & _)
    end.
    exists new. rewrite Htrace, <- app_assoc. reflexivity.
  - exists []. rewrite Htrace. reflexivity.
Qed.


End YumInstall.

Section YumInstallRuns.
Import Sim Observations.

(** The theorem applies: a dry run on a docker runner, for a recipe that
    asks for [gcc]. *)
Lemma build_recipe_installs_requirements_witness :
  exists rest,
    trace (build_recipe (tools := sim_tools all_fine) ["/r"] "3.7" false true
             "channel" tt "linux-64" "/r"
             (initial (<["CI_RUNNER_TAGS" := "docker, linux"]>
                         (ci_environ "master"))
                [("/r", []); ("/r/yum_requirements.txt", ["gcc"])] ∅)).2 =
    [Logged INFO "Installing packages from yum_requirements.txt file using yum";
     RunCmdline ["/usr/bin/sudo"; "-n"; "yum"; "-y"; "install"; "gcc"]]
    ++ rest.
Proof.
  apply (build_recipe_installs_requirements (tools := sim_tools all_fine)
           ["/r"] "3.7" false true "channel" tt "linux-64" "/r"
           (initial (<["CI_RUNNER_TAGS" := "docker, linux"]>
                       (ci_environ "master"))
              [("/r", []); ("/r/yum_requirements.txt", ["gcc"])] ∅)
           "docker, linux" ["gcc"]); vm_compute; reflexivity.
Defined.

End YumInstallRuns.

(** * The artifacts of a deployment *)

Section DeployArtifacts.
Import Logic Observations RunFacts LoopFacts DeployFacts BaseDeployFacts.
Context {local_fs : LocalFS} {constants : Constants} {tools : Tools}.

Lemma flat_map_single {A B} (f : A -> B) (l : list A) :
  flat_map (fun x => [f x]) l = List.map f l.
Proof. induction l as [|x l IH]; [reflexivity|]. cbn. rewrite IH. reflexivity. Qed.

(** One artifact of [deploy]: it is passed to [deploy_conda_package]. *)
Lemma deploy_package_observed (arch : string) (stable public dry_run : bool)
    (k : string) (s0 s : state) :
  local_same s0 s ->
  let body :=
    username ← environ_getitem "DOCUSER";
    password ← environ_getitem "DOCPASS";
    deploy_conda_package k (Some arch) stable public username password
      false dry_run in
  exists new,
    trace (body s).2 = trace s ++ new /\
    deployed new `prefix_of` [(Some arch, k)] /\
    ((body s).1 = Ok tt ->
     deployed new = [(Some arch, k)] /\ local_same s0 (body s).2).
Proof.
  intros Hs body. subst body. run.
  destruct (environ_of (world_of s) !! "DOCUSER") as [u|]; run;
    [|exists []; rewrite app_nil_r; split; [reflexivity|];
      split; [apply prefix_nil | discriminate]].
  destruct (environ_of (world_of s) !! "DOCPASS") as [p|]; run;
    [|exists []; rewrite app_nil_r; split; [reflexivity|];
      split; [apply prefix_nil | discriminate]].
  destruct (deploy_conda_package_trace k (Some arch) stable public u p false
              dry_run s) as (rest & Htr & Hrest).
  eexists. split; [exact Htr|].
  assert (deployed (DeployCondaPackage k (Some arch) stable public u p false
                      dry_run :: rest) = [(Some arch, k)]) as ->.
  { change (DeployCondaPackage k (Some arch) stable public u p false dry_run
              :: rest)
      with ([DeployCondaPackage k (Some arch) stable public u p false dry_run]
              ++ rest).
    rewrite deployed_app, Hrest. reflexivity. }
  split; [reflexivity|]. intros _. split; [reflexivity|].
  transitivity s; [exact Hs | apply deploy_conda_package_local].
Qed.

(** X20: [deploy] hands to [deploy_conda_package], architecture by
    architecture and in the order [glob] found them, the artifacts of the
    build tree whose name starts with the name of the package: all of them
    when the command returns, a prefix of them when it raises. *)
Theorem deploy_own_packages (latest dry_run : bool) (s : state)
    (package group name visibility conda_root : string) :
  environ_of (world_of s) !! "CI_PROJECT_PATH" = Some package ->
  str_split package "/" = [group; name] ->
  environ_of (world_of s) !! "CI_PROJECT_VISIBILITY" = Some visibility ->
  environ_of (world_of s) !! "CONDA_ROOT" = Some conda_root ->
  let found arch :=
    glob_glob (fs_of (world_of s))
      (os_path_join conda_root ["conda-bld"; arch; name +:+ "*.tar.bz2"]) in
  let wanted :=
    flat_map (fun arch => List.map (fun k => (Some arch, k)) (found arch))
      archs in
  exists new,
    trace (deploy latest dry_run s).2 = trace s ++ new /\
    deployed new `prefix_of` wanted /\
    ((deploy latest dry_run s).1 = Ok tt -> deployed new = wanted).
Proof.
  intros Hpath Hsplit Hvis Hroot found wanted.
  remember (deploy latest dry_run s) as result eqn:Hresult.
  unfold deploy in Hresult. rewrite run_bind in Hresult.
  assert (Hwarn : exists warn,
            when dry_run msg_dry_run_deploy s =
            (Ok tt, {| world_of := world_of s; trace := trace s ++ warn |}) /\
            deployed warn = []).
  { unfold msg_dry_run_deploy. destruct dry_run; run.
    - eexists [_; _]. rewrite <- app_assoc. split; reflexivity.
    - exists []. rewrite app_nil_r. destruct s. split; reflexivity. }
  destruct Hwarn as (warn & Hrun & Hwarn). rewrite Hrun in Hresult.
  clear Hrun.
  set (s0 := {| world_of := world_of s; trace := trace s ++ warn |}) in *.
  rewrite run_bind in Hresult.
  change (environ_getitem "CI_PROJECT_PATH" s0)
    with (env_getitem (environ_of (world_of s)) "CI_PROJECT_PATH", s0)
    in Hresult.
  unfold env_getitem at 1 in Hresult. rewrite Hpath in Hresult.
  rewrite run_bind, Hsplit in Hresult.
  change (unpack2 [group; name] s0) with (Ok (group, name), s0) in Hresult.
  cbn beta iota in Hresult. rewrite run_bind in Hresult.
  change (environ_contains "CI_COMMIT_TAG" s0)
    with (Ok (env_contains (environ_of (world_of s)) "CI_COMMIT_TAG"), s0)
    in Hresult.
  cbn beta iota in Hresult. rewrite run_bind in Hresult.
  change (environ_getitem "CI_PROJECT_VISIBILITY" s0)
    with (env_getitem (environ_of (world_of s)) "CI_PROJECT_VISIBILITY", s0)
    in Hresult.
  unfold env_getitem at 1 in Hresult. rewrite Hvis in Hresult.
  cbn beta iota zeta in Hresult. rewrite run_bind in Hresult.
  match type of Hresult with
  | context [for_each archs ?body s0] =>
    destruct (for_each_observed deployed
                (fun arch => List.map (fun k => (Some arch, k)) (found arch))
                (local_same s) body)
      with (l := archs) (s := s0) as (new & Htr & Hpre & Hok);
      [reflexivity | apply deployed_app | | split; reflexivity |]
  end.
  - intros arch s2 [Henv Hfs]. cbn beta. unfold glob. run.
    rewrite Henv, Hroot, Hfs. run. fold (found arch).
    rewrite <- flat_map_single.
    match goal with
    | |- context [for_each (found arch) ?body s2] =>
      apply (for_each_observed deployed (fun k => [(Some arch, k)])
               (local_same s) body);
        [reflexivity | apply deployed_app | | split; assumption]
    end.
    intros k s3 Hs3.
    apply (deploy_package_observed arch _ _ dry_run k s s3 Hs3).
  - fold wanted in Hpre, Hok.
    match type of Hresult with
    | context [for_each archs ?body s0] =>
      destruct (for_each archs body s0) as [[[]|e] s1]
    end; cbn [fst snd] in *; cbn beta iota in Hresult.
    + match type of Hresult with
      | result = ?docs s1 =>
        assert (Hdocs : preserves (trace_ext (fun _ => False)) docs) by frame;
        destruct (Hdocs s1) as (none & Hnone & Hall)
      end.
      destruct none as [|ev none];
        [|apply Forall_cons in Hall as [[] _]].
      rewrite app_nil_r in Hnone. rewrite <- Hresult in Hnone.
      destruct (Hok eq_refl) as [Hnew _].
      exists (warn ++ new). rewrite Hnone, Htr. subst s0. cbn [trace].
      rewrite <- app_assoc, deployed_app, Hwarn, Hnew.
      split; [reflexivity|]. split; [reflexivity|]. reflexivity.
    + subst result. cbn [fst snd].
      exists (warn ++ new). rewrite Htr. subst s0. cbn [trace].
      rewrite <- app_assoc, deployed_app, Hwarn.
      split; [reflexivity|]. split; [exact Hpre|discriminate].
Qed.

End DeployArtifacts.

Section DeployArtifactsRuns.
Import Sim.

(** The theorem applies: of the three artifacts of the build tree of
    [bob.devtools], the package's own output is deployed. *)
Lemma deploy_own_packages_witness :
  deployed
    (trace (deploy (tools := sim_tools all_fine) true false
              (initial (ci_environ "master") built_tree ∅)).2) =
  [ (Some "linux-64",
     "/conda/conda-bld/linux-64/bob.devtools-1.0-py37_0.tar.bz2") ].
Proof.
  destruct (deploy_own_packages (tools := sim_tools all_fine) true false
              (initial (ci_environ "master") built_tree ∅)
              "bob/bob.devtools" "bob" "bob.devtools" "public" "/conda")
    as (new & Htrace & _ & Hall);
    [vm_compute; reflexivity .. |].
  rewrite Htrace. cbn [trace initial app].
  rewrite Hall by (vm_compute; reflexivity).
  vm_compute. reflexivity.
Defined.

End DeployArtifactsRuns.
